(** * DecoSolution: the tool layer over the todos and passengers tables

    A shallow embedding of the [execute] bodies of [server/tools.ts] and of
    the airline variant of the tool file, over an explicit model of the
    SQLite store they talk to.

    - [Js]       the JavaScript values and string primitives the tools use;
    - [Store]    the tables, the fault script of the store and the monad
                 in which a tool body runs;
    - [Tools]    [server/tools.ts];
    - [Hooks]    the cache updaters of [view/src/lib/hooks.ts];
    - [Airlines] the tool file with [CLEAR_DATABASE] and the [distance]
                 column.

    The [createPrivateTool] / [createTool] wrappers (authentication, schema
    validation of inputs) belong to the runtime; what is modelled is the
    function each wrapper receives as [execute]. *)

From Stdlib Require Import ZArith List Ascii String Bool Lia DecimalString DecimalNat.
From Stdlib Require Import SpecFloat.
From stdpp Require Import gmap strings list.

Local Open Scope Z_scope.

(* ===================================================================== *)
(** * JavaScript primitives *)
(* ===================================================================== *)

Module Js.

(** Strings are sequences of bytes holding the UTF-8 form of the
    JavaScript string.  Equality, [split] on an ASCII separator and
    [trim] agree with their UTF-16 originals on well-formed text. *)

Definition byte (n : nat) : ascii := ascii_of_nat n.
Definition bytes (l : list nat) : string := string_of_list_ascii (map byte l).

(** [s.split(sep)] for a one-character separator: never empty. *)
Fixpoint split (sep : ascii) (s : string) : list string :=
  match s with
  | EmptyString => [EmptyString]
  | String c s' =>
      if Ascii.eqb c sep then EmptyString :: split sep s'
      else match split sep s' with
           | h :: t => String c h :: t
           | [] => [String c EmptyString]
           end
  end.

Fixpoint drop_prefix (p s : string) : option string :=
  match p, s with
  | EmptyString, _ => Some s
  | String a p', String b s' => if Ascii.eqb a b then drop_prefix p' s' else None
  | String _ _, EmptyString => None
  end.

Definition starts_with (p s : string) : bool :=
  match drop_prefix p s with Some _ => true | None => false end.

(** WhiteSpace and LineTerminator code points of ECMAScript, in UTF-8:
    TAB LF VT FF CR SP, U+00A0, U+1680, U+2000..U+200A, U+2028, U+2029,
    U+202F, U+205F, U+3000, U+FEFF. *)
Definition whitespace : list string :=
  map bytes
    ([ [9]; [10]; [11]; [12]; [13]; [32]; [194; 160]; [225; 154; 128] ]
     ++ map (fun k => [226; 128; k]) [128; 129; 130; 131; 132; 133; 134; 135; 136; 137; 138]
     ++ [ [226; 128; 168]; [226; 128; 169]; [226; 128; 175]; [226; 129; 159];
          [227; 128; 128]; [239; 187; 191] ])%nat.

Fixpoint strip1 (ws : list string) (s : string) : option string :=
  match ws with
  | [] => None
  | p :: ws' => match drop_prefix p s with
                | Some r => Some r
                | None => strip1 ws' s
                end
  end.

Fixpoint strip (ws : list string) (fuel : nat) (s : string) : string :=
  match fuel with
  | O => s
  | S f => match strip1 ws s with
           | Some r => strip ws f r
           | None => s
           end
  end.

Definition rev_string (s : string) : string :=
  string_of_list_ascii (rev (list_ascii_of_string s)).

Definition trimStart (s : string) : string := strip whitespace (String.length s) s.
Definition trimEnd (s : string) : string :=
  rev_string (strip (map rev_string whitespace) (String.length s) (rev_string s)).
(** [s.trim()] *)
Definition trim (s : string) : string := trimEnd (trimStart s).

(** A string in a boolean position: only the empty string is falsy. *)
Definition truthy (s : string) : bool :=
  match s with EmptyString => false | _ => true end.

(** [v || d] where [v] is [undefined] (None) or a string. *)
Definition or_else (v : option string) (d : string) : string :=
  match v with
  | Some s => if truthy s then s else d
  | None => d
  end.

(** [v || null] *)
Definition or_null (v : option string) : option string :=
  match v with
  | Some s => if truthy s then Some s else None
  | None => None
  end.

(** [String(n)] / template interpolation of a non-negative integer. *)
Definition of_nat (n : nat) : string := NilZero.string_of_uint (Nat.to_uint n).

Fixpoint repeat_string (n : nat) (c : ascii) : string :=
  match n with O => EmptyString | S k => String c (repeat_string k c) end.

(** [s.padStart(n, c)] for a one-character filler. *)
Definition padStart (n : nat) (c : ascii) (s : string) : string :=
  (repeat_string (n - String.length s) c +:+ s)%nat.

(** What a [throw] carries: an [Error] with its message, or some other
    value (the handlers print 'Unknown error' for those). *)
Inductive exn : Type :=
| JsError (message : string)
| JsOther.

(** [error instanceof Error ? error.message : 'Unknown error'] *)
Definition error_message (e : exn) : string :=
  match e with
  | JsError m => m
  | JsOther => "Unknown error"
  end.

End Js.

(* ===================================================================== *)
(** * JavaScript numbers *)
(* ===================================================================== *)

Module JsNumber.

Import Js.

(** A Number is an IEEE 754 binary64 value. *)
Definition prec : Z := 53.
Definition emax : Z := 1024.

Definition number : Type := spec_float.

Definition NaN : number := S754_nan.
Definition zero : number := S754_zero false.
Definition add : number -> number -> number := SFadd prec emax.
Definition mul : number -> number -> number := SFmul prec emax.
Definition div : number -> number -> number := SFdiv prec emax.

(** The Number of an integer. *)
Definition of_Z (z : Z) : number := binary_normalize prec emax z 0 false.
Definition of_nat (n : nat) : number := of_Z (Z.of_nat n).

(** [isNaN(x)] *)
Definition isNaN (x : number) : bool :=
  match x with S754_nan => true | _ => false end.

(** [Math.round(x)]: the integer nearest to [x], ties towards +Infinity;
    zeros, infinities and NaN are returned as they are, and a result of
    zero keeps the sign of [x]. *)
Definition Math_round (x : number) : number :=
  match x with
  | S754_finite s m e =>
      if 0 <=? e then x
      else
        let v := if s then Z.neg m else Z.pos m in
        let n := (2 * v + 2 ^ (- e)) / 2 ^ (1 - e) in
        if n =? 0 then S754_zero s else of_Z n
  | _ => x
  end.

(** The Number nearest to [m * 10^e] (ties to even), with sign [neg]. *)
Definition of_decimal (neg : bool) (m : Z) (e : Z) : number :=
  match m with
  | Z.pos p =>
      if 0 <=? e then binary_normalize prec emax (if neg then - (m * 10 ^ e) else m * 10 ^ e) 0 neg
      else
        let '(q, e', loc) := SFdiv_core_binary prec emax m 0 (10 ^ (- e)) 0 in
        binary_round_aux prec emax neg q e' loc
  | _ => S754_zero neg
  end.

Definition is_digit (c : ascii) : bool :=
  ((48 <=? nat_of_ascii c) && (nat_of_ascii c <=? 57))%nat.

Definition digit_value (c : ascii) : Z := Z.of_nat (nat_of_ascii c - 48).

(** Reads the decimal digits at the head of [s] onto [acc]: the number
    read, how many digits it took, and what follows them. *)
Fixpoint digits (acc : Z) (n : nat) (s : string) : Z * nat * string :=
  match s with
  | String c s' =>
      if is_digit c then digits (10 * acc + digit_value c) (S n) s' else (acc, n, s)
  | EmptyString => (acc, n, s)
  end.

(** ExponentPart at the head of [s], 0 when there is none. *)
Definition exponent_part (s : string) : Z :=
  match s with
  | String c r =>
      if Ascii.eqb c "e" || Ascii.eqb c "E" then
        let '(neg, r') :=
          match r with
          | String "+" r' => (false, r')
          | String "-" r' => (true, r')
          | _ => (false, r)
          end in
        let '(ev, ne, _) := digits 0 0 r' in
        match ne with
        | O => 0
        | S _ => if neg then - ev else ev
        end
      else 0
  | EmptyString => 0
  end.

(** The longest prefix of [s] that is a StrUnsignedDecimalLiteral, as a
    Number with sign [neg]; NaN when no prefix is one. *)
Definition unsigned_literal (neg : bool) (s : string) : number :=
  if starts_with "Infinity" s then S754_infinity neg
  else
    let '(ip, ni, r1) := digits 0 0 s in
    match r1 with
    | String "." r2 =>
        let '(m, nf, r3) := digits ip 0 r2 in
        match ni, nf with
        | O, O => NaN
        | _, _ => of_decimal neg m (exponent_part r3 - Z.of_nat nf)
        end
    | _ =>
        match ni with
        | O => NaN
        | S _ => of_decimal neg ip (exponent_part r1)
        end
    end.

(** [parseFloat(s)] *)
Definition parseFloat (s : string) : number :=
  match trimStart s with
  | String "+" r => unsigned_literal false r
  | String "-" r => unsigned_literal true r
  | r => unsigned_literal false r
  end.

End JsNumber.

(* ===================================================================== *)
(** * Object literals used as tables *)
(* ===================================================================== *)

Module JsObject.

Import Js.

(** What a property of a counting table holds after [o[k] = (o[k] || 0) + 1]:
    a count, or text when the addition concatenated. *)
Inductive property : Type :=
| PNum (n : nat)
| PStr (s : string).

(** An object created by the literal [{}]: its own properties; its
    prototype is [Object.prototype]. *)
Definition object : Type := gmap string property.

Definition empty_object : object := ∅.

(** The function-valued properties every [{}] inherits. *)
Definition prototype_functions : list string :=
  [ "constructor"; "hasOwnProperty"; "isPrototypeOf"; "propertyIsEnumerable";
    "toLocaleString"; "toString"; "valueOf";
    "__defineGetter__"; "__defineSetter__"; "__lookupGetter__"; "__lookupSetter__" ].

Definition is_prototype_function (k : string) : bool :=
  existsb (String.eqb k) prototype_functions.

(** The accessor every [{}] inherits. *)
Definition proto_key : string := "__proto__".

(** A name that [{}] resolves without having it as an own property. *)
Definition inherited (k : string) : bool :=
  String.eqb k proto_key || is_prototype_function k.

(** The name of the function found under an inherited key:
    [Object.prototype.constructor] is [Object]. *)
Definition function_name (k : string) : string :=
  if String.eqb k "constructor" then "Object" else k.

(** What reading [o[k]] gives. *)
Inductive value : Type :=
| VUndefined
| VNum (n : nat)
| VStr (s : string)
| VFunction (name : string)
| VObjectPrototype.

(** [o[k]]: the own property, else what the prototype has under [k]. *)
Definition get (o : object) (k : string) : value :=
  match o !! k with
  | Some (PNum n) => VNum n
  | Some (PStr s) => VStr s
  | None =>
      if String.eqb k proto_key then VObjectPrototype
      else if is_prototype_function k then VFunction (function_name k)
      else VUndefined
  end.

(** [o[k] = v] for a primitive [v]: the inherited [__proto__] setter
    ignores primitives; any other key becomes an own property. *)
Definition set (o : object) (k : string) (v : property) : object :=
  if String.eqb k proto_key then o else <[k := v]> o.

(** [(v || 0) + 1] *)
Definition or_zero_plus_one (v : value) : property :=
  match v with
  | VUndefined => PNum 1
  | VNum n => PNum (n + 1)
  | VStr s => if truthy s then PStr (s +:+ "1") else PNum 1
  | VFunction name => PStr ("function " +:+ name +:+ "() { [native code] }1")
  | VObjectPrototype => PStr "[object Object]1"
  end.

(** [o[k] = (o[k] || 0) + 1] *)
Definition increment (o : object) (k : string) : object :=
  set o k (or_zero_plus_one (get o k)).

End JsObject.
(* ===================================================================== *)
(** * The store *)
(* ===================================================================== *)

Module Store.

Import Js.

(** [todosTable]: [id] is the primary key; [title] and [completed] are
    nullable columns, [completed] defaults to 0. *)
Record todo : Type := Todo {
  todo_id : Z;
  todo_title : option string;
  todo_completed : option Z
}.

(** The result of a statement or of a tool body. *)
Inductive outcome (A : Type) : Type :=
| Ok (a : A)
| Throw (e : exn).
Arguments Ok {A} a.
Arguments Throw {A} e.

Section World.

(** The row type of [passengersTable] differs between the two tool
    files; the store is generic in it. *)
Context {P : Type}.

(** The tables, and the script of the store: each awaited store call
    ([getDb], a select, an insert, an update, a delete) consumes one
    entry; [Some e] makes that call reject with [e] and leaves the
    tables alone, [None] (or an exhausted script) lets it through. *)
Record world : Type := World {
  todos : list todo;
  passengers : list P;
  faults : list (option exn)
}.

Definition M (A : Type) : Type := world -> outcome A * world.

Definition ret {A} (a : A) : M A := fun w => (Ok a, w).
Definition throw {A} (e : exn) : M A := fun w => (Throw e, w).
Definition bind {A B} (m : M A) (k : A -> M B) : M B :=
  fun w => match m w with
           | (Ok a, w') => k a w'
           | (Throw e, w') => (Throw e, w')
           end.

(** [try { body } catch (error) { handler }] *)
Definition try_catch {A} (body : M A) (handler : exn -> M A) : M A :=
  fun w => match body w with
           | (Ok a, w') => (Ok a, w')
           | (Throw e, w') => handler e w'
           end.

(** One round trip to the store. *)
Definition store_call : M unit :=
  fun w =>
    let w' := World (todos w) (passengers w) (tl (faults w)) in
    match faults w with
    | Some e :: _ => (Throw e, w')
    | _ => (Ok tt, w')
    end.

Definition read {A} (f : world -> A) : M A := fun w => (Ok (f w), w).
Definition write_todos (ts : list todo) : M unit :=
  fun w => (Ok tt, World ts (passengers w) (faults w)).
Definition write_passengers (ps : list P) : M unit :=
  fun w => (Ok tt, World (todos w) ps (faults w)).

(** [await getDb(env)] *)
Definition getDb : M unit := store_call.

(** The rowid SQLite gives a row inserted without one: one more than
    the largest in the table, 1 for an empty table. *)
Definition next_id (ids : list Z) : Z :=
  match ids with
  | [] => 1
  | i :: rest => 1 + fold_left Z.max rest i
  end.

(** [db.select().from(todosTable)] *)
Definition select_todos : M (list todo) :=
  bind store_call (fun _ => read todos).

(** [db.select().from(todosTable).where(eq(todosTable.id, id)).limit(1)] *)
Definition select_todo_by_id (id : Z) : M (list todo) :=
  bind store_call (fun _ =>
  read (fun w => firstn 1 (List.filter (fun t => todo_id t =? id) (todos w)))).

(** [db.insert(todosTable).values({title, completed}).returning({id})] *)
Definition insert_todo (title : option string) (completed : option Z) : M (list Z) :=
  bind store_call (fun _ =>
  bind (read (fun w => next_id (map todo_id (todos w)))) (fun id =>
  bind (read todos) (fun ts =>
  bind (write_todos (ts ++ [Todo id title completed])) (fun _ =>
  ret [id])))).

Definition set_completed (id : Z) (c : option Z) (t : todo) : todo :=
  if todo_id t =? id then Todo (todo_id t) (todo_title t) c else t.

(** [db.update(todosTable).set({completed}).where(eq(todosTable.id, id)).returning()] *)
Definition update_todo_completed (id : Z) (c : option Z) : M (list todo) :=
  bind store_call (fun _ =>
  bind (read todos) (fun ts =>
  bind (write_todos (map (set_completed id c) ts)) (fun _ =>
  read (fun w => List.filter (fun t => todo_id t =? id) (todos w))))).

(** [db.delete(todosTable).where(eq(todosTable.id, id))] *)
Definition delete_todo (id : Z) : M unit :=
  bind store_call (fun _ =>
  bind (read todos) (fun ts =>
  write_todos (List.filter (fun t => negb (todo_id t =? id)) ts))).

(** [db.select().from(passengersTable)] *)
Definition select_passengers : M (list P) :=
  bind store_call (fun _ => read passengers).

(** [db.select().from(passengersTable).limit(1)] *)
Definition select_passengers_limit1 : M (list P) :=
  bind store_call (fun _ => read (fun w => firstn 1 (passengers w))).

(** [db.delete(passengersTable)] *)
Definition delete_passengers : M unit :=
  bind store_call (fun _ => write_passengers []).

(** The first rejection among the next [n] store calls, if any. *)
Fixpoint pending_fault (n : nat) (fs : list (option exn)) : option exn :=
  match n, fs with
  | S _, Some e :: _ => Some e
  | S k, None :: fs' => pending_fault k fs'
  | _, _ => None
  end.

(** The store lets the next [n] calls through. *)
Definition answers (n : nat) (w : world) : Prop :=
  pending_fault n (faults w) = None.

(** The world after one store call. *)
Definition tick (w : world) : world :=
  World (todos w) (passengers w) (tl (faults w)).

End World.

Arguments world : clear implicits.
Arguments M : clear implicits.

Module Notations.
Notation "'let*' x ':=' m 'in' k" := (bind m (fun x => k))
  (at level 10, x name, m at level 100, k at level 200,
   format "'[v' 'let*'  x  :=  m  'in' '/' k ']'").
End Notations.

End Store.

(* ===================================================================== *)
(** * server/tools.ts *)
(* ===================================================================== *)

Module Tools.

Import Js JsNumber JsObject Store Store.Notations.

(** ** Todos *)

(** The todo object of the output schemas: [completed] is a boolean. *)
Record todo_view : Type := TodoView {
  id : Z;
  title : option string;
  completed : bool
}.

(** [todo.completed === 1] *)
Definition is_one (c : option Z) : bool :=
  match c with Some 1 => true | _ => false end.

(** The values [generatedTodo.object?.title] can take. *)
Inductive jsvalue : Type :=
| JUndefined
| JNull
| JString (s : string).

(** [String(v)] *)
Definition String_of (v : jsvalue) : string :=
  match v with
  | JUndefined => "undefined"
  | JNull => "null"
  | JString s => s
  end.

(** The reply of [AI_GENERATE_OBJECT]: [object] may be missing, and so
    may its [title]. *)
Record generated : Type := Generated {
  object : option jsvalue
}.

(** [generatedTodo.object?.title] *)
Definition object_title (g : generated) : jsvalue :=
  match object g with
  | Some v => v
  | None => JUndefined
  end.

Definition index0_error (field : string) : exn :=
  JsError ("Cannot read properties of undefined (reading '" +:+ field +:+ "')").

(** The output of DELETE_TODO. *)
Record delete_result : Type := DeleteResult {
  del_success : bool;
  deletedId : Z
}.

Section Todos.
Context {P : Type}.
Abbreviation M := (M P).

(** LIST_TODOS *)
Definition listTodos : M (list todo_view) :=
  let* _ := getDb in
  let* todos := select_todos in
  ret (map (fun todo =>
              TodoView (todo_id todo) (todo_title todo) (is_one (todo_completed todo)))
           todos).

(** GENERATE_TODO_WITH_AI; [reply] is what awaiting the text-generation
    collaborator gives. *)
Definition generateTodo (reply : outcome generated) : M todo_view :=
  let* _ := getDb in
  let* generatedTodo := (fun w => (reply, w)) in
  let generatedTodoTitle := String_of (object_title generatedTodo) in
  if negb (truthy generatedTodoTitle) then
    throw (JsError "Failed to generate todo")
  else
    let* todo := insert_todo (Some generatedTodoTitle) (Some 0) in
    match todo with
    | id0 :: _ => ret (TodoView id0 (Some generatedTodoTitle) false)
    | [] => throw (index0_error "id")
    end.

(** TOGGLE_TODO *)
Definition toggleTodo (context_id : Z) : M todo_view :=
  let* _ := getDb in
  let* currentTodo := select_todo_by_id context_id in
  match currentTodo with
  | [] => throw (JsError "Todo not found")
  | current :: _ =>
      let newCompletedStatus := if is_one (todo_completed current) then 0 else 1 in
      let* updatedTodo := update_todo_completed context_id (Some newCompletedStatus) in
      match updatedTodo with
      | updated :: _ =>
          ret (TodoView (todo_id updated) (todo_title updated)
                        (is_one (todo_completed updated)))
      | [] => throw (index0_error "id")
      end
  end.

(** DELETE_TODO *)
Definition deleteTodo (context_id : Z) : M delete_result :=
  let* _ := getDb in
  let* existingTodo := select_todo_by_id context_id in
  match existingTodo with
  | [] => throw (JsError "Todo not found")
  | _ :: _ =>
      let* _ := delete_todo context_id in
      ret (DeleteResult true context_id)
  end.

End Todos.

(** ** Passengers *)

(** A row of [passengersTable] (server/schema.ts): [text(..).notNull()]
    columns hold a string, the others a string or NULL. *)
Record passenger : Type := Passenger {
  passenger_id : Z;
  firstName : string;
  lastName : string;
  email : string;
  phone : option string;
  passportNumber : option string;
  nationality : option string;
  dateOfBirth : option string;
  seatNumber : option string;
  flightNumber : string;
  departureCity : string;
  arrivalCity : string;
  departureDate : string;
  ticketClass : option string;
  price : option string;
  status : option string;
  createdAt : option string
}.

(** The object [passengerData] the import loops build from a CSV line. *)
Module PassengerData.
Record t : Type := Make {
  firstName : string;
  lastName : string;
  email : string;
  phone : option string;
  passportNumber : option string;
  nationality : option string;
  dateOfBirth : option string;
  seatNumber : option string;
  flightNumber : string;
  departureCity : string;
  arrivalCity : string;
  departureDate : string;
  ticketClass : option string;
  price : option string;
  status : string
}.
End PassengerData.

Definition passengerData (values : list string) : PassengerData.t :=
  {| PassengerData.firstName := or_else (values !! 0%nat) "";
     PassengerData.lastName := or_else (values !! 1%nat) "";
     PassengerData.email := or_else (values !! 2%nat) "";
     PassengerData.phone := or_null (values !! 3%nat);
     PassengerData.passportNumber := or_null (values !! 4%nat);
     PassengerData.nationality := or_null (values !! 5%nat);
     PassengerData.dateOfBirth := or_null (values !! 6%nat);
     PassengerData.seatNumber := or_null (values !! 7%nat);
     PassengerData.flightNumber := or_else (values !! 8%nat) "";
     PassengerData.departureCity := or_else (values !! 9%nat) "";
     PassengerData.arrivalCity := or_else (values !! 10%nat) "";
     PassengerData.departureDate := or_else (values !! 11%nat) "";
     PassengerData.ticketClass := or_null (values !! 12%nat);
     PassengerData.price := or_null (values !! 13%nat);
     PassengerData.status := or_else (values !! 14%nat) "confirmed" |}.

(** The row the table gets for [passengerData]: the rowid is assigned and
    [created_at] takes its column default, the text CURRENT_TIMESTAMP. *)
Definition new_row (rowid : Z) (d : PassengerData.t) : passenger :=
  {| passenger_id := rowid;
     firstName := PassengerData.firstName d;
     lastName := PassengerData.lastName d;
     email := PassengerData.email d;
     phone := PassengerData.phone d;
     passportNumber := PassengerData.passportNumber d;
     nationality := PassengerData.nationality d;
     dateOfBirth := PassengerData.dateOfBirth d;
     seatNumber := PassengerData.seatNumber d;
     flightNumber := PassengerData.flightNumber d;
     departureCity := PassengerData.departureCity d;
     arrivalCity := PassengerData.arrivalCity d;
     departureDate := PassengerData.departureDate d;
     ticketClass := PassengerData.ticketClass d;
     price := PassengerData.price d;
     status := Some (PassengerData.status d);
     createdAt := Some "CURRENT_TIMESTAMP" |}.

Abbreviation M := (M passenger).

(** [db.insert(passengersTable).values(passengerData)] *)
Definition insert_passenger (d : PassengerData.t) : M unit :=
  let* _ := store_call in
  let* ps := read passengers in
  write_passengers (ps ++ [new_row (next_id (map passenger_id ps)) d]).

Definition newline : ascii := byte 10.
Definition comma : ascii := ",".

(** The output of IMPORT_PASSENGERS_FROM_CSV and POPULATE_TEST_DATA. *)
Record import_result : Type := ImportResult {
  success : bool;
  importedCount : nat;
  message : string
}.

(** [for (const line of dataLines) { if (line.trim()) { ...; importedCount++ } }],
    the loop both import tools run; it returns the final [importedCount]. *)
Fixpoint import_lines (dataLines : list string) (importedCount : nat) : M nat :=
  match dataLines with
  | [] => ret importedCount
  | line :: rest =>
      if truthy (trim line) then
        let values := split comma line in
        let* _ := insert_passenger (passengerData values) in
        import_lines rest (S importedCount)
      else import_lines rest importedCount
  end.

(** IMPORT_PASSENGERS_FROM_CSV *)
Definition importPassengersFromCSV (csvContent : string) : M import_result :=
  try_catch
    (let* _ := getDb in
     let lines := split newline (trim csvContent) in
     let dataLines := tl lines in
     let* importedCount := import_lines dataLines 0 in
     ret (ImportResult true importedCount
            ("Successfully imported " +:+ Js.of_nat importedCount +:+ " passengers from CSV")))
    (fun error =>
       ret (ImportResult false 0 ("Error importing CSV: " +:+ error_message error))).

(** The input of GET_PASSENGERS. *)
Module Context.
Record t : Type := Make {
  flightNumber : option string;
  departureCity : option string;
  arrivalCity : option string;
  ticketClass : option string;
  status : option string;
  limit : option Z
}.
End Context.

(** [if (context.f) passengers = passengers.filter(p => p.f === context.f)]
    for a column that holds a string. *)
Definition filter_by (wanted : option string) (field : passenger -> string)
    (passengers : list passenger) : list passenger :=
  match wanted with
  | Some v => if truthy v then List.filter (fun p => String.eqb (field p) v) passengers
              else passengers
  | None => passengers
  end.

(** The same for a nullable column: NULL is equal to no string. *)
Definition filter_by_nullable (wanted : option string) (field : passenger -> option string)
    (passengers : list passenger) : list passenger :=
  match wanted with
  | Some v => if truthy v
              then List.filter (fun p => match field p with
                                         | Some x => String.eqb x v
                                         | None => false
                                         end) passengers
              else passengers
  | None => passengers
  end.

(** [a.slice(0, end)] for an integer [end]: a negative [end] counts from
    the back. *)
Definition slice0 {A} (end_ : Z) (a : list A) : list A :=
  let len := Z.of_nat (length a) in
  let final := if end_ <? 0 then Z.max (len + end_) 0 else Z.min end_ len in
  firstn (Z.to_nat final) a.

(** [if (context.limit) passengers = passengers.slice(0, context.limit)];
    the limit ranges over the integers. *)
Definition apply_limit (limit : option Z) (passengers : list passenger) : list passenger :=
  match limit with
  | Some n => if n =? 0 then passengers else slice0 n passengers
  | None => passengers
  end.

(** The output of GET_PASSENGERS. *)
Record passengers_result : Type := PassengersResult {
  result_passengers : list passenger;
  totalCount : nat;
  result_message : string
}.

(** GET_PASSENGERS *)
Definition getPassengers (context : Context.t) : M passengers_result :=
  try_catch
    (let* _ := getDb in
     let* passengers := select_passengers in
     let passengers := filter_by (Context.flightNumber context) flightNumber passengers in
     let passengers := filter_by (Context.departureCity context) departureCity passengers in
     let passengers := filter_by (Context.arrivalCity context) arrivalCity passengers in
     let passengers := filter_by_nullable (Context.ticketClass context) ticketClass passengers in
     let passengers := filter_by_nullable (Context.status context) status passengers in
     let passengers := apply_limit (Context.limit context) passengers in
     ret (PassengersResult passengers (length passengers)
            ("Retrieved " +:+ Js.of_nat (length passengers) +:+ " passengers from database")))
    (fun error =>
       throw (JsError ("Error fetching passengers: " +:+ error_message error))).

(** The output of GET_PASSENGER_STATS. *)
Record stats : Type := Stats {
  totalPassengers : nat;
  byTicketClass : JsObject.object;
  byStatus : JsObject.object;
  byFlight : JsObject.object;
  averagePrice : number;
  stats_message : string
}.

(** The variables the statistics loop updates. *)
Record tally : Type := Tally {
  tally_byTicketClass : JsObject.object;
  tally_byStatus : JsObject.object;
  tally_byFlight : JsObject.object;
  totalPrice : number;
  validPrices : nat
}.

(** [if (passenger.price) { const price = parseFloat(..); if (!isNaN(price)) .. }]:
    the Number a row adds to the price total, if it adds one. *)
Definition parsed_price (passenger : passenger) : option number :=
  match price passenger with
  | Some s =>
      if truthy s then
        let price := parseFloat s in
        if negb (isNaN price) then Some price else None
      else None
  | None => None
  end.

(** One turn of [for (const passenger of allPassengers)]. *)
Definition count_passenger (a : tally) (passenger : passenger) : tally :=
  let ticketClass := or_else (ticketClass passenger) "unknown" in
  let byTicketClass := increment (tally_byTicketClass a) ticketClass in
  let status := or_else (status passenger) "unknown" in
  let byStatus := increment (tally_byStatus a) status in
  let flight := or_else (Some (flightNumber passenger)) "unknown" in
  let byFlight := increment (tally_byFlight a) flight in
  match parsed_price passenger with
  | Some price =>
      Tally byTicketClass byStatus byFlight (add (totalPrice a) price) (S (validPrices a))
  | None =>
      Tally byTicketClass byStatus byFlight (totalPrice a) (validPrices a)
  end.

Definition empty_tally : tally :=
  Tally empty_object empty_object empty_object zero 0.

(** [Math.round(x * 100) / 100] *)
Definition round_to_cents (x : number) : number :=
  div (Math_round (mul x (JsNumber.of_nat 100))) (JsNumber.of_nat 100).

(** GET_PASSENGER_STATS *)
Definition getPassengerStats : M stats :=
  try_catch
    (let* _ := getDb in
     let* allPassengers := select_passengers in
     match allPassengers with
     | [] => ret (Stats 0 empty_object empty_object empty_object zero
                    "No passengers found in database")
     | _ :: _ =>
         let a := fold_left count_passenger allPassengers empty_tally in
         let averagePrice :=
           if (0 <? validPrices a)%nat
           then div (totalPrice a) (JsNumber.of_nat (validPrices a))
           else zero in
         ret (Stats (length allPassengers)
                (tally_byTicketClass a) (tally_byStatus a) (tally_byFlight a)
                (round_to_cents averagePrice)
                ("Statistics calculated for " +:+ Js.of_nat (length allPassengers)
                 +:+ " passengers"))
     end)
    (fun error =>
       throw (JsError ("Error calculating passenger stats: " +:+ error_message error))).

(** The sample data POPULATE_TEST_DATA carries. *)
Definition csvData : string :=
"firstName,lastName,email,phone,passportNumber,nationality,dateOfBirth,seatNumber,flightNumber,departureCity,arrivalCity,departureDate,ticketClass,price,status
João,Silva,joao.silva@email.com,+55 11 99999-1111,BR123456,brasileiro,1985-03-15,12A,LA1234,São Paulo,Los Angeles,2024-01-15,economy,2500.00,confirmed
Maria,Santos,maria.santos@email.com,+55 21 88888-2222,BR789012,brasileira,1990-07-22,15B,LA1234,São Paulo,Los Angeles,2024-01-15,business,4500.00,confirmed
Carlos,Oliveira,carlos.oliveira@email.com,+55 31 77777-3333,BR345678,brasileiro,1988-11-08,18C,LA1234,São Paulo,Los Angeles,2024-01-15,economy,2500.00,confirmed
Ana,Costa,ana.costa@email.com,+55 41 66666-4444,BR901234,brasileira,1992-04-30,22D,LA1234,São Paulo,Los Angeles,2024-01-15,economy,2500.00,confirmed
Pedro,Ferreira,pedro.ferreira@email.com,+55 51 55555-5555,BR567890,brasileiro,1983-09-12,25E,LA1234,São Paulo,Los Angeles,2024-01-15,first,6500.00,confirmed
Lucia,Ribeiro,lucia.ribeiro@email.com,+55 61 44444-6666,BR234567,brasileira,1987-12-05,28F,LA1234,São Paulo,Los Angeles,2024-01-15,economy,2500.00,confirmed
Roberto,Almeida,roberto.almeida@email.com,+55 71 33333-7777,BR890123,brasileiro,1981-06-18,31G,LA1234,São Paulo,Los Angeles,2024-01-15,business,4500.00,confirmed
Fernanda,Lima,fernanda.lima@email.com,+55 81 22222-8888,BR456789,brasileira,1995-01-25,34H,LA1234,São Paulo,Los Angeles,2024-01-15,economy,2500.00,confirmed
Marcos,Pereira,marcos.pereira@email.com,+55 91 11111-9999,BR012345,brasileiro,1986-08-14,37I,LA1234,São Paulo,Los Angeles,2024-01-15,economy,2500.00,confirmed
Juliana,Martins,juliana.martins@email.com,+55 11 00000-0000,BR678901,brasileira,1993-05-20,40J,LA1234,São Paulo,Los Angeles,2024-01-15,business,4500.00,confirmed".

(** POPULATE_TEST_DATA *)
Definition populateTestData : M import_result :=
  try_catch
    (let* _ := getDb in
     let* existingPassengers := select_passengers_limit1 in
     match existingPassengers with
     | _ :: _ =>
         ret (ImportResult true 0
                "Database already contains passenger data. Use GET_PASSENGERS to retrieve data.")
     | [] =>
         let lines := split newline (trim csvData) in
         let dataLines := tl lines in
         let* importedCount := import_lines dataLines 0 in
         ret (ImportResult true importedCount
                ("Successfully populated database with " +:+ Js.of_nat importedCount
                 +:+ " test passengers"))
     end)
    (fun error =>
       ret (ImportResult false 0
              ("Error populating test data: " +:+ error_message error))).

End Tools.
(* ===================================================================== *)
(** * view/src/lib/hooks.ts: the cached todo list *)
(* ===================================================================== *)

Module Hooks.

Import Tools.

(** What the query cache holds under the key ["todos"]: the output of
    LIST_TODOS.  The updaters receive it as [old], which may be undefined
    (None), and test [old?.todos] before they touch it. *)
Record todos_data : Type := TodosData {
  cached_todos : option (list todo_view)
}.

(** The updater of [useGenerateTodoWithAI]'s [onSuccess]:
    [todos: [...old.todos, data.todo]]. *)
Definition add_generated (data_todo : todo_view) (old : option todos_data)
    : option todos_data :=
  match old with
  | Some (TodosData (Some todos)) => Some (TodosData (Some (todos ++ [data_todo])))
  | _ => old
  end.

(** The updater of [useToggleTodo]'s [onSuccess]:
    [old.todos.map(todo => todo.id === data.todo.id ? data.todo : todo)]. *)
Definition replace_toggled (data_todo : todo_view) (old : option todos_data)
    : option todos_data :=
  match old with
  | Some (TodosData (Some todos)) =>
      Some (TodosData (Some (map (fun todo => if id todo =? id data_todo
                                              then data_todo else todo) todos)))
  | _ => old
  end.

(** The updater of [useDeleteTodo]'s [onSuccess]:
    [old.todos.filter(todo => todo.id !== data.deletedId)]. *)
Definition remove_deleted (data : delete_result) (old : option todos_data)
    : option todos_data :=
  match old with
  | Some (TodosData (Some todos)) =>
      Some (TodosData (Some (List.filter (fun todo => negb (id todo =? deletedId data))
                                         todos)))
  | _ => old
  end.

End Hooks.
(* ===================================================================== *)
(** * The airline tool file (CLEAR_DATABASE, [distance] column) *)
(* ===================================================================== *)

Module Airlines.

Import Js Store Store.Notations.

(** A row of [passengersTable] in the schema with the [distance] column:
    every text column is nullable. *)
Record passenger : Type := Passenger {
  passenger_id : Z;
  firstName : option string;
  lastName : option string;
  email : option string;
  phone : option string;
  nationality : option string;
  dateOfBirth : option string;
  flightNumber : option string;
  departureCity : option string;
  arrivalCity : option string;
  departureDate : option string;
  price : option string;
  status : option string;
  distance : option string;
  createdAt : option string
}.

Abbreviation M := (M passenger).

(** The output of CLEAR_DATABASE. *)
Record clear_result : Type := ClearResult {
  clear_success : bool;
  deletedCount : nat;
  clear_message : string
}.

(** CLEAR_DATABASE *)
Definition clearDatabase : M clear_result :=
  try_catch
    (let* _ := getDb in
     let* existingPassengers := select_passengers in
     let deletedCount := length existingPassengers in
     if (deletedCount =? 0)%nat then
       ret (ClearResult true 0 "Database is already empty")
     else
       let* _ := delete_passengers in
       ret (ClearResult true deletedCount
              ("Successfully cleared database. Deleted " +:+ Js.of_nat deletedCount
               +:+ " passengers.")))
    (fun error =>
       ret (ClearResult false 0 ("Error clearing database: " +:+ error_message error))).

(** [hasExistingData(db)] *)
Definition hasExistingData : M bool :=
  let* existingPassengers := select_passengers_limit1 in
  ret (0 <? length existingPassengers)%nat.

Definition newline : ascii := byte 10.
Definition comma : ascii := ",".

(** The lines of the template literal [getCSVContent] returns. *)
Definition csv_lines : list string := [
  "firstName,lastName,email,nationality,dateOfBirth,departureCity,arrivalCity,departureDate,distance,flightCost";
  "  João,Silva,joao.silva@email.com,Brazilian,1985-03-15,São Paulo,Rio de Janeiro,2024-01-15,430,1200.00";
  "Maria,Santos,maria.santos@email.com,Brazilian,1990-07-22,Brasília,Salvador,2024-01-16,1200,2800.00";
  "Carlos,Oliveira,carlos.oliveira@email.com,Brazilian,1988-11-08,Recife,Fortaleza,2024-01-17,800,1900.00";
  "Ana,Costa,ana.costa@email.com,Brazilian,1992-04-30,Porto Alegre,Curitiba,2024-01-18,350,950.00";
  "Pedro,Ferreira,pedro.ferreira@email.com,Brazilian,1983-09-12,Manaus,Belém,2024-01-19,1300,3100.00";
  "Lucia,Ribeiro,lucia.ribeiro@email.com,Brazilian,1987-12-05,Goiânia,Cuiabá,2024-01-20,950,2200.00";
  "Roberto,Almeida,roberto.almeida@email.com,Brazilian,1981-06-18,Campo Grande,Porto Velho,2024-01-21,1800,4200.00";
  "Fernanda,Lima,fernanda.lima@email.com,Brazilian,1995-01-25,Teresina,Aracaju,2024-01-22,1100,2600.00";
  "Marcos,Pereira,marcos.pereira@email.com,Brazilian,1986-08-14,João Pessoa,Natal,2024-01-23,180,650.00";
  "Juliana,Martins,juliana.martins@email.com,Brazilian,1993-05-20,Vitória,Palmas,2024-01-24,1400,3300.00";
  "Ana,Silva,ana.silva@email.com,Brazilian,1990-03-15,São Paulo,Rio de Janeiro,2025-09-01,357,350";
  "Pedro,Santos,pedro.santos@email.com,Brazilian,1985-07-22,Rio de Janeiro,Belo Horizonte,2025-09-05,339,320";
  "Maria,Oliveira,maria.oliveira@email.com,Brazilian,1992-11-01,Belo Horizonte,Brasília,2025-09-10,586,450";
  "João,Costa,joao.costa@email.com,Brazilian,1988-04-20,Brasília,Curitiba,2025-09-15,935,680";
  "Julia,Souza,julia.souza@email.com,Brazilian,1995-01-30,Curitiba,Porto Alegre,2025-09-20,609,520";
  "Lucas,Pereira,lucas.pereira@email.com,Brazilian,1980-09-12,Porto Alegre,São Paulo,2025-09-25,851,600";
  "Mariana,Almeida,mariana.almeida@email.com,Brazilian,1993-06-08,Salvador,Recife,2025-09-30,680,500";
  "Gabriel,Ferreira,gabriel.ferreira@email.com,Brazilian,1987-02-18,Fortaleza,Natal,2025-10-01,430,400";
  "Larissa,Martins,larissa.martins@email.com,Brazilian,1991-10-05,Recife,Manaus,2025-10-05,2666,1200";
  "Rafael,Rodrigues,rafael.rodrigues@email.com,Brazilian,1986-12-28,Manaus,Salvador,2025-10-10,2697,1250";
  "Fernanda,Lima,fernanda.lima@email.com,Brazilian,1994-08-10,Florianópolis,Porto Alegre,2025-10-15,380,380";
  "Bruno,Gomes,bruno.gomes@email.com,Brazilian,1989-05-03,Vitória,Rio de Janeiro,2025-10-20,426,410";
  "Carolina,Carvalho,carolina.carvalho@email.com,Brazilian,1990-03-15,Goiânia,Brasília,2025-10-25,163,250";
  "Daniel,Melo,daniel.melo@email.com,Brazilian,1985-07-22,Campo Grande,Cuiabá,2025-10-30,408,390";
  "Isabela,Ribeiro,isabela.ribeiro@email.com,Brazilian,1992-11-01,Belém,São Luís,2025-11-01,403,400";
  "Guilherme,Dias,guilherme.dias@email.com,Brazilian,1988-04-20,Natal,Recife,2025-11-05,280,300";
  "Laura,Castro,laura.castro@email.com,Brazilian,1995-01-30,João Pessoa,Maceió,2025-11-10,465,420";
  "Diego,Nunes,diego.nunes@email.com,Brazilian,1980-09-12,Maceió,Salvador,2025-11-15,260,280";
  "Vitoria,Rosa,vitoria.rosa@email.com,Brazilian,1993-06-08,São Paulo,Fortaleza,2025-11-20,2362,1100";
  "André,Campos,andre.campos@email.com,Brazilian,1987-02-18,Rio de Janeiro,Recife,2025-11-25,1860,900";
  "Sophie,Dubois,sophie.dubois@email.com,French,1978-01-01,Belo Horizonte,Manaus,2025-12-01,2838,1300";
  "Marc,Durand,marc.durand@email.com,French,1982-02-10,Brasília,Belém,2025-12-05,1593,850";
  "Emily,Brown,emily.brown@email.com,American,1990-03-15,Curitiba,Campo Grande,2025-12-10,950,700";
  "Daniel,White,daniel.white@email.com,American,1985-07-22,Porto Alegre,Vitória,2025-12-15,1600,900";
  "Hannah,Green,hannah.green@email.com,British,1992-11-01,Salvador,João Pessoa,2025-12-20,700,550";
  "Mohammed,Khan,mohammed.khan@email.com,Indian,1988-04-20,Fortaleza,Cuiabá,2025-12-25,2800,1200";
  "Isabelle,Lefevre,isabelle.lefevre@email.com,French,1995-01-30,Recife,Goiânia,2026-01-01,1900,950";
  "Ahmed,Ali,ahmed.ali@email.com,Egyptian,1980-09-12,Manaus,São Luís,2026-01-05,2000,1000";
  "Olivia,Taylor,olivia.taylor@email.com,British,1993-06-08,Florianópolis,Brasília,2026-01-10,1100,750";
  "Liam,Murphy,liam.murphy@email.com,Irish,1987-02-18,Vitória,Curitiba,2026-01-15,1200,800";
  "Sarah,Jones,sarah.jones@email.com,American,1991-10-05,Goiânia,Salvador,2026-01-20,1400,880";
  "Chloe,Martin,chloe.martin@email.com,French,1986-12-28,Campo Grande,Natal,2026-01-25,2600,1150";
  "Sophie,Smith,sophie.smith@email.com,American,1994-08-10,Belém,Recife,2026-01-30,1600,900";
  "Leo,Dubois,leo.dubois@email.com,French,1989-05-03,São Luís,Manaus,2026-02-01,2000,1000";
  "Mia,Williams,mia.williams@email.com,British,1990-03-15,Natal,Maceió,2026-02-05,600,480";
  "Noah,Miller,noah.miller@email.com,American,1985-07-22,João Pessoa,Fortaleza,2026-02-10,530,450";
  "Emma,García,emma.garcia@email.com,Spanish,1992-11-01,Maceió,Belo Horizonte,2026-02-15,1300,850";
  "Benjamin,Davis,benjamin.davis@email.com,American,1988-04-20,São Paulo,Campo Grande,2026-02-20,870,650";
  "Ava,Johnson,ava.johnson@email.com,American,1995-01-30,Rio de Janeiro,Goiânia,2026-02-25,900,680";
  "Lucas,Perez,lucas.perez@email.com,Spanish,1980-09-12,Belo Horizonte,Belém,2026-03-01,2000,1000";
  "Isabella,Conti,isabella.conti@email.com,Italian,1993-06-08,Brasília,São Luís,2026-03-05,1500,850";
  "William,Brown,william.brown@email.com,British,1987-02-18,Curitiba,Natal,2026-03-10,2700,1200";
  "Sophia,Rossi,sophia.rossi@email.com,Italian,1991-10-05,Porto Alegre,Maceió,2026-03-15,2700,1200";
  "James,Wilson,james.wilson@email.com,American,1986-12-28,Salvador,Florianópolis,2026-03-20,1600,900";
  "Amelia,Moore,amelia.moore@email.com,American,1994-08-10,Fortaleza,Vitória,2026-03-25,1900,980";
  "Evelyn,Hall,evelyn.hall@email.com,American,1989-05-03,Recife,Goiânia,2026-03-30,1900,950";
  "Michael,King,michael.king@email.com,American,1990-03-15,Manaus,Fortaleza,2026-04-01,2380,1100";
  "Ethan,Wright,ethan.wright@email.com,American,1985-07-22,Florianópolis,São Paulo,2026-04-05,480,420";
  "Abigail,Lopez,abigail.lopez@email.com,Spanish,1992-11-01,Vitória,Salvador,2026-04-10,700,580";
  "Alexander,Hill,alexander.hill@email.com,American,1988-04-20,Goiânia,Manaus,2026-04-15,2280,1050";
  "Charlotte,Scott,charlotte.scott@email.com,American,1995-01-30,Campo Grande,Goiânia,2026-04-20,734,550";
  "Henry,Adams,henry.adams@email.com,American,1980-09-12,Belém,Fortaleza,2026-04-25,1315,800";
  "Ella,Baker,ella.baker@email.com,American,1993-06-08,São Luís,Belém,2026-04-30,403,400";
  "Sebastian,Nelson,sebastian.nelson@email.com,American,1987-02-18,Natal,João Pessoa,2026-05-01,170,250";
  "Grace,Carter,grace.carter@email.com,American,1991-10-05,João Pessoa,Recife,2026-05-05,108,200";
  "Samuel,Roberts,samuel.roberts@email.com,American,1986-12-28,Maceió,Recife,2026-05-10,200,280";
  "Lily,Phillips,lily.phillips@email.com,American,1994-08-10,São Paulo,Recife,2026-05-15,2122,1000";
  "Joseph,Campbell,joseph.campbell@email.com,American,1989-05-03,Rio de Janeiro,Brasília,2026-05-20,936,700";
  "Chloe,Parker,chloe.parker@email.com,American,1990-03-15,Belo Horizonte,Rio de Janeiro,2026-05-25,339,330";
  "David,Evans,david.evans@email.com,American,1985-07-22,Brasília,Manaus,2026-05-30,2699,1200";
  "Zoe,Collins,zoe.collins@email.com,American,1992-11-01,Curitiba,Salvador,2026-06-01,1842,950";
  "Andrew,Stewart,andrew.stewart@email.com,American,1988-04-20,Porto Alegre,Recife,2026-06-05,2808,1250";
  "Ella,Ramirez,ella.ramirez@email.com,Spanish,1995-01-30,Salvador,São Paulo,2026-06-10,1450,850";
  "Mason,Sanchez,mason.sanchez@email.com,Spanish,1980-09-12,Fortaleza,Belém,2026-06-15,1315,800";
  "Grace,Morris,grace.morris@email.com,American,1993-06-08,Recife,João Pessoa,2026-06-20,108,220";
  "Leo,Fisher,leo.fisher@email.com,American,1987-02-18,Manaus,Florianópolis,2026-06-25,3107,1350";
  "Victoria,Gonzales,victoria.gonzales@email.com,Spanish,1991-10-05,Florianópolis,Porto Alegre,2026-06-30,380,390";
  "Avery,Cooper,avery.cooper@email.com,American,1986-12-28,Vitória,Rio de Janeiro,2026-07-01,426,410";
  "Sofia,Rivera,sofia.rivera@email.com,Spanish,1994-08-10,Goiânia,Brasília,2026-07-05,163,260";
  "Penelope,Kelly,penelope.kelly@email.com,American,1989-05-03,Campo Grande,Cuiabá,2026-07-10,408,400";
  "Carter,Howard,carter.howard@email.com,American,1990-03-15,Belém,São Luís,2026-07-15,403,400";
  "Layla,Ward,layla.ward@email.com,American,1985-07-22,Natal,Recife,2026-07-20,280,310";
  "Ezra,Cox,ezra.cox@email.com,American,1992-11-01,João Pessoa,Maceió,2026-07-25,465,430";
  "Riley,Brooks,riley.brooks@email.com,American,1988-04-20,Maceió,Salvador,2026-07-30,260,290";
  "Nora,Bennett,nora.bennett@email.com,American,1995-01-30,São Paulo,Rio de Janeiro,2026-08-01,357,360";
  "Ana,Silva,ana.silva@email.com,Brazilian,1990-03-15,São Paulo,Rio de Janeiro,2025-09-01,357,350";
  "Pedro,Santos,pedro.santos@email.com,Brazilian,1985-07-22,Rio de Janeiro,Belo Horizonte,2025-09-05,339,320";
  "Maria,Oliveira,maria.oliveira@email.com,Brazilian,1992-11-01,Belo Horizonte,Brasília,2025-09-10,586,450";
  "João,Costa,joao.costa@email.com,Brazilian,1988-04-20,Brasília,Curitiba,2025-09-15,935,680";
  "Julia,Souza,julia.souza@email.com,Brazilian,1995-01-30,Curitiba,Porto Alegre,2025-09-20,609,520";
  "Lucas,Pereira,lucas.pereira@email.com,Brazilian,1980-09-12,Porto Alegre,São Paulo,2025-09-25,851,600";
  "Mariana,Almeida,mariana.almeida@email.com,Brazilian,1993-06-08,Salvador,Recife,2025-09-30,680,500";
  "Gabriel,Ferreira,gabriel.ferreira@email.com,Brazilian,1987-02-18,Fortaleza,Natal,2025-10-01,430,400";
  "Larissa,Martins,larissa.martins@email.com,Brazilian,1991-10-05,Recife,Manaus,2025-10-05,2666,1200";
  "Rafael,Rodrigues,rafael.rodrigues@email.com,Brazilian,1986-12-28,Manaus,Salvador,2025-10-10,2697,1250";
  "Fernanda,Lima,fernanda.lima@email.com,Brazilian,1994-08-10,Florianópolis,Porto Alegre,2025-10-15,380,380";
  "Bruno,Gomes,bruno.gomes@email.com,Brazilian,1989-05-03,Vitória,Rio de Janeiro,2025-10-20,426,410";
  "Carolina,Carvalho,carolina.carvalho@email.com,Brazilian,1990-03-15,Goiânia,Brasília,2025-10-25,163,250";
  "Daniel,Melo,daniel.melo@email.com,Brazilian,1985-07-22,Campo Grande,Cuiabá,2025-10-30,408,390";
  "Isabela,Ribeiro,isabela.ribeiro@email.com,Brazilian,1992-11-01,Belém,São Luís,2025-11-01,403,400";
  "Guilherme,Dias,guilherme.dias@email.com,Brazilian,1988-04-20,Natal,Recife,2025-11-05,280,300";
  "Laura,Castro,laura.castro@email.com,Brazilian,1995-01-30,João Pessoa,Maceió,2025-11-10,465,420";
  "Diego,Nunes,diego.nunes@email.com,Brazilian,1980-09-12,Maceió,Salvador,2025-11-15,260,280";
  "Vitoria,Rosa,vitoria.rosa@email.com,Brazilian,1993-06-08,São Paulo,Fortaleza,2025-11-20,2362,1100";
  "André,Campos,andre.campos@email.com,Brazilian,1987-02-18,Rio de Janeiro,Recife,2025-11-25,1860,900";
  "Sophie,Dubois,sophie.dubois@email.com,French,1978-01-01,Belo Horizonte,Manaus,2025-12-01,2838,1300";
  "Marc,Durand,marc.durand@email.com,French,1982-02-10,Brasília,Belém,2025-12-05,1593,850";
  "Emily,Brown,emily.brown@email.com,American,1990-03-15,Curitiba,Campo Grande,2025-12-10,950,700";
  "Daniel,White,daniel.white@email.com,American,1985-07-22,Porto Alegre,Vitória,2025-12-15,1600,900";
  "Hannah,Green,hannah.green@email.com,British,1992-11-01,Salvador,João Pessoa,2025-12-20,700,550";
  "Mohammed,Khan,mohammed.khan@email.com,Indian,1988-04-20,Fortaleza,Cuiabá,2025-12-25,2800,1200";
  "Isabelle,Lefevre,isabelle.lefevre@email.com,French,1995-01-30,Recife,Goiânia,2026-01-01,1900,950";
  "Ahmed,Ali,ahmed.ali@email.com,Egyptian,1980-09-12,Manaus,São Luís,2026-01-05,2000,1000";
  "Olivia,Taylor,olivia.taylor@email.com,British,1993-06-08,Florianópolis,Brasília,2026-01-10,1100,750";
  "Liam,Murphy,liam.murphy@email.com,Irish,1987-02-18,Vitória,Curitiba,2026-01-15,1200,800";
  "Sarah,Jones,sarah.jones@email.com,American,1991-10-05,Goiânia,Salvador,2026-01-20,1400,880";
  "Chloe,Martin,chloe.martin@email.com,French,1986-12-28,Campo Grande,Natal,2026-01-25,2600,1150";
  "Sophie,Smith,sophie.smith@email.com,American,1994-08-10,Belém,Recife,2026-01-30,1600,900";
  "Leo,Dubois,leo.dubois@email.com,French,1989-05-03,São Luís,Manaus,2026-02-01,2000,1000";
  "Mia,Williams,mia.williams@email.com,British,1990-03-15,Natal,Maceió,2026-02-05,600,480";
  "Noah,Miller,noah.miller@email.com,American,1985-07-22,João Pessoa,Fortaleza,2026-02-10,530,450";
  "Emma,García,emma.garcia@email.com,Spanish,1992-11-01,Maceió,Belo Horizonte,2026-02-15,1300,850";
  "Benjamin,Davis,benjamin.davis@email.com,American,1988-04-20,São Paulo,Campo Grande,2026-02-20,870,650";
  "Ava,Johnson,ava.johnson@email.com,American,1995-01-30,Rio de Janeiro,Goiânia,2026-02-25,900,680";
  "Lucas,Perez,lucas.perez@email.com,Spanish,1980-09-12,Belo Horizonte,Belém,2026-03-01,2000,1000";
  "Isabella,Conti,isabella.conti@email.com,Italian,1993-06-08,Brasília,São Luís,2026-03-05,1500,850";
  "William,Brown,william.brown@email.com,British,1987-02-18,Curitiba,Natal,2026-03-10,2700,1200";
  "Sophia,Rossi,sophia.rossi@email.com,Italian,1991-10-05,Porto Alegre,Maceió,2026-03-15,2700,1200";
  "James,Wilson,james.wilson@email.com,American,1986-12-28,Salvador,Florianópolis,2026-03-20,1600,900";
  "Amelia,Moore,amelia.moore@email.com,American,1994-08-10,Fortaleza,Vitória,2026-03-25,1900,980";
  "Evelyn,Hall,evelyn.hall@email.com,American,1989-05-03,Recife,Goiânia,2026-03-30,1900,950";
  "Michael,King,michael.king@email.com,American,1990-03-15,Manaus,Fortaleza,2026-04-01,2380,1100";
  "Ethan,Wright,ethan.wright@email.com,American,1985-07-22,Florianópolis,São Paulo,2026-04-05,480,420";
  "Abigail,Lopez,abigail.lopez@email.com,Spanish,1992-11-01,Vitória,Salvador,2026-04-10,700,580";
  "Alexander,Hill,alexander.hill@email.com,American,1988-04-20,Goiânia,Manaus,2026-04-15,2280,1050";
  "Charlotte,Scott,charlotte.scott@email.com,American,1995-01-30,Campo Grande,Goiânia,2026-04-20,734,550";
  "Henry,Adams,henry.adams@email.com,American,1980-09-12,Belém,Fortaleza,2026-04-25,1315,800";
  "Ella,Baker,ella.baker@email.com,American,1993-06-08,São Luís,Belém,2026-04-30,403,400";
  "Sebastian,Nelson,sebastian.nelson@email.com,American,1987-02-18,Natal,João Pessoa,2026-05-01,170,250";
  "Grace,Carter,grace.carter@email.com,American,1991-10-05,João Pessoa,Recife,2026-05-05,108,200";
  "Samuel,Roberts,samuel.roberts@email.com,American,1986-12-28,Maceió,Recife,2026-05-10,200,280";
  "Lily,Phillips,lily.phillips@email.com,American,1994-08-10,São Paulo,Recife,2026-05-15,2122,1000";
  "Joseph,Campbell,joseph.campbell@email.com,American,1989-05-03,Rio de Janeiro,Brasília,2026-05-20,936,700";
  "Chloe,Parker,chloe.parker@email.com,American,1990-03-15,Belo Horizonte,Rio de Janeiro,2026-05-25,339,330";
  "David,Evans,david.evans@email.com,American,1985-07-22,Brasília,Manaus,2026-05-30,2699,1200";
  "Zoe,Collins,zoe.collins@email.com,American,1992-11-01,Curitiba,Salvador,2026-06-01,1842,950";
  "Andrew,Stewart,andrew.stewart@email.com,American,1988-04-20,Porto Alegre,Recife,2026-06-05,2808,1250";
  "Ella,Ramirez,ella.ramirez@email.com,Spanish,1995-01-30,Salvador,São Paulo,2026-06-10,1450,850";
  "Mason,Sanchez,mason.sanchez@email.com,Spanish,1980-09-12,Fortaleza,Belém,2026-06-15,1315,800";
  "Grace,Morris,grace.morris@email.com,American,1993-06-08,Recife,João Pessoa,2026-06-20,108,220";
  "Leo,Fisher,leo.fisher@email.com,American,1987-02-18,Manaus,Florianópolis,2026-06-25,3107,1350";
  "Victoria,Gonzales,victoria.gonzales@email.com,Spanish,1991-10-05,Florianópolis,Porto Alegre,2026-06-30,380,390";
  "Avery,Cooper,avery.cooper@email.com,American,1986-12-28,Vitória,Rio de Janeiro,2026-07-01,426,410";
  "Sofia,Rivera,sofia.rivera@email.com,Spanish,1994-08-10,Goiânia,Brasília,2026-07-05,163,260";
  "Penelope,Kelly,penelope.kelly@email.com,American,1989-05-03,Campo Grande,Cuiabá,2026-07-10,408,400";
  "Carter,Howard,carter.howard@email.com,American,1990-03-15,Belém,São Luís,2026-07-15,403,400";
  "Layla,Ward,layla.ward@email.com,American,1985-07-22,Natal,Recife,2026-07-20,280,310";
  "Ezra,Cox,ezra.cox@email.com,American,1992-11-01,João Pessoa,Maceió,2026-07-25,465,430";
  "Riley,Brooks,riley.brooks@email.com,American,1988-04-20,Maceió,Salvador,2026-07-30,260,290";
  "Nora,Bennett,nora.bennett@email.com,American,1995-01-30,São Paulo,Rio de Janeiro,2026-08-01,357,360";
  "Owen,Reed,owen.reed@email.com,American,1980-09-12,Rio de Janeiro,Belo Horizonte,2026-08-05,339,325";
  "Scarlett,Cook,scarlett.cook@email.com,American,1993-06-08,Belo Horizonte,Brasília,2026-08-10,586,455";
  "Caleb,Morgan,caleb.morgan@email.com,American,1987-02-18,Brasília,Curitiba,2026-08-15,935,685";
  "Madeline,Bell,madeline.bell@email.com,American,1991-10-05,Curitiba,Porto Alegre,2026-08-20,609,525";
  "Jonathan,Murphy,jonathan.murphy@email.com,Irish,1986-12-28,Porto Alegre,São Paulo,2026-08-25,851,605";
  "Lillian,Bailey,lillian.bailey@email.com,American,1994-08-10,Salvador,Recife,2026-08-30,680,505";
  "Jaxon,Garcia,jaxon.garcia@email.com,Spanish,1989-05-03,Fortaleza,Natal,2026-09-01,430,405";
  "Natalie,White,natalie.white@email.com,American,1990-03-15,Recife,Manaus,2026-09-05,2666,1205";
  "Isaiah,Kelly,isaiah.kelly@email.com,American,1985-07-22,Manaus,Salvador,2026-09-10,2697,1255";
  "Mia,Ramirez,mia.ramirez@email.com,Spanish,1992-11-01,Florianópolis,Porto Alegre,2026-09-15,380,385";
  "Luna,King,luna.king@email.com,American,1988-04-20,Vitória,Rio de Janeiro,2026-09-20,426,415";
  "Asher,Parker,asher.parker@email.com,American,1995-01-30,Goiânia,Brasília,2026-09-25,163,255";
  "Skylar,Stewart,skylar.stewart@email.com,American,1980-09-12,Campo Grande,Cuiabá,2026-09-30,408,395";
  "Violet,Cruz,violet.cruz@email.com,Spanish,1993-06-08,Belém,São Luís,2026-10-01,403,405";
  "Brooks,Edwards,brooks.edwards@email.com,American,1987-02-18,Natal,Recife,2026-10-05,280,305";
  "Aurora,Gonzales,aurora.gonzales@email.com,Spanish,1991-10-05,João Pessoa,Maceió,2026-10-10,465,425";
  "Silas,Turner,silas.turner@email.com,American,1986-12-28,Maceió,Salvador,2026-10-15,260,285";
  "Everly,Mitchell,everly.mitchell@email.com,American,1994-08-10,São Paulo,Fortaleza,2026-10-20,2362,1105";
  "Declan,Phillips,declan.phillips@email.com,American,1989-05-03,Rio de Janeiro,Recife,2026-10-25,1860,905";
  "Willow,Rivera,willow.rivera@email.com,Spanish,1990-03-15,Belo Horizonte,Manaus,2026-10-30,2838,1305";
  "Ezra,Wood,ezra.wood@email.com,American,1985-07-22,Brasília,Belém,2026-11-01,1593,855";
  "Adeline,Barnes,adeline.barnes@email.com,American,1992-11-01,Curitiba,Campo Grande,2026-11-05,950,705";
  "Grayson,Ross,grayson.ross@email.com,American,1988-04-20,Porto Alegre,Vitória,2026-11-10,1600,905";
  "Eliza,Henderson,eliza.henderson@email.com,American,1995-01-30,Salvador,João Pessoa,2026-11-15,700,555";
  "Harrison,Coleman,harrison.coleman@email.com,American,1980-09-12,Fortaleza,Cuiabá,2026-11-20,2800,1205";
  "Maya,Jenkins,maya.jenkins@email.com,American,1993-06-08,Recife,Goiânia,2026-11-25,1900,955";
  "Leo,Perez,leo.perez@email.com,Spanish,1987-02-18,Manaus,São Luís,2026-11-30,2000,1005";
  "Naomi,Washington,naomi.washington@email.com,American,1991-10-05,Florianópolis,Brasília,2026-12-01,1100,755";
  "Arthur,Gonzales,arthur.gonzales@email.com,Spanish,1986-12-28,Vitória,Curitiba,2026-12-05,1200,805";
  "Delilah,Diaz,delilah.diaz@email.com,Spanish,1994-08-10,Goiânia,Salvador,2026-12-10,1400,885";
  "Finn,Butler,finn.butler@email.com,American,1989-05-03,Campo Grande,Natal,2026-12-15,2600,1155";
  "Ruby,Alexander,ruby.alexander@email.com,American,1990-03-15,Belém,Recife,2026-12-20,1600,905";
  "Gus,Fisher,gus.fisher@email.com,American,1985-07-22,São Luís,Manaus,2026-12-25,2000,1005";
  "Hazel,Flores,hazel.flores@email.com,Spanish,1992-11-01,Natal,Maceió,2026-12-30,600,485";
  "Kai,Bennett,kai.bennett@email.com,American,1988-04-20,João Pessoa,Fortaleza,2027-01-01,530,455";
  "Alice,Long,alice.long@email.com,American,1995-01-30,Maceió,Belo Horizonte,2027-01-05,1300,855";
  "Jasper,Ward,jasper.ward@email.com,American,1980-09-12,São Paulo,Campo Grande,2027-01-10,870,655";
  "Piper,Brooks,piper.brooks@email.com,American,1993-06-08,Rio de Janeiro,Goiânia,2027-01-15,900,685";
  "Sam,Ramirez,sam.ramirez@email.com,Spanish,1987-02-18,Belo Horizonte,Belém,2027-01-20,2000,1005";
  "River,Roberts,river.roberts@email.com,American,1989-05-03,Maceió,Recife,2027-04-01,200,285"
].

(** [getCSVContent()]: the lines above, one newline between two of them. *)
Definition getCSVContent : string :=
  String.concat (String newline EmptyString) csv_lines.

(** An element of what [parseCSVContent] returns. *)
Module Parsed.
Record t : Type := Make {
  firstName : string;
  lastName : string;
  email : string;
  nationality : string;
  dateOfBirth : string;
  departureCity : string;
  arrivalCity : string;
  departureDate : string;
  distance : string;
  flightCost : string
}.
End Parsed.

(** The function [parseCSVContent] maps over the non-blank data lines. *)
Definition parse_line (line : string) : Parsed.t :=
  let values := split comma line in
  {| Parsed.firstName := or_else (values !! 0%nat) "";
     Parsed.lastName := or_else (values !! 1%nat) "";
     Parsed.email := or_else (values !! 2%nat) "";
     Parsed.nationality := or_else (values !! 3%nat) "";
     Parsed.dateOfBirth := or_else (values !! 4%nat) "";
     Parsed.departureCity := or_else (values !! 5%nat) "";
     Parsed.arrivalCity := or_else (values !! 6%nat) "";
     Parsed.departureDate := or_else (values !! 7%nat) "";
     Parsed.distance := or_else (values !! 8%nat) "";
     Parsed.flightCost := or_else (values !! 9%nat) "" |}.

(** [parseCSVContent(csvContent)] *)
Definition parseCSVContent (csvContent : string) : list Parsed.t :=
  let lines := split newline (trim csvContent) in
  let dataLines := tl lines in
  map parse_line (List.filter (fun line => truthy (trim line)) dataLines).

(** [`BR${String(importedCount + 1).padStart(4, '0')}`] *)
Definition generated_flight (importedCount : nat) : string :=
  "BR" +:+ padStart 4 "0" (Js.of_nat (importedCount + 1)).

(** The row the table gets for the [passengerData] of [insertPassengers]:
    [phone] and [status] are not given and stay NULL, [created_at] takes its
    column default. *)
Definition new_row (rowid : Z) (importedCount : nat) (p : Parsed.t) : passenger :=
  {| passenger_id := rowid;
     firstName := Some (Parsed.firstName p);
     lastName := Some (Parsed.lastName p);
     email := Some (Parsed.email p);
     phone := None;
     nationality := Some (Parsed.nationality p);
     dateOfBirth := Some (Parsed.dateOfBirth p);
     flightNumber := Some (generated_flight importedCount);
     departureCity := Some (Parsed.departureCity p);
     arrivalCity := Some (Parsed.arrivalCity p);
     departureDate := Some (Parsed.departureDate p);
     price := Some (Parsed.flightCost p);
     status := None;
     distance := Some (Parsed.distance p);
     createdAt := Some "CURRENT_TIMESTAMP" |}.

(** [db.insert(passengersTable).values(passengerData)] *)
Definition insert_passenger (importedCount : nat) (p : Parsed.t) : M unit :=
  let* _ := store_call in
  let* ps := read passengers in
  write_passengers (ps ++ [new_row (next_id (map passenger_id ps)) importedCount p]).

(** The loop of [insertPassengers], from a given [importedCount]. *)
Fixpoint insert_from (importedCount : nat) (passengers : list Parsed.t) : M nat :=
  match passengers with
  | [] => ret importedCount
  | passenger :: rest =>
      let* _ := insert_passenger importedCount passenger in
      insert_from (S importedCount) rest
  end.

(** [insertPassengers(db, passengers)] *)
Definition insertPassengers (passengers : list Parsed.t) : M nat :=
  insert_from 0 passengers.

(** The output of POPULATE_TEST_DATA. *)
Record import_result : Type := ImportResult {
  success : bool;
  importedCount : nat;
  message : string
}.

(** POPULATE_TEST_DATA, over the text [getCSVContent] returns. *)
Definition populateTestData_with (csvContent : string) : M import_result :=
  try_catch
    (let* _ := getDb in
     let* existing := hasExistingData in
     if existing then
       ret (ImportResult true 0
              "Database already contains passenger data. Use CLEAR_DATABASE to clear it first, then POPULATE_TEST_DATA to populate again.")
     else
       let passengers := parseCSVContent csvContent in
       let* importedCount := insertPassengers passengers in
       ret (ImportResult true importedCount
              ("Successfully populated database with " +:+ Js.of_nat importedCount
               +:+ " test passengers from hardcoded CSV data")))
    (fun error =>
       ret (ImportResult false 0
              ("Error populating test data: " +:+ error_message error))).

(** POPULATE_TEST_DATA *)
Definition populateTestData : M import_result :=
  populateTestData_with getCSVContent.

(** The input of GET_PASSENGERS in this file: no [ticketClass] filter. *)
Module Context.
Record t : Type := Make {
  flightNumber : option string;
  departureCity : option string;
  arrivalCity : option string;
  status : option string;
  limit : option Z
}.
End Context.

(** An element of [cleanedPassengers]. *)
Module Cleaned.
Record t : Type := Make {
  id : Z;
  firstName : string;
  lastName : string;
  email : string;
  nationality : string;
  dateOfBirth : string;
  departureCity : string;
  arrivalCity : string;
  departureDate : string;
  distance : string;
  flightCost : string
}.
End Cleaned.

(** [if (context.f) passengers = passengers.filter(p => p.f === context.f)];
    every column of this schema is nullable, and NULL equals no string. *)
Definition filter_by (wanted : option string) (field : passenger -> option string)
    (passengers : list passenger) : list passenger :=
  match wanted with
  | Some v => if truthy v
              then List.filter (fun p => match field p with
                                         | Some x => String.eqb x v
                                         | None => false
                                         end) passengers
              else passengers
  | None => passengers
  end.

(** [if (context.limit) passengers = passengers.slice(0, context.limit)] *)
Definition apply_limit (limit : option Z) (passengers : list passenger) : list passenger :=
  match limit with
  | Some n => if n =? 0 then passengers else Tools.slice0 n passengers
  | None => passengers
  end.

(** The function mapped over [passengers] to clean them. *)
Definition clean (passenger : passenger) : Cleaned.t :=
  {| Cleaned.id := passenger_id passenger;
     Cleaned.firstName := or_else (firstName passenger) "";
     Cleaned.lastName := or_else (lastName passenger) "";
     Cleaned.email := or_else (email passenger) "";
     Cleaned.nationality := or_else (nationality passenger) "";
     Cleaned.dateOfBirth := or_else (dateOfBirth passenger) "";
     Cleaned.departureCity := or_else (departureCity passenger) "";
     Cleaned.arrivalCity := or_else (arrivalCity passenger) "";
     Cleaned.departureDate := or_else (departureDate passenger) "";
     Cleaned.distance := or_else (distance passenger) "";
     Cleaned.flightCost := or_else (price passenger) "" |}.

(** The output of GET_PASSENGERS. *)
Record passengers_result : Type := PassengersResult {
  result_passengers : list Cleaned.t;
  totalCount : nat;
  result_message : string
}.

(** GET_PASSENGERS *)
Definition getPassengers (context : Context.t) : M passengers_result :=
  try_catch
    (let* _ := getDb in
     let* passengers := select_passengers in
     let passengers := filter_by (Context.flightNumber context) flightNumber passengers in
     let passengers := filter_by (Context.departureCity context) departureCity passengers in
     let passengers := filter_by (Context.arrivalCity context) arrivalCity passengers in
     let passengers := filter_by (Context.status context) status passengers in
     let passengers := apply_limit (Context.limit context) passengers in
     let cleanedPassengers := map clean passengers in
     ret (PassengersResult cleanedPassengers (length cleanedPassengers)
            ("Retrieved " +:+ Js.of_nat (length cleanedPassengers)
             +:+ " passengers from database")))
    (fun error =>
       throw (JsError ("Error fetching passengers: " +:+ error_message error))).

End Airlines.
(* ===================================================================== *)
(** * Properties *)
(* ===================================================================== *)

Import Js Store Store.Notations.

(** ** The store monad *)

Section StoreFacts.
Context {P : Type}.
Implicit Types (w : world P) (id : Z).

Lemma answers_S n w :
  answers (S n) w -> store_call w = (Ok tt, tick w) /\ answers n (tick w).
Proof.
  unfold answers, store_call, tick. destruct w as [ts ps [|[e|] fs]]; simpl; try done.
  by destruct n.
Qed.

Lemma answers_le n m w : (m <= n)%nat -> answers n w -> answers m w.
Proof.
  unfold answers. destruct w as [ts ps fs]; simpl. revert m fs.
  induction n as [|n IH]; intros [|m] fs Hle H; try done; try lia.
  destruct fs as [|[e|] fs]; simpl in *; try done. apply IH; [lia|done].
Qed.

Lemma answers_nil n w : faults w = [] -> answers n w.
Proof. unfold answers. intros ->. by destruct n. Qed.

End StoreFacts.

(** ** Todos *)

Section TodoFacts.
Context {P : Type}.
Implicit Types (w : world P) (id : Z) (t : todo) (ts : list todo).
Import Tools.

Lemma filter_id_absent id ts :
  ~ In id (map todo_id ts) -> List.filter (fun t => todo_id t =? id) ts = [].
Proof.
  induction ts as [|x ts IH]; simpl; [done|]. intros Hn.
  destruct (Z.eqb_spec (todo_id x) id) as [E|_]; [tauto|]. apply IH. tauto.
Qed.

Lemma filter_id_unique t ts :
  List.NoDup (map todo_id ts) -> In t ts ->
  List.filter (fun x => todo_id x =? todo_id t) ts = [t].
Proof.
  induction ts as [|x ts IH]; simpl; [done|].
  intros Hnd [-> | Hin]; apply NoDup_cons_iff in Hnd as [Hx Hnd].
  - rewrite Z.eqb_refl. f_equal. by apply filter_id_absent.
  - destruct (Z.eqb_spec (todo_id x) (todo_id t)) as [E|_]; [|by apply IH].
    exfalso. apply Hx. rewrite E. by apply in_map.
Qed.

Lemma same_id_same_row t x ts :
  List.NoDup (map todo_id ts) -> In t ts -> In x ts -> todo_id x = todo_id t -> x = t.
Proof.
  intros Hnd Ht Hx E. pose proof (filter_id_unique t ts Hnd Ht) as F.
  assert (In x (List.filter (fun y => todo_id y =? todo_id t) ts)) as Hin.
  { apply filter_In. split; [done|]. by apply Z.eqb_eq. }
  rewrite F in Hin. simpl in Hin. by destruct Hin.
Qed.

Lemma set_completed_id id c t : todo_id (set_completed id c t) = todo_id t.
Proof. unfold set_completed. by destruct (todo_id t =? id). Qed.

Lemma set_completed_title id c t : todo_title (set_completed id c t) = todo_title t.
Proof. unfold set_completed. by destruct (todo_id t =? id). Qed.

Lemma set_completed_other id c t : todo_id t <> id -> set_completed id c t = t.
Proof. unfold set_completed. intros H. by destruct (Z.eqb_spec (todo_id t) id). Qed.

Lemma set_completed_same id c t :
  todo_id t = id -> set_completed id c t = Todo (todo_id t) (todo_title t) c.
Proof. unfold set_completed. intros ->. by rewrite Z.eqb_refl. Qed.

Lemma set_completed_twice id c1 c2 t :
  set_completed id c2 (set_completed id c1 t) = set_completed id c2 t.
Proof.
  destruct (Z.eq_dec (todo_id t) id) as [E|N].
  - rewrite (set_completed_same id c1 t E), (set_completed_same id c2 t E).
    by rewrite set_completed_same.
  - by rewrite (set_completed_other id c1 t N).
Qed.

Lemma map_set_completed_ids id c ts :
  map todo_id (map (set_completed id c) ts) = map todo_id ts.
Proof. rewrite map_map. apply map_ext. intros. apply set_completed_id. Qed.

(** What one successful toggle does. *)
Lemma toggleTodo_run w t :
  List.NoDup (map todo_id (todos w)) -> In t (todos w) -> answers 3 w ->
  toggleTodo (todo_id t) w =
    (Ok (TodoView (todo_id t) (todo_title t) (negb (is_one (todo_completed t)))),
     World (map (set_completed (todo_id t)
                   (Some (if is_one (todo_completed t) then 0 else 1))) (todos w))
           (passengers w) (tl (tl (tl (faults w))))).
Proof.
  intros Hnd Hin H3.
  apply answers_S in H3 as [E1 H2]. apply answers_S in H2 as [E2 H1].
  apply answers_S in H1 as [E3 _].
  unfold toggleTodo, getDb, select_todo_by_id, update_todo_completed, bind, read,
    write_todos, ret.
  rewrite E1, E2. cbn [todos tick]. rewrite (filter_id_unique t _ Hnd Hin). cbn [firstn].
  rewrite E3. cbn [todos tick passengers faults].
  set (c := Some (if is_one (todo_completed t) then 0 else 1)).
  assert (In (set_completed (todo_id t) c t) (map (set_completed (todo_id t) c) (todos w)))
    as Hin' by (by apply in_map).
  assert (List.NoDup (map todo_id (map (set_completed (todo_id t) c) (todos w)))) as Hnd'
    by (by rewrite map_set_completed_ids).
  pose proof (filter_id_unique _ _ Hnd' Hin') as F.
  rewrite set_completed_id in F. rewrite F.
  rewrite set_completed_id, set_completed_title.
  unfold set_completed, c. rewrite Z.eqb_refl. cbn [todo_completed].
  by destruct (is_one (todo_completed t)).
Qed.

End TodoFacts.

Section TodoClaims.
Context {P : Type}.
Implicit Types (w : world P) (id : Z) (t : todo) (ts : list todo).
Import Tools.

(** How LIST_TODOS and TOGGLE_TODO present a row. *)
Definition view (t : todo) : todo_view :=
  TodoView (todo_id t) (todo_title t) (is_one (todo_completed t)).

(** What TOGGLE_TODO may change in a row of the table. *)
Definition toggle_frame (id : Z) (t t' : todo) : Prop :=
  todo_id t' = todo_id t /\ todo_title t' = todo_title t /\ (todo_id t <> id -> t' = t).

Lemma toggle_frame_refl id ts : Forall2 (toggle_frame id) ts ts.
Proof. induction ts; constructor; [by repeat split | done]. Qed.

Lemma toggle_frame_map id c ts :
  Forall2 (toggle_frame id) ts (map (set_completed id c) ts).
Proof.
  induction ts as [|x ts IH]; simpl; constructor; [|done].
  repeat split; [apply set_completed_id | apply set_completed_title
                | apply set_completed_other].
Qed.

(** The frame of TOGGLE_TODO holds whatever the store does: a call that
    fails has changed nothing. *)
Lemma toggleTodo_frame_any w id :
  passengers (toggleTodo id w).2 = passengers w
  /\ Forall2 (toggle_frame id) (todos w) (todos (toggleTodo id w).2).
Proof.
  unfold toggleTodo, getDb, select_todo_by_id, update_todo_completed, bind, read,
    write_todos, ret, throw, store_call.
  destruct w as [ts ps fs]. cbn [todos passengers faults].
  destruct fs as [|[e|] fs]; cbn [tl todos passengers faults snd fst];
    try (split; [done | apply toggle_frame_refl]).
  - destruct (firstn 1 _) as [|cur ?]; cbn; [split; [done | apply toggle_frame_refl]|].
    destruct (List.filter _ (map _ ts)); cbn; (split; [done | apply toggle_frame_map]).
  - destruct fs as [|[e|] fs]; cbn [tl todos passengers faults snd fst];
      try (split; [done | apply toggle_frame_refl]).
    + destruct (firstn 1 _) as [|cur ?]; cbn; [split; [done | apply toggle_frame_refl]|].
      destruct (List.filter _ (map _ ts)); cbn; (split; [done | apply toggle_frame_map]).
    + destruct (firstn 1 _) as [|cur ?]; cbn; [split; [done | apply toggle_frame_refl]|].
      destruct fs as [|[e|] fs]; cbn [tl todos passengers faults snd fst];
        try (split; [done | apply toggle_frame_refl]);
        destruct (List.filter _ (map _ ts)); cbn; (split; [done | apply toggle_frame_map]).
Qed.

(** C4. For every todo [t] of the table (ids are a primary key) and a store
    that answers, TOGGLE_TODO on [t]'s id twice succeeds both times, the
    first call reports the flipped [completed], the second reports the
    original one, every row reads through [completed === 1] as it did
    before, and a row stored as 0 or 1 (the encoding the tools write) is
    back to the very same row. *)
Theorem toggleTodo_twice_restores w t :
  List.NoDup (map todo_id (todos w)) -> In t (todos w) -> answers 6 w ->
  exists r1 w1 r2 w2,
    toggleTodo (todo_id t) w = (Ok r1, w1)
    /\ toggleTodo (todo_id t) w1 = (Ok r2, w2)
    /\ completed r1 = negb (is_one (todo_completed t))
    /\ completed r2 = is_one (todo_completed t)
    /\ map view (todos w2) = map view (todos w)
    /\ passengers w2 = passengers w
    /\ (todo_completed t = Some 0 \/ todo_completed t = Some 1 -> todos w2 = todos w).
Proof.
  intros Hnd Hin H6.
  assert (answers 3 w) as H3 by (apply (answers_le 6); [lia | done]).
  pose proof (toggleTodo_run w t Hnd Hin H3) as R1.
  set (c1 := Some (if is_one (todo_completed t) then 0 else 1)) in *.
  set (w1 := World (map (set_completed (todo_id t) c1) (todos w)) (passengers w)
                   (tl (tl (tl (faults w))))) in *.
  set (t1 := set_completed (todo_id t) c1 t).
  assert (answers 3 w1) as H3'.
  { apply answers_S in H6 as [_ H6]. apply answers_S in H6 as [_ H6].
    apply answers_S in H6 as [_ H6]. exact H6. }
  assert (List.NoDup (map todo_id (todos w1))) as Hnd1.
  { unfold w1. cbn [todos]. by rewrite map_set_completed_ids. }
  assert (In t1 (todos w1)) as Hin1 by (by apply in_map).
  pose proof (toggleTodo_run w1 t1 Hnd1 Hin1 H3') as R2.
  assert (todo_id t1 = todo_id t) as Eid by apply set_completed_id.
  assert (todo_completed t1 = c1) as Ec.
  { unfold t1, set_completed. by rewrite Z.eqb_refl. }
  rewrite Eid, Ec in R2.
  eexists _, w1, _, _. split; [exact R1|]. split; [exact R2|].
  cbn [completed todos passengers]. unfold w1; cbn [todos passengers].
  split; [done|]. split.
  { unfold c1. by destruct (todo_completed t) as [[|[]|]|]. }
  split.
  { rewrite !map_map. apply map_ext_in. intros x Hx. unfold view.
    rewrite set_completed_twice, set_completed_id, set_completed_title. f_equal.
    destruct (Z.eq_dec (todo_id x) (todo_id t)) as [E|N];
      [|by rewrite set_completed_other].
    rewrite (set_completed_same _ _ _ E). cbn [todo_completed].
    rewrite (same_id_same_row t x _ Hnd Hin Hx E).
    unfold c1. by destruct (todo_completed t) as [[|[]|]|]. }
  split; [done|].
  intros H01. rewrite map_map. rewrite <- (map_id (todos w)) at 2.
  apply map_ext_in. intros x Hx. rewrite set_completed_twice.
  destruct (Z.eq_dec (todo_id x) (todo_id t)) as [E|N];
    [|by rewrite set_completed_other].
  rewrite (set_completed_same _ _ _ E).
  rewrite (same_id_same_row t x _ Hnd Hin Hx E).
  destruct t as [i ttl c]. cbn in *. unfold c1. cbn.
  by destruct H01 as [-> | ->].
Qed.

(** C10. For every id present in the todos table and a store that answers,
    TOGGLE_TODO succeeds, flips [completed] of the row with that id, and
    changes nothing else: every row keeps its id and title, every row with
    another id is untouched, and so is the passengers table. *)
Theorem toggleTodo_modifies_only_completed w t :
  List.NoDup (map todo_id (todos w)) -> In t (todos w) -> answers 3 w ->
  exists r w',
    toggleTodo (todo_id t) w = (Ok r, w')
    /\ In (Todo (todo_id t) (todo_title t)
                (Some (if is_one (todo_completed t) then 0 else 1))) (todos w')
    /\ Forall2 (toggle_frame (todo_id t)) (todos w) (todos w')
    /\ passengers w' = passengers w.
Proof.
  intros Hnd Hin H3. pose proof (toggleTodo_run w t Hnd Hin H3) as R.
  pose proof (toggleTodo_frame_any w (todo_id t)) as [Fp Ft].
  rewrite R in Fp, Ft. cbn [snd] in Fp, Ft.
  eexists _, _. split; [exact R|]. split; [|split; [exact Ft | exact Fp]].
  cbn [todos]. apply in_map_iff. exists t. split; [|done].
  unfold set_completed. by rewrite Z.eqb_refl.
Qed.

(** C8. For every id absent from the todos table, DELETE_TODO does not
    return: it throws, "Todo not found" when the store answers the lookup
    (otherwise the store's own error), and both tables are as before. *)
Theorem deleteTodo_absent_fails w id :
  ~ In id (map todo_id (todos w)) ->
  exists e w',
    deleteTodo id w = (Throw e, w')
    /\ todos w' = todos w
    /\ passengers w' = passengers w
    /\ (answers 2 w -> e = JsError "Todo not found").
Proof.
  intros Habs.
  unfold deleteTodo, getDb, select_todo_by_id, bind, read, throw, store_call, answers.
  destruct w as [ts ps fs]. cbn [todos passengers faults] in *.
  pose proof (filter_id_absent id ts Habs) as F.
  destruct fs as [|[e|] [|[e'|] fs]]; cbn [tl todos passengers faults];
    rewrite ?F; cbn; eexists _, _; repeat split; done.
Qed.

(** C2. When the text-generation collaborator answers with an empty title,
    GENERATE_TODO_WITH_AI does not return: it throws, "Failed to generate
    todo" when [getDb] went through (otherwise the store's own error), and
    no row is inserted: both tables are as before. *)
Theorem generateTodo_empty_title_fails w :
  exists e w',
    generateTodo (Ok (Generated (Some (JString "")))) w = (Throw e, w')
    /\ todos w' = todos w
    /\ passengers w' = passengers w
    /\ (answers 1 w -> e = JsError "Failed to generate todo").
Proof.
  unfold generateTodo, getDb, bind, throw, store_call, answers.
  destruct w as [ts ps fs]. cbn [todos passengers faults].
  destruct fs as [|[e|] fs]; cbn; eexists _, _; repeat split; done.
Qed.

(** A reply without an object, or without a title in it, is not an empty
    title for the tool: [String(undefined)] is the text "undefined", which
    is stored as the title of a new row. *)
Lemma generateTodo_missing_title w :
  answers 2 w ->
  exists w',
    generateTodo (Ok (Generated None)) w
    = (Ok (TodoView (next_id (map todo_id (todos w))) (Some "undefined") false), w')
    /\ todos w' = todos w ++ [Todo (next_id (map todo_id (todos w))) (Some "undefined") (Some 0)].
Proof.
  intros H2. apply answers_S in H2 as [E1 H1]. apply answers_S in H1 as [E2 _].
  unfold generateTodo, getDb, insert_todo, bind, read, write_todos, ret.
  rewrite E1. cbn. rewrite E2. cbn. eexists. split; done.
Qed.

End TodoClaims.

Definition two_todos : world unit :=
  World [Todo 1 (Some "water the cactus") (Some 0); Todo 2 None (Some 1)] [] [].

Lemma two_todos_nodup : List.NoDup (map todo_id (todos two_todos)).
Proof. repeat constructor; simpl; intuition discriminate. Defined.

Lemma toggleTodo_twice_restores_witness :
  exists r1 w1 r2 w2,
    Tools.toggleTodo 1 two_todos = (Ok r1, w1)
    /\ Tools.toggleTodo 1 w1 = (Ok r2, w2)
    /\ Tools.completed r1 = true
    /\ Tools.completed r2 = false
    /\ map view (todos w2) = map view (todos two_todos)
    /\ passengers w2 = passengers two_todos
    /\ (Some 0 = Some 0 \/ Some 0 = Some 1 -> todos w2 = todos two_todos).
Proof.
  apply (toggleTodo_twice_restores two_todos (Todo 1 (Some "water the cactus") (Some 0))).
  - exact two_todos_nodup.
  - simpl. left. reflexivity.
  - reflexivity.
Defined.

Lemma toggleTodo_modifies_only_completed_witness :
  exists r w',
    Tools.toggleTodo 2 two_todos = (Ok r, w')
    /\ In (Todo 2 None (Some 0)) (todos w')
    /\ Forall2 (toggle_frame 2) (todos two_todos) (todos w')
    /\ passengers w' = passengers two_todos.
Proof.
  apply (toggleTodo_modifies_only_completed two_todos (Todo 2 None (Some 1))).
  - exact two_todos_nodup.
  - simpl. right. left. reflexivity.
  - reflexivity.
Defined.

Lemma deleteTodo_absent_fails_witness :
  exists e w',
    Tools.deleteTodo 7 two_todos = (Throw e, w')
    /\ todos w' = todos two_todos
    /\ passengers w' = passengers two_todos
    /\ (answers 2 two_todos -> e = JsError "Todo not found").
Proof.
  apply (deleteTodo_absent_fails two_todos 7).
  simpl. intros [H | [H | []]]; discriminate H.
Defined.

(** ** What the todo tools keep true of the table *)

Section TodoInvariant.
Context {P : Type}.
Implicit Types (w : world P) (id : Z) (t : todo) (ts : list todo).
Import Tools.

(** [completed] holds the 0/1 encoding of a boolean. *)
Definition encoded t : Prop :=
  todo_completed t = Some 0 \/ todo_completed t = Some 1.

(** Ids are a primary key, and every row is encoded. *)
Definition todos_ok ts : Prop :=
  List.NoDup (map todo_id ts) /\ Forall encoded ts.

Lemma fold_max_ge (l : list Z) (a : Z) :
  a <= fold_left Z.max l a /\ forall x, In x l -> x <= fold_left Z.max l a.
Proof.
  revert a. induction l as [|y l IH]; intros a; cbn; [split; [lia | tauto]|].
  destruct (IH (Z.max a y)) as [H1 H2]. split; [lia|].
  intros x [-> | Hx]; [lia | by apply H2].
Qed.

Lemma next_id_fresh (ids : list Z) : ~ In (next_id ids) ids.
Proof.
  destruct ids as [|i rest]; [tauto|]. unfold next_id.
  destruct (fold_max_ge rest i) as [H1 H2]. intros [E | Hin]; [lia|].
  specialize (H2 _ Hin). lia.
Qed.

Lemma todos_ok_insert ts title :
  todos_ok ts -> todos_ok (ts ++ [Todo (next_id (map todo_id ts)) title (Some 0)]).
Proof.
  intros [Hnd Henc]. split.
  - rewrite map_app. cbn. apply NoDup_app_remove_l || idtac.
    rewrite <- (rev_involutive (map todo_id ts ++ _)). apply NoDup_rev.
    rewrite rev_app_distr. cbn. constructor.
    + rewrite <- in_rev. apply next_id_fresh.
    + by apply NoDup_rev.
  - apply Forall_app. split; [done|]. constructor; [by left | constructor].
Qed.

Lemma todos_ok_toggle ts id (b : bool) :
  todos_ok ts -> todos_ok (map (set_completed id (Some (if b then 0 else 1))) ts).
Proof.
  intros [Hnd Henc]. split; [by rewrite map_set_completed_ids|].
  apply Forall_map. eapply Forall_impl; [exact Henc|]. intros t Ht.
  unfold set_completed, encoded. destruct (todo_id t =? id); [|done].
  cbn. destruct b; [by left | by right].
Qed.

Lemma todos_ok_delete ts id :
  todos_ok ts -> todos_ok (List.filter (fun t => negb (todo_id t =? id)) ts).
Proof.
  intros [Hnd Henc]. split.
  - induction ts as [|t ts IH]; cbn; [constructor|].
    cbn in Hnd. apply NoDup_cons_iff in Hnd as [Hx Hnd'].
    apply Forall_cons in Henc as [_ Henc'].
    destruct (negb (todo_id t =? id)); [|by apply IH].
    cbn. constructor; [|by apply IH].
    intros Hin. apply Hx. apply in_map_iff in Hin as (x & E & Hin).
    apply filter_In in Hin as [Hin _]. apply in_map_iff. by exists x.
  - apply List.Forall_forall. intros t Hin. apply filter_In in Hin as [Hin _].
    by apply (proj1 (List.Forall_forall _ _) Henc).
Qed.

(** The three tools that write the todos table keep it well formed,
    whatever the store does. *)
Lemma todo_tools_keep_ok w :
  todos_ok (todos w) ->
  (forall reply, todos_ok (todos (generateTodo reply w).2))
  /\ (forall id, todos_ok (todos (toggleTodo id w).2))
  /\ (forall id, todos_ok (todos (deleteTodo id w).2)).
Proof.
  intros Hok. destruct w as [ts ps fs]. cbn [todos] in Hok. split; [|split].
  - intros reply. unfold generateTodo, getDb, insert_todo, bind, read, write_todos,
      ret, throw, store_call.
    destruct fs as [|[e|] fs]; cbn; try done.
    + destruct reply as [g|e']; cbn; try done.
      destruct (truthy (String_of (object_title g))); cbn; try done.
      by apply todos_ok_insert.
    + destruct reply as [g|e']; cbn; try done.
      destruct (truthy (String_of (object_title g))); cbn; try done.
      destruct fs as [|[e2|] fs]; cbn; try done; by apply todos_ok_insert.
  - intros id. unfold toggleTodo, getDb, select_todo_by_id, update_todo_completed,
      bind, read, write_todos, ret, throw, store_call.
    destruct fs as [|[e|] fs]; cbn; try done.
    + destruct (List.filter (fun t => todo_id t =? id) ts) as [|cur ?]; cbn; [done|].
      destruct (List.filter _ (map (set_completed _ _) ts)); cbn;
        by apply (todos_ok_toggle ts id (is_one (todo_completed cur))).
    + destruct fs as [|[e2|] fs]; cbn; try done;
        (destruct (List.filter (fun t => todo_id t =? id) ts) as [|cur ?]; cbn; [done|]).
      * destruct (List.filter _ (map (set_completed _ _) ts)); cbn;
          by apply (todos_ok_toggle ts id (is_one (todo_completed cur))).
      * destruct fs as [|[e3|] fs]; cbn; try done;
          destruct (List.filter _ (map (set_completed _ _) ts)); cbn;
          by apply (todos_ok_toggle ts id (is_one (todo_completed cur))).
  - intros id. unfold deleteTodo, getDb, select_todo_by_id, delete_todo,
      bind, read, write_todos, ret, throw, store_call.
    destruct fs as [|[e|] fs]; cbn; try done.
    + destruct (List.filter (fun t => todo_id t =? id) ts) as [|cur ?]; cbn; [done|].
      by apply todos_ok_delete.
    + destruct fs as [|[e2|] fs]; cbn; try done;
        (destruct (List.filter (fun t => todo_id t =? id) ts) as [|cur ?]; cbn; [done|]).
      * by apply todos_ok_delete.
      * destruct fs as [|[e3|] fs]; cbn; try done; by apply todos_ok_delete.
Qed.

End TodoInvariant.

(** ** GET_PASSENGERS *)

Section GetPassengers.
Import Tools.
Implicit Types (w : world passenger) (c : Context.t) (p : passenger).

(** A filter the tool applies: supplied and not the empty string. *)
Definition wants (wanted : option string) (actual : option string) : bool :=
  match wanted with
  | Some v => if truthy v
              then match actual with Some x => String.eqb x v | None => false end
              else true
  | None => true
  end.

(** The row passes every filter the tool applies. *)
Definition matches c p : bool :=
  wants (Context.flightNumber c) (Some (flightNumber p))
  && wants (Context.departureCity c) (Some (departureCity p))
  && wants (Context.arrivalCity c) (Some (arrivalCity p))
  && wants (Context.ticketClass c) (ticketClass p)
  && wants (Context.status c) (status p).

(** The same as a proposition: each supplied, non-empty filter equals the
    row's column. *)
Definition satisfies c p : Prop :=
  (forall v, Context.flightNumber c = Some v -> v <> "" -> flightNumber p = v)
  /\ (forall v, Context.departureCity c = Some v -> v <> "" -> departureCity p = v)
  /\ (forall v, Context.arrivalCity c = Some v -> v <> "" -> arrivalCity p = v)
  /\ (forall v, Context.ticketClass c = Some v -> v <> "" -> ticketClass p = Some v)
  /\ (forall v, Context.status c = Some v -> v <> "" -> status p = Some v).

Lemma truthy_nonempty s : truthy s = true <-> s <> "".
Proof. destruct s; simpl; split; intros; congruence. Qed.

Lemma wants_spec wanted actual :
  wants wanted actual = true <->
  (forall v, wanted = Some v -> v <> "" -> actual = Some v).
Proof.
  unfold wants. destruct wanted as [v|]; [|split; [intros _ ? ?; discriminate | done]].
  destruct (truthy v) eqn:T.
  - apply truthy_nonempty in T. destruct actual as [x|].
    + rewrite String.eqb_eq. split.
      * intros -> v' [= <-] _. done.
      * intros H. specialize (H v eq_refl T). congruence.
    + split; [discriminate|]. intros H. by specialize (H v eq_refl T).
  - split; [|done]. intros _ v' [= <-] N. apply truthy_nonempty in N. congruence.
Qed.

Lemma matches_spec c p : matches c p = true <-> satisfies c p.
Proof.
  unfold matches, satisfies. rewrite !andb_true_iff, !wants_spec.
  assert (forall (a : string) v, Some a = Some v <-> a = v) as S
    by (intros; split; congruence).
  setoid_rewrite S. tauto.
Qed.

Lemma filter_filter {A} (f g : A -> bool) (l : list A) :
  List.filter g (List.filter f l) = List.filter (fun x => f x && g x) l.
Proof.
  induction l as [|x l IH]; simpl; [done|].
  destruct (f x); simpl; [destruct (g x); by rewrite IH | done].
Qed.

Lemma filter_by_wants wanted field ps :
  filter_by wanted field ps = List.filter (fun p => wants wanted (Some (field p))) ps.
Proof.
  unfold filter_by, wants. destruct wanted as [v|].
  - destruct (truthy v); [done|]. symmetry. by apply forallb_filter_id, forallb_forall.
  - symmetry. by apply forallb_filter_id, forallb_forall.
Qed.

Lemma filter_by_nullable_wants wanted field ps :
  filter_by_nullable wanted field ps = List.filter (fun p => wants wanted (field p)) ps.
Proof.
  unfold filter_by_nullable, wants. destruct wanted as [v|].
  - destruct (truthy v); [done|]. symmetry. by apply forallb_filter_id, forallb_forall.
  - symmetry. by apply forallb_filter_id, forallb_forall.
Qed.

(** The five conditional filters select the rows that pass [matches]. *)
Lemma filters_matches c ps :
  filter_by_nullable (Context.status c) status
    (filter_by_nullable (Context.ticketClass c) ticketClass
       (filter_by (Context.arrivalCity c) arrivalCity
          (filter_by (Context.departureCity c) departureCity
             (filter_by (Context.flightNumber c) flightNumber ps))))
  = List.filter (matches c) ps.
Proof.
  rewrite !filter_by_nullable_wants, !filter_by_wants, !filter_filter.
  apply filter_ext. intros p. unfold matches. by rewrite !andb_assoc.
Qed.

(** What GET_PASSENGERS returns when the store answers. *)
Lemma getPassengers_run w c :
  answers 2 w ->
  let rows := apply_limit (Context.limit c) (List.filter (matches c) (passengers w)) in
  getPassengers c w =
    (Ok (PassengersResult rows (length rows)
           ("Retrieved " +:+ Js.of_nat (length rows) +:+ " passengers from database")),
     tick (tick w)).
Proof.
  intros H2. apply answers_S in H2 as [E1 H1]. apply answers_S in H1 as [E2 _].
  unfold getPassengers, try_catch, getDb, select_passengers, bind, read, ret.
  rewrite E1, E2. cbn [tick passengers]. by rewrite filters_matches.
Qed.

Lemma slice0_positive {A} (n : Z) (a : list A) :
  0 <= n -> slice0 n a = firstn (Z.to_nat n) a.
Proof.
  intros Hn. unfold slice0. destruct (Z.ltb_spec n 0); [lia|].
  destruct (Z.le_ge_cases n (Z.of_nat (length a))).
  - by rewrite Z.min_l.
  - rewrite Z.min_r by done. rewrite Nat2Z.id, firstn_all.
    symmetry. apply firstn_all2. lia.
Qed.

Lemma firstn_member {A} (n : nat) (a : list A) x : In x (firstn n a) -> In x a.
Proof.
  revert n. induction a as [|y a IH]; intros [|n]; simpl; try done.
  intros [-> | H]; [by left | right; by apply (IH n)].
Qed.

Lemma slice0_sublist {A} (n : Z) (a : list A) x : In x (slice0 n a) -> In x a.
Proof. unfold slice0. apply firstn_member. Qed.

Lemma apply_limit_In limit ps p : In p (apply_limit limit ps) -> In p ps.
Proof.
  unfold apply_limit. destruct limit as [n|]; [|done].
  destruct (n =? 0); [done|]. apply slice0_sublist.
Qed.

End GetPassengers.

Section GetPassengersClaims.
Import Tools.
Implicit Types (w : world passenger) (c : Context.t) (p : passenger).

(** C1, as the code has it. When the store answers, [totalCount] is the
    number of rows GET_PASSENGERS returns: with no limit, or a limit of 0,
    the number of rows that pass every supplied non-empty filter; with a
    positive limit N, the smaller of N and that number. *)
Theorem getPassengers_totalCount w c :
  answers 2 w ->
  exists r w',
    getPassengers c w = (Ok r, w')
    /\ totalCount r = length (result_passengers r)
    /\ (Context.limit c = None \/ Context.limit c = Some 0 ->
        totalCount r = length (List.filter (matches c) (passengers w)))
    /\ (forall N, Context.limit c = Some N -> 0 < N ->
        Z.of_nat (totalCount r)
        = Z.min N (Z.of_nat (length (List.filter (matches c) (passengers w))))).
Proof.
  intros H2. eexists _, _. split; [apply (getPassengers_run w c H2)|].
  cbn [totalCount result_passengers]. split; [done|]. split.
  - intros [-> | ->]; done.
  - intros N -> HN. unfold apply_limit.
    destruct (Z.eqb_spec N 0) as [->|_]; [lia|].
    rewrite slice0_positive by lia. rewrite length_firstn. lia.
Qed.

(** C5, as the code has it. When the store answers: for a positive limit N
    the rows returned are the first N rows that pass the filters, so at
    most N; every returned row is a stored row and equals each supplied
    non-empty filter on its column (an empty filter string is not
    applied); with no limit, or a limit of 0, all rows that pass are
    returned.  The tables are only read. *)
Theorem getPassengers_limit_and_filters w c :
  answers 2 w ->
  exists r w',
    getPassengers c w = (Ok r, w')
    /\ (forall N, Context.limit c = Some N -> 0 < N ->
        result_passengers r = firstn (Z.to_nat N) (List.filter (matches c) (passengers w))
        /\ Z.of_nat (length (result_passengers r)) <= N)
    /\ (forall p, In p (result_passengers r) -> In p (passengers w) /\ satisfies c p)
    /\ (Context.limit c = None \/ Context.limit c = Some 0 ->
        result_passengers r = List.filter (matches c) (passengers w))
    /\ passengers w' = passengers w /\ todos w' = todos w.
Proof.
  intros H2. eexists _, _. split; [apply (getPassengers_run w c H2)|].
  cbn [result_passengers tick passengers todos].
  split; [|split; [|split; [|done]]].
  - intros N -> HN. unfold apply_limit.
    destruct (Z.eqb_spec N 0) as [->|_]; [lia|].
    rewrite slice0_positive by lia. split; [done|]. rewrite length_firstn. lia.
  - intros p Hp. apply apply_limit_In, filter_In in Hp as [Hin Hm].
    split; [done|]. by apply matches_spec.
  - intros [-> | ->]; done.
Qed.

End GetPassengersClaims.

(** A table of three passengers, two of them on flight LA1234. *)
Definition sample_row (rowid : Z) (line : string) : Tools.passenger :=
  Tools.new_row rowid (Tools.passengerData (split Tools.comma line)).

Definition three_passengers : world Tools.passenger :=
  World []
    [ sample_row 1 "Ana,Lima,ana@mail.io,,,,,12A,LA1234,Recife,Natal,2024-01-15,economy,100.00,confirmed";
      sample_row 2 "Rui,Melo,rui@mail.io,,,,,14C,LA1234,Recife,Natal,2024-01-15,business,250.50,confirmed";
      sample_row 3 "Eva,Reis,eva@mail.io,,,,,2B,BR0077,Manaus,Natal,2024-02-01,economy,n/a,cancelled" ]
    [].

Definition no_filter : Tools.Context.t :=
  Tools.Context.Make None None None None None None.

Definition with_limit (n : Z) : Tools.Context.t :=
  Tools.Context.Make None None None None None (Some n).

Lemma getPassengers_totalCount_witness :
  exists r w',
    Tools.getPassengers (with_limit 2) three_passengers = (Ok r, w')
    /\ Tools.totalCount r = length (Tools.result_passengers r)
    /\ (Some 2 = None \/ Some 2 = Some 0 ->
        Tools.totalCount r
        = length (List.filter (matches (with_limit 2)) (passengers three_passengers)))
    /\ (forall N, Some 2 = Some N -> 0 < N ->
        Z.of_nat (Tools.totalCount r)
        = Z.min N (Z.of_nat (length (List.filter (matches (with_limit 2))
                                       (passengers three_passengers))))).
Proof. apply (getPassengers_totalCount three_passengers (with_limit 2)). reflexivity. Defined.

(** C1 as stated fails: with three stored rows, no filter and a limit of 1,
    [totalCount] is 1 while three rows pass the (empty set of) filters. *)
Lemma getPassengers_totalCount_follows_limit :
  exists r w',
    Tools.getPassengers (with_limit 1) three_passengers = (Ok r, w')
    /\ Tools.totalCount r = 1%nat
    /\ length (List.filter (matches (with_limit 1)) (passengers three_passengers)) = 3%nat.
Proof. eexists _, _. split; [reflexivity|]. split; reflexivity. Qed.

Lemma getPassengers_limit_and_filters_witness :
  exists r w',
    Tools.getPassengers (with_limit 2) three_passengers = (Ok r, w')
    /\ (forall N, Some 2 = Some N -> 0 < N ->
        Tools.result_passengers r
        = firstn (Z.to_nat N) (List.filter (matches (with_limit 2)) (passengers three_passengers))
        /\ Z.of_nat (length (Tools.result_passengers r)) <= N)
    /\ (forall p, In p (Tools.result_passengers r) ->
        In p (passengers three_passengers) /\ satisfies (with_limit 2) p)
    /\ (Some 2 = None \/ Some 2 = Some 0 ->
        Tools.result_passengers r
        = List.filter (matches (with_limit 2)) (passengers three_passengers))
    /\ passengers w' = passengers three_passengers /\ todos w' = todos three_passengers.
Proof. apply (getPassengers_limit_and_filters three_passengers (with_limit 2)). reflexivity. Defined.

(** C5 as stated fails on two inputs the schema of the tool admits.  With a
    limit of -1 the call on three rows returns two, which is more than the
    limit; with the filter [flightNumber: ''] it returns rows whose flight
    number is not the empty string. *)
Lemma getPassengers_limit_as_stated_fails :
  (exists r w',
     Tools.getPassengers (with_limit (-1)) three_passengers = (Ok r, w')
     /\ length (Tools.result_passengers r) = 2%nat
     /\ ~ (Z.of_nat (length (Tools.result_passengers r)) <= -1))
  /\ (exists r w' p,
        Tools.getPassengers (Tools.Context.Make (Some "") None None None None None)
          three_passengers = (Ok r, w')
        /\ In p (Tools.result_passengers r)
        /\ Tools.flightNumber p = "LA1234"
        /\ Tools.flightNumber p <> "").
Proof.
  split.
  - eexists _, _. split; [reflexivity|]. split; [reflexivity|]. cbn. lia.
  - eexists _, _, _. split; [reflexivity|]. split; [left; reflexivity|].
    split; [reflexivity | discriminate].
Qed.

(** ** CLEAR_DATABASE *)

Section ClearDatabase.
Import Airlines.
Implicit Types (w : world passenger).

(** The store calls CLEAR_DATABASE makes: [getDb], the select, and the
    delete when the select found rows. *)
Definition clear_calls w : nat :=
  match passengers w with [] => 2%nat | _ :: _ => 3%nat end.

(** C6. CLEAR_DATABASE always returns a result, whatever the store does,
    and never touches the todos.  When the store answers: on an empty table
    the result is success with [deletedCount] 0; otherwise every passenger
    row is deleted and [deletedCount] is their number.  When one of its
    store calls rejects with [e], the result is
    [{success: false, deletedCount: 0}] with the message of [e], and the
    table is as it was. *)
Theorem clearDatabase_never_fails w :
  exists r w',
    clearDatabase w = (Ok r, w')
    /\ todos w' = todos w
    /\ (answers 2 w -> passengers w = [] ->
        r = ClearResult true 0 "Database is already empty" /\ passengers w' = [])
    /\ (answers 3 w -> passengers w <> [] ->
        r = ClearResult true (length (passengers w))
              ("Successfully cleared database. Deleted "
               +:+ Js.of_nat (length (passengers w)) +:+ " passengers.")
        /\ passengers w' = [])
    /\ (forall e, pending_fault (clear_calls w) (faults w) = Some e ->
        r = ClearResult false 0 ("Error clearing database: " +:+ error_message e)
        /\ passengers w' = passengers w).
Proof.
  unfold clearDatabase, try_catch, getDb, select_passengers, delete_passengers,
    write_passengers, bind, read, ret, store_call, answers, clear_calls.
  destruct w as [ts ps fs]. cbn [todos passengers faults].
  destruct ps as [|p ps];
    destruct fs as [|[e1|] [|[e2|] [|[e3|] fs]]];
    cbn; eexists _, _; (split; [reflexivity|]); cbn;
    repeat split; try done; intros; simplify_eq; done.
Qed.

End ClearDatabase.

(** ** The import loops *)

Section StoreRuns.
Context {P : Type}.
Implicit Types (w : world P).

Lemma try_catch_returns {A} (body : M P A) (handler : exn -> M P A) w :
  (forall e w0, exists r w', handler e w0 = (Ok r, w')) ->
  exists r w', try_catch body handler w = (Ok r, w').
Proof.
  intros H. unfold try_catch. destruct (body w) as [[a|e] w0]; [by eexists _, _ | apply H].
Qed.

Lemma answers_drop n m w w' :
  answers (n + m) w -> faults w' = drop n (faults w) ->
  answers n w /\ answers m w'.
Proof.
  unfold answers. intros H ->. revert H. generalize (faults w) as fs.
  induction n as [|n IH]; intros fs H; [by rewrite drop_0|].
  destruct fs as [|[e|] fs]; cbn in *; try done.
  - split; [done|]. by destruct m.
  - by apply IH.
Qed.

Lemma tick_drop w :
  tick w = World (todos w) (passengers w) (drop 1 (faults w)).
Proof. unfold tick. by destruct (faults w). Qed.

End StoreRuns.

Section ImportTools.
Import Tools.
Implicit Types (w : world passenger) (ps : list passenger).

(** The table after inserting the rows of [data] one by one. *)
Definition insert_all ps (data : list PassengerData.t) : list passenger :=
  fold_left (fun ps d => ps ++ [new_row (next_id (map passenger_id ps)) d]) data ps.

(** The [passengerData] objects the loop builds: one per non-blank line. *)
Definition data_of (dataLines : list string) : list PassengerData.t :=
  map (fun line => passengerData (split comma line))
      (List.filter (fun line => truthy (trim line)) dataLines).

Lemma insert_all_length ps data :
  length (insert_all ps data) = (length ps + length data)%nat.
Proof.
  revert ps. induction data as [|d data IH]; intros ps; simpl; [lia|].
  rewrite IH, length_app. simpl. lia.
Qed.

Lemma insert_passenger_run w d :
  answers 1 w ->
  insert_passenger d w =
    (Ok tt, World (todos w)
              (passengers w ++ [new_row (next_id (map passenger_id (passengers w))) d])
              (drop 1 (faults w))).
Proof.
  intros H. apply answers_S in H as [E _].
  unfold insert_passenger, bind, read, write_passengers. rewrite E.
  cbn [tick todos passengers faults]. by destruct (faults w).
Qed.

(** The loop on a store that answers: every non-blank line becomes a row,
    in order, and is counted. *)
Lemma import_lines_run dataLines n w :
  answers (length (data_of dataLines)) w ->
  import_lines dataLines n w =
    (Ok (n + length (data_of dataLines))%nat,
     World (todos w) (insert_all (passengers w) (data_of dataLines))
           (drop (length (data_of dataLines)) (faults w))).
Proof.
  revert n w. induction dataLines as [|line rest IH]; intros n w H.
  - cbn. rewrite drop_0, Nat.add_0_r. by destruct w.
  - cbn [import_lines]. unfold data_of in *. cbn [List.filter] in *.
    destruct (truthy (trim line)); [|by apply IH].
    cbn [map length] in *. change (S ?k) with (1 + k)%nat in H.
    unfold bind.
    set (w1 := World (todos w)
                 (passengers w ++ [new_row (next_id (map passenger_id (passengers w)))
                                           (passengerData (split comma line))])
                 (drop 1 (faults w))).
    destruct (answers_drop _ _ w w1 H eq_refl) as [H1 Hr].
    rewrite (insert_passenger_run w _ H1). fold w1.
    rewrite (IH _ _ Hr). unfold w1. cbn [todos passengers faults insert_all fold_left].
    rewrite drop_drop, Nat.add_succ_r. reflexivity.
Qed.

Lemma insert_passenger_appends d w :
  exists added,
    passengers (insert_passenger d w).2 = passengers w ++ added
    /\ todos (insert_passenger d w).2 = todos w.
Proof.
  unfold insert_passenger, bind, store_call, read, write_passengers.
  destruct (faults w) as [|[e|] fs]; cbn; eexists; split; try done.
  by rewrite app_nil_r.
Qed.

(** The loop changes nothing but the passengers table, and only by
    appending to it, whatever the store does. *)
Lemma import_lines_appends dataLines n w :
  exists added,
    passengers (import_lines dataLines n w).2 = passengers w ++ added
    /\ todos (import_lines dataLines n w).2 = todos w.
Proof.
  revert n w. induction dataLines as [|line rest IH]; intros n w.
  - exists []. cbn. by rewrite app_nil_r.
  - cbn [import_lines]. destruct (truthy (trim line)); [|apply IH].
    unfold bind.
    destruct (insert_passenger_appends (passengerData (split comma line)) w)
      as (a1 & E1 & E2).
    destruct (insert_passenger _ w) as [[[]|e] w1]; cbn [snd] in *.
    + destruct (IH (S n) w1) as (a2 & E3 & E4). rewrite E3, E4, E1, E2.
      exists (a1 ++ a2). by rewrite app_assoc.
    + by exists a1.
Qed.

End ImportTools.

(** ** POPULATE_TEST_DATA (server/tools.ts) *)

Section PopulateTools.
Import Tools.
Implicit Types (w : world passenger).

Definition already_populated : import_result :=
  ImportResult true 0
    "Database already contains passenger data. Use GET_PASSENGERS to retrieve data.".

(** The data lines of the sample, and the table they make from empty. *)
Abbreviation sample_lines := (tl (split newline (trim csvData))).
Abbreviation sample_passengers := (insert_all [] (data_of sample_lines)).

Lemma sample_data_length : length (data_of sample_lines) = 10%nat.
Proof. vm_compute. reflexivity. Qed.

Lemma populateTestData_returns w : exists r w', populateTestData w = (Ok r, w').
Proof. apply try_catch_returns. intros e w0. by eexists _, _. Qed.

(** The guard: with a row in the table nothing is inserted. *)
Lemma populateTestData_guard w :
  passengers w <> [] ->
  exists r w',
    populateTestData w = (Ok r, w')
    /\ passengers w' = passengers w /\ todos w' = todos w
    /\ importedCount r = 0%nat
    /\ (answers 2 w -> r = already_populated).
Proof.
  intros Hne. unfold populateTestData, try_catch, getDb, select_passengers_limit1,
    bind, read, ret, store_call, answers.
  generalize (tl (split newline (trim csvData))). intros lines.
  destruct w as [ts [|p ps] fs]; [done|]. cbn [todos passengers faults].
  destruct fs as [|[e1|] [|[e2|] fs]]; cbn [tl todos passengers faults firstn];
    eexists _, _; (split; [reflexivity|]); repeat split; done.
Qed.

(** On an empty table and a store that answers, the ten sample rows are
    inserted. *)
Lemma populateTestData_fresh w :
  passengers w = [] -> answers 12 w ->
  populateTestData w =
    (Ok (ImportResult true 10 "Successfully populated database with 10 test passengers"),
     World (todos w) sample_passengers (drop 12 (faults w))).
Proof.
  intros Hemp H12.
  set (w2 := World (todos w) (passengers w) (drop 2 (faults w))).
  destruct (answers_drop 2 10 w w2 H12 eq_refl) as [H2 H10].
  apply answers_S in H2 as [E1 H1]. apply answers_S in H1 as [E2 _].
  pose proof sample_data_length as L.
  rewrite <- L in H10.
  unfold populateTestData, try_catch, getDb, select_passengers_limit1, bind, read, ret.
  rewrite E1, E2. cbn [tick passengers]. rewrite Hemp. cbn [firstn].
  assert (tick (tick w) = w2) as ->.
  { unfold w2. rewrite !tick_drop. cbn [todos passengers faults].
    by rewrite drop_drop. }
  rewrite (import_lines_run _ 0 w2 H10).
  rewrite L. unfold w2. cbn [todos passengers faults].
  rewrite Hemp, drop_drop. reflexivity.
Qed.

Lemma sample_passengers_length : length sample_passengers = 10%nat.
Proof. rewrite insert_all_length, sample_data_length. done. Qed.

(** Whatever the store does, the tool only appends passenger rows. *)
Lemma populateTestData_appends w :
  exists added,
    passengers (populateTestData w).2 = passengers w ++ added
    /\ todos (populateTestData w).2 = todos w.
Proof.
  unfold populateTestData, try_catch, getDb, select_passengers_limit1, bind, read, ret,
    store_call.
  generalize (tl (split newline (trim csvData))). intros lines.
  destruct w as [ts ps fs]. cbn [todos passengers faults].
  destruct fs as [|[e1|] fs]; cbn [tl todos passengers faults];
    try (exists []; cbn; by rewrite app_nil_r).
  - destruct (firstn 1 ps) eqn:F; [|exists []; cbn; by rewrite app_nil_r].
    destruct (import_lines_appends lines 0 (World ts ps [])) as (a & E1 & E2).
    destruct (import_lines _ _ _) as [[n|e] w3]; cbn in *; by exists a.
  - destruct fs as [|[e2|] fs]; cbn [tl todos passengers faults];
      try (exists []; cbn; by rewrite app_nil_r).
    + destruct (firstn 1 ps) eqn:F; [|exists []; cbn; by rewrite app_nil_r].
      destruct (import_lines_appends lines 0 (World ts ps [])) as (a & E1 & E2).
      destruct (import_lines _ _ _) as [[n|e] w3]; cbn in *; by exists a.
    + destruct (firstn 1 ps) eqn:F; [|exists []; cbn; by rewrite app_nil_r].
      destruct (import_lines_appends lines 0 (World ts ps fs)) as (a & E1 & E2).
      destruct (import_lines _ _ _) as [[n|e] w3]; cbn in *; by exists a.
Qed.

(** The whole statement for this tool file. *)
Definition populate_twice_tools w : Prop :=
  exists r1 w1 r2 w2,
    populateTestData w = (Ok r1, w1)
    /\ populateTestData w1 = (Ok r2, w2)
    /\ todos w2 = todos w
    (* a call that finds a row inserts nothing and reports 0 *)
    /\ (passengers w <> [] ->
        passengers w1 = passengers w /\ importedCount r1 = 0%nat
        /\ (answers 2 w -> r1 = already_populated))
    /\ (passengers w1 <> [] ->
        passengers w2 = passengers w1 /\ importedCount r2 = 0%nat
        /\ (answers 2 w1 -> r2 = already_populated))
    (* the row count is never doubled *)
    /\ (length (passengers w2) = (2 * length (passengers w1))%nat -> passengers w1 = [])
    (* from an empty table: ten rows, then a no-op *)
    /\ (passengers w = [] -> answers 14 w ->
        importedCount r1 = 10%nat /\ length (passengers w1) = 10%nat
        /\ r2 = already_populated /\ passengers w2 = passengers w1).

Lemma populateTestData_guard_of w r w' :
  populateTestData w = (Ok r, w') -> passengers w <> [] ->
  passengers w' = passengers w /\ importedCount r = 0%nat
  /\ (answers 2 w -> r = already_populated).
Proof.
  intros R Hne. destruct (populateTestData_guard w Hne) as (r0 & w0 & E & ? & ? & ? & ?).
  rewrite R in E. assert (r0 = r) as <- by congruence. assert (w0 = w') as <- by congruence.
  by repeat split.
Qed.

Lemma populateTestData_fresh_of w r w' :
  populateTestData w = (Ok r, w') -> passengers w = [] -> answers 12 w ->
  r = ImportResult true 10 "Successfully populated database with 10 test passengers"
  /\ w' = World (todos w) sample_passengers (drop 12 (faults w)).
Proof.
  intros R Hemp H12.
  pose proof (populateTestData_fresh w Hemp H12) as F. rewrite R in F.
  split; congruence.
Qed.

Lemma populateTestData_twice_tools w : populate_twice_tools w.
Proof.
  destruct (populateTestData_returns w) as (r1 & w1 & R1).
  destruct (populateTestData_returns w1) as (r2 & w2 & R2).
  exists r1, w1, r2, w2. split; [exact R1|]. split; [exact R2|].
  pose proof (populateTestData_guard_of w1 r2 w2 R2) as G2.
  split.
  { destruct (populateTestData_appends w) as (? & _ & T1).
    destruct (populateTestData_appends w1) as (? & _ & T2).
    rewrite R1 in T1. rewrite R2 in T2. cbn [snd] in *. congruence. }
  split; [exact (populateTestData_guard_of w r1 w1 R1)|].
  split; [exact G2|]. split.
  { intros Hlen. destruct (passengers w1) as [|p ps] eqn:E; [reflexivity|].
    destruct G2 as [G _]; [discriminate|]. rewrite G in Hlen. cbn [length] in Hlen. lia. }
  intros Hemp H14.
  assert (answers 12 w) as H12 by (apply (answers_le 14); [lia | exact H14]).
  destruct (populateTestData_fresh_of w r1 w1 R1 Hemp H12) as [Er Ew].
  pose proof sample_passengers_length as L.
  assert (passengers w1 = sample_passengers) as Ep by (rewrite Ew; reflexivity).
  split; [rewrite Er; reflexivity|]. split; [rewrite Ep; exact L|].
  destruct G2 as (G & _ & Ga).
  { rewrite Ep. intros E. rewrite E in L. discriminate L. }
  split; [|exact G]. apply Ga.
  destruct (answers_drop 12 2 w w1 H14) as [_ H]; [rewrite Ew; reflexivity | exact H].
Qed.

End PopulateTools.

(** ** POPULATE_TEST_DATA (airline tool file) *)

Section PopulateAirlines.
Import Airlines.
Implicit Types (w : world passenger) (ps : list passenger).

Definition already_populated_airlines : import_result :=
  ImportResult true 0
    "Database already contains passenger data. Use CLEAR_DATABASE to clear it first, then POPULATE_TEST_DATA to populate again.".

(** The table after [insertPassengers] has inserted [rows], counting from
    [importedCount]. *)
Fixpoint inserted_from (importedCount : nat) ps (rows : list Parsed.t) : list passenger :=
  match rows with
  | [] => ps
  | p :: rest =>
      inserted_from (S importedCount)
        (ps ++ [new_row (next_id (map passenger_id ps)) importedCount p]) rest
  end.

Lemma inserted_from_length k ps rows :
  length (inserted_from k ps rows) = (length ps + length rows)%nat.
Proof.
  revert k ps. induction rows as [|p rows IH]; intros k ps; simpl; [lia|].
  rewrite IH, length_app. simpl. lia.
Qed.

Lemma insert_passenger_airlines_run w k p :
  answers 1 w ->
  insert_passenger k p w =
    (Ok tt, World (todos w)
              (passengers w ++ [new_row (next_id (map passenger_id (passengers w))) k p])
              (drop 1 (faults w))).
Proof.
  intros H. apply answers_S in H as [E _].
  unfold insert_passenger, bind, read, write_passengers. rewrite E.
  cbn [tick todos passengers faults]. by destruct (faults w).
Qed.

Lemma insert_from_run rows k w :
  answers (length rows) w ->
  insert_from k rows w =
    (Ok (k + length rows)%nat,
     World (todos w) (inserted_from k (passengers w) rows) (drop (length rows) (faults w))).
Proof.
  revert k w. induction rows as [|p rest IH]; intros k w H.
  - cbn. rewrite drop_0, Nat.add_0_r. by destruct w.
  - cbn [insert_from length] in *. unfold bind.
    set (w1 := World (todos w)
                 (passengers w ++ [new_row (next_id (map passenger_id (passengers w))) k p])
                 (drop 1 (faults w))).
    change (S (length rest)) with (1 + length rest)%nat in H.
    destruct (answers_drop _ _ w w1 H eq_refl) as [H1 Hr].
    rewrite (insert_passenger_airlines_run w _ _ H1). fold w1.
    rewrite (IH _ _ Hr). unfold w1. cbn [todos passengers faults inserted_from].
    rewrite drop_drop, Nat.add_succ_r. reflexivity.
Qed.

Lemma insert_passenger_airlines_appends k p w :
  exists added,
    passengers (insert_passenger k p w).2 = passengers w ++ added
    /\ todos (insert_passenger k p w).2 = todos w.
Proof.
  unfold insert_passenger, bind, store_call, read, write_passengers.
  destruct (faults w) as [|[e|] fs]; cbn; eexists; split; try done.
  by rewrite app_nil_r.
Qed.

Lemma insert_from_appends rows k w :
  exists added,
    passengers (insert_from k rows w).2 = passengers w ++ added
    /\ todos (insert_from k rows w).2 = todos w.
Proof.
  revert k w. induction rows as [|p rest IH]; intros k w.
  - exists []. cbn. by rewrite app_nil_r.
  - cbn [insert_from]. unfold bind.
    destruct (insert_passenger_airlines_appends k p w) as (a1 & E1 & E2).
    destruct (insert_passenger _ _ w) as [[[]|e] w1]; cbn [snd] in *.
    + destruct (IH (S k) w1) as (a2 & E3 & E4). rewrite E3, E4, E1, E2.
      exists (a1 ++ a2). by rewrite app_assoc.
    + by exists a1.
Qed.

(** The rows of the embedded CSV text. *)
Abbreviation sample_rows := (parseCSVContent getCSVContent).

Lemma rev_string_involutive s : rev_string (rev_string s) = s.
Proof.
  unfold rev_string.
  by rewrite list_ascii_of_string_of_list_ascii, rev_involutive,
    string_of_list_ascii_of_string.
Qed.

(** [trim] leaves a text alone that neither starts nor ends with white
    space. *)
Lemma trim_id s :
  strip1 whitespace s = None ->
  strip1 (map rev_string whitespace) (rev_string s) = None ->
  trim s = s.
Proof.
  intros Hs He. unfold trim.
  assert (trimStart s = s) as ->.
  { unfold trimStart. destruct (String.length s); cbn [strip]; [reflexivity|].
    by rewrite Hs. }
  unfold trimEnd. destruct (String.length s); cbn [strip].
  - apply rev_string_involutive.
  - rewrite He. apply rev_string_involutive.
Qed.

Lemma getCSVContent_trimmed : trim getCSVContent = getCSVContent.
Proof. apply trim_id; vm_compute; reflexivity. Qed.

Lemma sample_rows_length : length sample_rows = 200%nat.
Proof.
  unfold parseCSVContent. rewrite getCSVContent_trimmed, length_map.
  vm_compute. reflexivity.
Qed.

Lemma populate_airlines_returns csv w :
  exists r w', populateTestData_with csv w = (Ok r, w').
Proof. apply try_catch_returns. intros e w0. by eexists _, _. Qed.

Lemma populate_airlines_guard csv w :
  passengers w <> [] ->
  exists r w',
    populateTestData_with csv w = (Ok r, w')
    /\ passengers w' = passengers w /\ todos w' = todos w
    /\ importedCount r = 0%nat
    /\ (answers 2 w -> r = already_populated_airlines).
Proof.
  intros Hne. unfold populateTestData_with, try_catch, getDb, hasExistingData,
    select_passengers_limit1, bind, read, ret, store_call, answers.
  destruct w as [ts [|p ps] fs]; [done|]. cbn [todos passengers faults].
  destruct fs as [|[e1|] [|[e2|] fs]]; cbn [tl todos passengers faults firstn length Nat.ltb Nat.leb];
    eexists _, _; (split; [reflexivity|]); repeat split; done.
Qed.

Lemma populate_airlines_fresh csv w :
  let rows := parseCSVContent csv in
  passengers w = [] -> answers (2 + length rows) w ->
  populateTestData_with csv w =
    (Ok (ImportResult true (length rows)
           ("Successfully populated database with " +:+ Js.of_nat (length rows)
            +:+ " test passengers from hardcoded CSV data")),
     World (todos w) (inserted_from 0 [] rows) (drop (2 + length rows) (faults w))).
Proof.
  intros rows Hemp Hn.
  set (w2 := World (todos w) (passengers w) (drop 2 (faults w))).
  destruct (answers_drop 2 _ w w2 Hn eq_refl) as [H2 Hr].
  apply answers_S in H2 as [E1 H1]. apply answers_S in H1 as [E2 _].
  unfold populateTestData_with, try_catch, getDb, hasExistingData,
    select_passengers_limit1, insertPassengers, bind, read, ret.
  rewrite E1, E2. cbn [tick passengers]. rewrite Hemp. cbn [firstn length Nat.ltb Nat.leb].
  fold rows.
  assert (tick (tick w) = w2) as ->.
  { unfold w2. rewrite !tick_drop. cbn [todos passengers faults].
    by rewrite drop_drop. }
  rewrite (insert_from_run rows 0 w2 Hr).
  unfold w2. cbn [todos passengers faults]. rewrite Hemp, drop_drop. reflexivity.
Qed.

Lemma populate_airlines_appends csv w :
  exists added,
    passengers (populateTestData_with csv w).2 = passengers w ++ added
    /\ todos (populateTestData_with csv w).2 = todos w.
Proof.
  unfold populateTestData_with, try_catch, getDb, hasExistingData,
    select_passengers_limit1, insertPassengers, bind, read, ret, store_call.
  destruct w as [ts ps fs]. cbn [todos passengers faults].
  generalize (parseCSVContent csv) as rows. intros rows.
  destruct fs as [|[e1|] fs]; cbn [tl todos passengers faults];
    try (exists []; cbn; by rewrite app_nil_r).
  - destruct (0 <? length (firstn 1 ps))%nat; [exists []; cbn; by rewrite app_nil_r|].
    destruct (insert_from_appends rows 0 (World ts ps [])) as (a & E1 & E2).
    destruct (insert_from _ _ _) as [[n|e] w3]; cbn in *; by exists a.
  - destruct fs as [|[e2|] fs]; cbn [tl todos passengers faults];
      try (exists []; cbn; by rewrite app_nil_r).
    + destruct (0 <? length (firstn 1 ps))%nat; [exists []; cbn; by rewrite app_nil_r|].
      destruct (insert_from_appends rows 0 (World ts ps [])) as (a & E1 & E2).
      destruct (insert_from _ _ _) as [[n|e] w3]; cbn in *; by exists a.
    + destruct (0 <? length (firstn 1 ps))%nat; [exists []; cbn; by rewrite app_nil_r|].
      destruct (insert_from_appends rows 0 (World ts ps fs)) as (a & E1 & E2).
      destruct (insert_from _ _ _) as [[n|e] w3]; cbn in *; by exists a.
Qed.

(** The whole statement for this tool file. *)
Definition populate_twice_airlines w : Prop :=
  exists r1 w1 r2 w2,
    populateTestData w = (Ok r1, w1)
    /\ populateTestData w1 = (Ok r2, w2)
    /\ todos w2 = todos w
    /\ (passengers w <> [] ->
        passengers w1 = passengers w /\ importedCount r1 = 0%nat
        /\ (answers 2 w -> r1 = already_populated_airlines))
    /\ (passengers w1 <> [] ->
        passengers w2 = passengers w1 /\ importedCount r2 = 0%nat
        /\ (answers 2 w1 -> r2 = already_populated_airlines))
    /\ (length (passengers w2) = (2 * length (passengers w1))%nat -> passengers w1 = [])
    /\ (passengers w = [] -> answers 204 w ->
        importedCount r1 = 200%nat /\ length (passengers w1) = 200%nat
        /\ r2 = already_populated_airlines /\ passengers w2 = passengers w1).

Lemma populate_airlines_guard_of csv w r w' :
  populateTestData_with csv w = (Ok r, w') -> passengers w <> [] ->
  passengers w' = passengers w /\ importedCount r = 0%nat
  /\ (answers 2 w -> r = already_populated_airlines).
Proof.
  intros R Hne. destruct (populate_airlines_guard csv w Hne) as (r0 & w0 & E & ? & ? & ? & ?).
  rewrite R in E. assert (r0 = r) as <- by congruence. assert (w0 = w') as <- by congruence.
  by repeat split.
Qed.

Lemma populate_airlines_fresh_of csv w r w' :
  populateTestData_with csv w = (Ok r, w') ->
  passengers w = [] -> answers (2 + length (parseCSVContent csv)) w ->
  importedCount r = length (parseCSVContent csv)
  /\ passengers w' = inserted_from 0 [] (parseCSVContent csv)
  /\ faults w' = drop (2 + length (parseCSVContent csv)) (faults w).
Proof.
  intros R Hemp Hn.
  pose proof (populate_airlines_fresh csv w Hemp Hn) as F. cbv zeta in F. rewrite R in F.
  match type of F with _ = (Ok ?R0, ?W0) =>
    assert (r = R0) as -> by congruence; assert (w' = W0) as -> by congruence end.
  by repeat split.
Qed.

Lemma populateTestData_twice_airlines w : populate_twice_airlines w.
Proof.
  unfold populate_twice_airlines, populateTestData.
  destruct (populate_airlines_returns getCSVContent w) as (r1 & w1 & R1).
  destruct (populate_airlines_returns getCSVContent w1) as (r2 & w2 & R2).
  exists r1, w1, r2, w2. split; [exact R1|]. split; [exact R2|].
  pose proof (populate_airlines_guard_of getCSVContent w1 r2 w2 R2) as G2.
  split.
  { destruct (populate_airlines_appends getCSVContent w) as (? & _ & T1).
    destruct (populate_airlines_appends getCSVContent w1) as (? & _ & T2).
    rewrite R1 in T1. rewrite R2 in T2. cbn [snd] in *. congruence. }
  split; [exact (populate_airlines_guard_of getCSVContent w r1 w1 R1)|].
  split; [exact G2|]. split.
  { intros Hlen. destruct (passengers w1) as [|p ps] eqn:E; [reflexivity|].
    destruct G2 as [G _]; [discriminate|]. rewrite G in Hlen. cbn [length] in Hlen. lia. }
  intros Hemp H204.
  pose proof sample_rows_length as Ln.
  assert (answers (2 + length sample_rows) w) as Hn.
  { rewrite Ln. apply (answers_le 204); [lia | exact H204]. }
  destruct (populate_airlines_fresh_of getCSVContent w r1 w1 R1 Hemp Hn) as (Er & Ep & Ef).
  assert (length (passengers w1) = 200%nat) as L
    by (rewrite Ep, inserted_from_length, Ln; reflexivity).
  split; [rewrite Er; exact Ln|]. split; [exact L|].
  destruct G2 as (G & _ & Ga).
  { intros E. rewrite E in L. discriminate L. }
  split; [|exact G]. apply Ga.
  destruct (answers_drop 202 2 w w1 H204) as [_ H]; [rewrite Ef, Ln; reflexivity | exact H].
Qed.

End PopulateAirlines.

(** C3. In both tool files POPULATE_TEST_DATA always returns a result, and
    for every store: a call that finds a passenger row inserts nothing and
    reports [importedCount] 0 (as a success when the store answers); so
    after a first call that left rows, a second call changes nothing, and
    two calls in a row never double the number of rows; from an empty
    table and a store that answers, the first call inserts the sample (10
    rows, 200 in the airline file) and the second returns the
    already-populated success. *)
Theorem populateTestData_twice_is_noop :
  (forall w : world Tools.passenger, populate_twice_tools w)
  /\ (forall w : world Airlines.passenger, populate_twice_airlines w).
Proof. split; [apply populateTestData_twice_tools | apply populateTestData_twice_airlines]. Qed.

(** ** CSV parsing *)

(** The text "a,b\nx,y\n". *)
Definition two_column_csv : string :=
"a,b
x,y
".

(** The lines "a,b", "x,y", an empty line, a line of three spaces, "z,w",
    each followed by a newline. *)
Definition blank_lines_csv : string :=
  String.concat (String Tools.newline EmptyString) ["a,b"; "x,y"; ""; "   "; "z,w"; ""].

Section Csv.
Import Tools.

Lemma or_else_missing (values : list string) (i : nat) d :
  (length values <= i)%nat -> or_else (values !! i) d = d.
Proof. intros H. by rewrite (lookup_ge_None_2 values i H). Qed.

Lemma or_null_missing (values : list string) (i : nat) :
  (length values <= i)%nat -> or_null (values !! i) = None.
Proof. intros H. by rewrite (lookup_ge_None_2 values i H). Qed.

Lemma filter_skips {A} (f : A -> bool) l1 x l2 :
  f x = false -> List.filter f (l1 ++ x :: l2) = List.filter f (l1 ++ l2).
Proof. intros H. rewrite !List.filter_app. cbn. by rewrite H. Qed.

(** A line that [trim] empties adds nothing to the import loop. *)
Lemma import_lines_skips_blank l1 blank l2 n (w : world passenger) :
  truthy (trim blank) = false ->
  import_lines (l1 ++ blank :: l2) n w = import_lines (l1 ++ l2) n w.
Proof.
  intros Hb. revert n w. induction l1 as [|line l1 IH]; intros n w; cbn [app import_lines].
  - by rewrite Hb.
  - destruct (truthy (trim line)); [|apply IH].
    unfold bind. destruct (insert_passenger _ w) as [[[]|e] w1]; [apply IH | done].
Qed.

(** The column [i] of a line holds no text: the line has fewer columns, or
    the column is empty. *)
Definition missing (values : list string) (i : nat) : Prop :=
  values !! i = None \/ values !! i = Some "".

Lemma or_else_no_text (values : list string) (i : nat) d :
  missing values i -> or_else (values !! i) d = d.
Proof. by intros [-> | ->]. Qed.

Lemma or_null_no_text (values : list string) (i : nat) :
  missing values i -> or_null (values !! i) = None.
Proof. by intros [-> | ->]. Qed.

(** A text whose data lines have one more blank line than those of another
    is imported like the other. *)
Lemma importPassengersFromCSV_skips_blank csv csv' header l1 blank l2
    (w : world passenger) :
  split newline (trim csv) = header :: l1 ++ blank :: l2 ->
  split newline (trim csv') = header :: l1 ++ l2 ->
  truthy (trim blank) = false ->
  importPassengersFromCSV csv w = importPassengersFromCSV csv' w.
Proof.
  intros E E' Hb. unfold importPassengersFromCSV, try_catch, getDb, bind.
  rewrite E, E'. cbn [tl].
  destruct (store_call w) as [[[]|e] w1]; [|reflexivity].
  by rewrite (import_lines_skips_blank l1 blank l2 0 w1 Hb).
Qed.

(** The same for [parseCSVContent]. *)
Lemma parseCSVContent_skips_blank csv csv' header l1 blank l2 :
  split Airlines.newline (trim csv) = header :: l1 ++ blank :: l2 ->
  split Airlines.newline (trim csv') = header :: l1 ++ l2 ->
  truthy (trim blank) = false ->
  Airlines.parseCSVContent csv = Airlines.parseCSVContent csv'.
Proof.
  intros E E' Hb. unfold Airlines.parseCSVContent. rewrite E, E'. cbn [tl].
  by rewrite (filter_skips _ l1 blank l2 Hb).
Qed.

(** Every row [parseCSVContent] returns comes from a data line that [trim]
    does not empty, and there is one row per such line. *)
Lemma parseCSVContent_rows csv :
  (forall p, In p (Airlines.parseCSVContent csv) ->
     exists line, In line (tl (split Airlines.newline (trim csv)))
                  /\ trim line <> "" /\ p = Airlines.parse_line line)
  /\ length (Airlines.parseCSVContent csv)
     = length (List.filter (fun line => negb (String.eqb (trim line) ""))
                 (tl (split Airlines.newline (trim csv)))).
Proof.
  unfold Airlines.parseCSVContent. split.
  - intros p (line & <- & Hl)%in_map_iff. apply filter_In in Hl as [Hin Ht].
    exists line. split; [exact Hin|]. split; [|reflexivity].
    intros E. rewrite E in Ht. discriminate Ht.
  - rewrite length_map. f_equal. apply filter_ext. intros line.
    by destruct (trim line).
Qed.

(** The text with blank lines, in the import of server/tools.ts. *)
Lemma importPassengersFromCSV_blank_lines (w : world passenger) :
  answers 3 w ->
  importPassengersFromCSV blank_lines_csv w =
    (Ok (ImportResult true 2 "Successfully imported 2 passengers from CSV"),
     World (todos w)
       (insert_all (passengers w) [passengerData ["x"; "y"]; passengerData ["z"; "w"]])
       (drop 3 (faults w))).
Proof.
  intros H3.
  set (w1 := World (todos w) (passengers w) (drop 1 (faults w))).
  destruct (answers_drop 1 2 w w1 H3 eq_refl) as [H1 H2].
  apply answers_S in H1 as [E1 _].
  unfold importPassengersFromCSV, try_catch, getDb, bind, ret. rewrite E1.
  rewrite tick_drop. fold w1.
  change (tl (split newline (trim blank_lines_csv))) with ["x,y"; ""; "   "; "z,w"].
  rewrite (import_lines_run ["x,y"; ""; "   "; "z,w"] 0 w1 H2).
  unfold w1. cbn [todos passengers faults]. by rewrite drop_drop.
Qed.

(** The two-column example, in the import of server/tools.ts. *)
Lemma importPassengersFromCSV_example (w : world passenger) :
  answers 2 w ->
  importPassengersFromCSV two_column_csv w =
    (Ok (ImportResult true 1 "Successfully imported 1 passengers from CSV"),
     World (todos w)
       (passengers w ++ [new_row (next_id (map passenger_id (passengers w)))
                                 (passengerData ["x"; "y"])])
       (drop 2 (faults w))).
Proof.
  intros H2.
  set (w1 := World (todos w) (passengers w) (drop 1 (faults w))).
  destruct (answers_drop 1 1 w w1 H2 eq_refl) as [H1 H1'].
  pose proof H1 as H1a. apply answers_S in H1a as [E1 _].
  unfold importPassengersFromCSV, try_catch, getDb, bind, ret. rewrite E1.
  rewrite tick_drop. fold w1.
  change (tl (split newline (trim _))) with ["x,y"].
  cbn [import_lines]. change (truthy (trim "x,y")) with true. cbv iota.
  unfold bind. rewrite (insert_passenger_run w1 _ H1'). cbn [import_lines ret].
  unfold w1. cbn [todos passengers faults]. by rewrite drop_drop.
Qed.

(** C9, as the code has it.  On the text "a,b\nx,y\n" both parsers produce
    exactly one row, with "x" and "y" in the first two columns.  Blank
    lines are skipped by both parsers: on a text with an empty line and a
    line of spaces between two data lines both produce the two rows only; a
    text whose data lines have one more line that [trim] empties than
    those of another text, wherever it stands, gives the same result as
    the other; every row of [parseCSVContent] comes from a data line that
    [trim] does not empty, one row per such line.  A column that holds no
    text (the line is too short, or the column is empty) is filled with
    NULL where the target column is nullable and with the empty string
    where it is not, except [status], which is filled with "confirmed";
    [parseCSVContent] fills each of its ten fields with the empty string. *)
Theorem parseCsv_rows_and_defaults :
  (* the example *)
  Airlines.parseCSVContent two_column_csv
  = [Airlines.Parsed.Make "x" "y" "" "" "" "" "" "" "" ""]
  /\ (forall w : world passenger,
        answers 2 w ->
        importPassengersFromCSV two_column_csv w =
          (Ok (ImportResult true 1 "Successfully imported 1 passengers from CSV"),
           World (todos w)
             (passengers w
              ++ [new_row (next_id (map passenger_id (passengers w)))
                    (PassengerData.Make "x" "y" "" None None None None None "" "" "" ""
                       None None "confirmed")])
             (drop 2 (faults w))))
  (* blank lines, on a text that has two *)
  /\ Airlines.parseCSVContent blank_lines_csv
     = [Airlines.Parsed.Make "x" "y" "" "" "" "" "" "" "" "";
        Airlines.Parsed.Make "z" "w" "" "" "" "" "" "" "" ""]
  /\ (forall w : world passenger,
        answers 3 w ->
        importPassengersFromCSV blank_lines_csv w =
          (Ok (ImportResult true 2 "Successfully imported 2 passengers from CSV"),
           World (todos w)
             (insert_all (passengers w)
                [PassengerData.Make "x" "y" "" None None None None None "" "" "" ""
                   None None "confirmed";
                 PassengerData.Make "z" "w" "" None None None None None "" "" "" ""
                   None None "confirmed"])
             (drop 3 (faults w))))
  (* blank lines, in general *)
  /\ (forall csv csv' header l1 blank l2,
        split newline (trim csv) = header :: l1 ++ blank :: l2 ->
        split newline (trim csv') = header :: l1 ++ l2 ->
        truthy (trim blank) = false ->
        Airlines.parseCSVContent csv = Airlines.parseCSVContent csv'
        /\ forall w : world passenger,
             importPassengersFromCSV csv w = importPassengersFromCSV csv' w)
  /\ (forall csv,
        (forall p, In p (Airlines.parseCSVContent csv) ->
           exists line, In line (tl (split newline (trim csv)))
                        /\ trim line <> "" /\ p = Airlines.parse_line line)
        /\ length (Airlines.parseCSVContent csv)
           = length (List.filter (fun line => negb (String.eqb (trim line) ""))
                       (tl (split newline (trim csv)))))
  /\ (forall l1 blank l2 n (w : world passenger),
        truthy (trim blank) = false ->
        import_lines (l1 ++ blank :: l2) n w = import_lines (l1 ++ l2) n w)
  (* columns without text, server/tools.ts *)
  /\ (forall values : list string,
        let d := passengerData values in
        (missing values 0 -> PassengerData.firstName d = "")
        /\ (missing values 1 -> PassengerData.lastName d = "")
        /\ (missing values 2 -> PassengerData.email d = "")
        /\ (missing values 3 -> PassengerData.phone d = None)
        /\ (missing values 4 -> PassengerData.passportNumber d = None)
        /\ (missing values 5 -> PassengerData.nationality d = None)
        /\ (missing values 6 -> PassengerData.dateOfBirth d = None)
        /\ (missing values 7 -> PassengerData.seatNumber d = None)
        /\ (missing values 8 -> PassengerData.flightNumber d = "")
        /\ (missing values 9 -> PassengerData.departureCity d = "")
        /\ (missing values 10 -> PassengerData.arrivalCity d = "")
        /\ (missing values 11 -> PassengerData.departureDate d = "")
        /\ (missing values 12 -> PassengerData.ticketClass d = None)
        /\ (missing values 13 -> PassengerData.price d = None)
        /\ (missing values 14 -> PassengerData.status d = "confirmed"))
  (* columns without text, parseCSVContent *)
  /\ (forall line : string,
        let values := split Airlines.comma line in
        let p := Airlines.parse_line line in
        (missing values 0 -> Airlines.Parsed.firstName p = "")
        /\ (missing values 1 -> Airlines.Parsed.lastName p = "")
        /\ (missing values 2 -> Airlines.Parsed.email p = "")
        /\ (missing values 3 -> Airlines.Parsed.nationality p = "")
        /\ (missing values 4 -> Airlines.Parsed.dateOfBirth p = "")
        /\ (missing values 5 -> Airlines.Parsed.departureCity p = "")
        /\ (missing values 6 -> Airlines.Parsed.arrivalCity p = "")
        /\ (missing values 7 -> Airlines.Parsed.departureDate p = "")
        /\ (missing values 8 -> Airlines.Parsed.distance p = "")
        /\ (missing values 9 -> Airlines.Parsed.flightCost p = ""))
  (* a line that starts with a comma has an empty first column *)
  /\ Airlines.parse_line ",Lima"
     = Airlines.Parsed.Make "" "Lima" "" "" "" "" "" "" "" ""
  /\ passengerData (split comma "Ana,Lima,ana@mail.io,,P1")
     = PassengerData.Make "Ana" "Lima" "ana@mail.io" None (Some "P1") None None None
         "" "" "" "" None None "confirmed".
Proof.
  split; [reflexivity|]. split; [apply importPassengersFromCSV_example|].
  split; [reflexivity|]. split; [apply importPassengersFromCSV_blank_lines|].
  split.
  { intros csv csv' header l1 blank l2 E E' Hb. split.
    - exact (parseCSVContent_skips_blank csv csv' header l1 blank l2 E E' Hb).
    - intros w. exact (importPassengersFromCSV_skips_blank csv csv' header l1 blank l2 w E E' Hb). }
  split; [exact parseCSVContent_rows|].
  split; [apply import_lines_skips_blank|].
  split; [|split; [|split; reflexivity]].
  - intros values d. unfold d, passengerData. cbn [PassengerData.firstName
      PassengerData.lastName PassengerData.email PassengerData.phone
      PassengerData.passportNumber PassengerData.nationality PassengerData.dateOfBirth
      PassengerData.seatNumber PassengerData.flightNumber PassengerData.departureCity
      PassengerData.arrivalCity PassengerData.departureDate PassengerData.ticketClass
      PassengerData.price PassengerData.status].
    repeat split; intros; (apply or_else_no_text || apply or_null_no_text); done.
  - intros line values p. unfold p, values, Airlines.parse_line. cbn [Airlines.Parsed.firstName
      Airlines.Parsed.lastName Airlines.Parsed.email Airlines.Parsed.nationality
      Airlines.Parsed.dateOfBirth Airlines.Parsed.departureCity Airlines.Parsed.arrivalCity
      Airlines.Parsed.departureDate Airlines.Parsed.distance Airlines.Parsed.flightCost].
    repeat split; intros; apply or_else_no_text; done.
Qed.

End Csv.

Definition three_column_csv : string :=
"firstName,lastName,email
Ana,Lima,ana@mail.io".

(** C9 as stated fails for [status]: the line "Ana,Lima,ana@mail.io" has
    three columns, [status] is among the missing ones, its column is
    nullable, and the row is stored with the text "confirmed", which is
    neither NULL nor the empty string. *)
Lemma import_missing_status_is_confirmed :
  exists r w' row,
    Tools.importPassengersFromCSV three_column_csv (World [] [] []) = (Ok r, w')
    /\ passengers w' = [row]
    /\ Tools.phone row = None
    /\ Tools.status row = Some "confirmed"
    /\ Tools.status row <> None
    /\ Tools.status row <> Some "".
Proof.
  eexists _, _, _. split; [reflexivity|]. split; [reflexivity|].
  repeat split; discriminate.
Qed.

(** ** GET_PASSENGER_STATS *)

Section Stats.
Import JsNumber JsObject Tools.
Implicit Types (w : world passenger) (p : passenger) (o : JsObject.object) (k : string).

(** The keys a row is counted under. *)
Definition class_key p : string := or_else (ticketClass p) "unknown".
Definition status_key p : string := or_else (status p) "unknown".
Definition flight_key p : string := or_else (Some (flightNumber p)) "unknown".

(** The key is the column's text, or "unknown" for NULL and for the empty
    string. *)
Lemma or_else_unknown (v : option string) :
  or_else v "unknown" = match v with
                        | Some s => if String.eqb s "" then "unknown" else s
                        | None => "unknown"
                        end.
Proof. destruct v as [[|c s]|]; reflexivity. Qed.

(** How often [k] occurs among [keys], as a table entry holds it. *)
Definition occurrences k (keys : list string) : nat :=
  length (List.filter (String.eqb k) keys).

Definition counted (keys : list string) k : option property :=
  match occurrences k keys with
  | O => None
  | S n => Some (PNum (S n))
  end.

Lemma occurrences_snoc k keys k' :
  occurrences k (keys ++ [k']) =
  (occurrences k keys + if String.eqb k k' then 1 else 0)%nat.
Proof.
  unfold occurrences. rewrite List.filter_app, length_app. cbn.
  by destruct (String.eqb k k').
Qed.

Lemma inherited_false k :
  inherited k = false -> String.eqb k proto_key = false /\ is_prototype_function k = false.
Proof. unfold inherited. by intros [? ?]%orb_false_iff. Qed.

(** Incrementing under a key that [{}] does not inherit counts it. *)
Lemma increment_counted o keys k' :
  (forall k, o !! k = counted keys k) -> inherited k' = false ->
  forall k, increment o k' !! k = counted (keys ++ [k']) k.
Proof.
  intros Ho [Hp Hf]%inherited_false k.
  unfold increment, set, get. unfold JsObject.object in *. rewrite Hp, Hf, (Ho k').
  unfold counted. rewrite occurrences_snoc.
  destruct (String.eqb_spec k k') as [->|Hne].
  - rewrite lookup_insert_eq.
    destruct (occurrences k' keys) as [|n]; cbn; [done|]. by rewrite Nat.add_1_r.
  - rewrite lookup_insert_ne by congruence. rewrite (Ho k), Nat.add_0_r. done.
Qed.

Lemma fold_increment_counted keys0 keys o :
  (forall k, o !! k = counted keys0 k) ->
  Forall (fun k => inherited k = false) keys ->
  forall k, fold_left increment keys o !! k = counted (keys0 ++ keys) k.
Proof.
  revert keys0 o. induction keys as [|k' keys IH]; intros keys0 o Ho Hk k.
  - by rewrite app_nil_r.
  - inversion Hk as [|? ? Hk' Hks]; subst. cbn [fold_left].
    rewrite (IH (keys0 ++ [k']) (increment o k')); [by rewrite <- app_assoc | | done].
    by apply increment_counted.
Qed.

(** The loop, as three folds over the keys and one over the prices. *)
Lemma fold_count_passenger ps (a : tally) :
  fold_left count_passenger ps a =
  Tally (fold_left increment (map class_key ps) (tally_byTicketClass a))
        (fold_left increment (map status_key ps) (tally_byStatus a))
        (fold_left increment (map flight_key ps) (tally_byFlight a))
        (fold_left add (omap parsed_price ps) (totalPrice a))
        (validPrices a + length (omap parsed_price ps)).
Proof.
  revert a. induction ps as [|p ps IH]; intros a.
  - cbn. rewrite Nat.add_0_r. by destruct a.
  - cbn [fold_left map omap list_omap]. rewrite IH. unfold count_passenger.
    fold (class_key p) (status_key p) (flight_key p).
    destruct (parsed_price p) as [x|]; cbn [tally_byTicketClass tally_byStatus
      tally_byFlight totalPrice validPrices fold_left length]; [|done].
    f_equal. lia.
Qed.

(** A price takes part exactly when it is a non-empty string that
    [parseFloat] does not turn into NaN. *)
Lemma parsed_price_spec p x :
  parsed_price p = Some x <->
  exists s, price p = Some s /\ s <> "" /\ parseFloat s = x /\ isNaN x = false.
Proof.
  unfold parsed_price. destruct (price p) as [s|].
  - destruct (truthy s) eqn:T.
    + apply truthy_nonempty in T. destruct (isNaN (parseFloat s)) eqn:N; cbn.
      * split; [done|]. intros (s' & [= <-] & _ & <- & N'). congruence.
      * split; [intros [= <-]; by exists s|]. by intros (s' & [= <-] & _ & <- & _).
    + split; [done|]. intros (s' & [= <-] & Hs & _). apply truthy_nonempty in Hs. congruence.
  - split; [done|]. by intros (s' & ? & _).
Qed.

Lemma round_to_cents_zero : round_to_cents zero = zero.
Proof. vm_compute. reflexivity. Qed.

(** The rows whose three keys are not names every object inherits. *)
Definition plain_keys p : Prop :=
  inherited (class_key p) = false
  /\ inherited (status_key p) = false
  /\ inherited (flight_key p) = false.

(** On such rows the tool does what it is meant to do: the three tables
    count the rows under the column's text or "unknown"; prices that are
    NULL, empty or not a number for [parseFloat] are left out; the average
    is the total of the others divided by their number and rounded by
    [Math.round(x * 100) / 100], or 0 when there is none. *)
Lemma getPassengerStats_plain_keys w :
  answers 2 w -> Forall plain_keys (passengers w) ->
  exists s w',
    getPassengerStats w = (Ok s, w')
    /\ totalPassengers s = length (passengers w)
    /\ (forall k, byTicketClass s !! k = counted (map class_key (passengers w)) k)
    /\ (forall k, byStatus s !! k = counted (map status_key (passengers w)) k)
    /\ (forall k, byFlight s !! k = counted (map flight_key (passengers w)) k)
    /\ averagePrice s =
       (let prices := omap parsed_price (passengers w) in
        match prices with
        | [] => zero
        | _ :: _ => round_to_cents
                      (div (fold_left add prices zero) (JsNumber.of_nat (length prices)))
        end)
    /\ passengers w' = passengers w /\ todos w' = todos w.
Proof.
  intros H2 Hplain. apply answers_S in H2 as [E1 H1]. apply answers_S in H1 as [E2 _].
  unfold getPassengerStats, try_catch, getDb, select_passengers, bind, read, ret.
  rewrite E1, E2. cbn [tick passengers].
  destruct (passengers w) as [|p ps] eqn:Eps.
  { eexists _, _. split; [reflexivity|]. cbn. repeat split; done. }
  rewrite <- Eps in *. rewrite fold_count_passenger.
  eexists _, _. split; [reflexivity|].
  cbn [totalPassengers byTicketClass byStatus byFlight averagePrice
       tally_byTicketClass tally_byStatus tally_byFlight totalPrice validPrices
       empty_tally todos passengers tick].
  split; [done|].
  assert (forall k : string, (empty_object : JsObject.object) !! k = counted [] k) as He
    by (intros k; apply lookup_empty).
  split; [|split; [|split]].
  - intros k. apply (fold_increment_counted [] _ _ He).
    apply Forall_map. eapply Forall_impl; [exact Hplain|]. by intros ? (? & ? & ?).
  - intros k. apply (fold_increment_counted [] _ _ He).
    apply Forall_map. eapply Forall_impl; [exact Hplain|]. by intros ? (? & ? & ?).
  - intros k. apply (fold_increment_counted [] _ _ He).
    apply Forall_map. eapply Forall_impl; [exact Hplain|]. by intros ? (? & ? & ?).
  - split; [|done]. cbn [Nat.add].
    destruct (omap parsed_price (passengers w)) as [|x xs]; [apply round_to_cents_zero|].
    reflexivity.
Qed.

End Stats.

(** A table with one passenger whose status is the text "constructor". *)
Definition status_constructor_csv : string :=
"firstName,lastName,email,phone,passportNumber,nationality,dateOfBirth,seatNumber,flightNumber,departureCity,arrivalCity,departureDate,ticketClass,price,status
Ana,Lima,ana@mail.io,,,,,12A,LA1234,Recife,Natal,2024-01-15,economy,100.00,constructor".

Definition one_constructor : world Tools.passenger :=
  (Tools.importPassengersFromCSV status_constructor_csv (World [] [] [])).2.

(** C7 fails on this table.  The row's status is a name every object
    literal inherits from [Object.prototype], so [byStatus[status] || 0] is
    the inherited function and [+ 1] makes a text of it: the entry under
    "constructor" is not the count 1.  The other two tables and the average
    are as the claim says. *)
Theorem getPassengerStats_inherited_status_key :
  map Tools.status (passengers one_constructor) = [Some "constructor"]
  /\ exists s w',
       Tools.getPassengerStats one_constructor = (Ok s, w')
       /\ Tools.totalPassengers s = 1%nat
       /\ Tools.byStatus s !! "constructor"
          = Some (JsObject.PStr "function Object() { [native code] }1")
       /\ Tools.byStatus s !! "constructor" <> Some (JsObject.PNum 1)
       /\ Tools.byTicketClass s !! "economy" = Some (JsObject.PNum 1)
       /\ Tools.byFlight s !! "LA1234" = Some (JsObject.PNum 1)
       /\ Tools.averagePrice s = JsNumber.of_nat 100.
Proof.
  split; [reflexivity|]. eexists _, _. split; [reflexivity|].
  split; [reflexivity|]. split; [vm_compute; reflexivity|].
  split; [vm_compute; discriminate|]. repeat split; vm_compute; reflexivity.
Qed.

(* ===================================================================== *)
(** * Further properties of the todo tools *)
(* ===================================================================== *)

Section MoreTodos.
Context {P : Type}.
Implicit Types (w : world P) (id : Z) (t : todo) (ts : list todo).
Import Tools.

Lemma filter_id_map_set_completed id c ts :
  List.filter (fun t => todo_id t =? id) (map (set_completed id c) ts)
  = map (set_completed id c) (List.filter (fun t => todo_id t =? id) ts).
Proof.
  induction ts as [|x ts IH]; cbn [map List.filter]; [reflexivity|].
  rewrite set_completed_id. destruct (todo_id x =? id); cbn [map]; by rewrite IH.
Qed.

Lemma filter_id_In id ts :
  In id (map todo_id ts) ->
  exists cur rest, List.filter (fun t => todo_id t =? id) ts = cur :: rest /\ todo_id cur = id.
Proof.
  intros (t & E & Hin)%in_map_iff.
  assert (In t (List.filter (fun t => todo_id t =? id) ts)) as H.
  { apply filter_In. split; [exact Hin|]. by apply Z.eqb_eq. }
  destruct (List.filter _ ts) as [|cur rest] eqn:F; [destruct H|].
  exists cur, rest. split; [reflexivity|].
  assert (In cur (List.filter (fun t => todo_id t =? id) ts)) as Hc by (rewrite F; by left).
  apply filter_In in Hc as [_ Hc]. by apply Z.eqb_eq.
Qed.

Lemma store_call_snd w : (store_call w).2 = tick w.
Proof. unfold store_call, tick. by destruct (faults w) as [|[e|] fs]. Qed.

(** What a TOGGLE_TODO that returned has done, whatever the store script. *)
Lemma toggleTodo_ok_inv w id r w' :
  toggleTodo id w = (Ok r, w') ->
  exists cur rest,
    List.filter (fun t => todo_id t =? id) (todos w) = cur :: rest
    /\ todos w' = map (set_completed id (Some (if is_one (todo_completed cur) then 0 else 1)))
                      (todos w)
    /\ passengers w' = passengers w
    /\ r = TodoView (todo_id cur) (todo_title cur) (negb (is_one (todo_completed cur))).
Proof.
  unfold toggleTodo, getDb, select_todo_by_id, update_todo_completed, bind, read,
    write_todos, ret, throw.
  pose proof (store_call_snd w) as S1.
  destruct (store_call w) as [[[]|e] w1]; cbn [snd] in S1; subst w1; [|intros [=]].
  pose proof (store_call_snd (tick w)) as S2.
  destruct (store_call (tick w)) as [[[]|e] w2]; cbn [snd] in S2; subst w2; [|intros [=]].
  cbn [tick todos passengers faults].
  destruct (List.filter (fun t => todo_id t =? id) (todos w)) as [|cur rest] eqn:F;
    cbn [firstn]; [intros [=]|].
  assert (todo_id cur = id) as Ecur.
  { assert (In cur (List.filter (fun t => todo_id t =? id) (todos w))) as Hc
      by (rewrite F; by left).
    apply filter_In in Hc as [_ Hc]. by apply Z.eqb_eq. }
  set (c := Some (if is_one (todo_completed cur) then 0 else 1)).
  pose proof (store_call_snd (tick (tick w))) as S3.
  destruct (store_call (tick (tick w))) as [[[]|e] w3]; cbn [snd] in S3; subst w3;
    [|intros [=]].
  cbn [tick todos passengers faults].
  rewrite filter_id_map_set_completed, F. cbn [map].
  rewrite (set_completed_same id c cur Ecur). cbn [todo_id todo_title todo_completed].
  intros E. exists cur, rest. split; [reflexivity|].
  assert (w' = World (map (set_completed id c) (todos w)) (passengers w)
                     (tl (tl (tl (faults w))))) as -> by congruence.
  cbn [todos passengers]. split; [reflexivity|]. split; [reflexivity|].
  assert (r = TodoView (todo_id cur) (todo_title cur) (is_one c)) as -> by congruence.
  f_equal. unfold c. by destruct (is_one (todo_completed cur)).
Qed.

(** What a DELETE_TODO that returned has done. *)
Lemma deleteTodo_ok_inv w id r w' :
  deleteTodo id w = (Ok r, w') ->
  In id (map todo_id (todos w))
  /\ r = DeleteResult true id
  /\ todos w' = List.filter (fun t => negb (todo_id t =? id)) (todos w)
  /\ passengers w' = passengers w.
Proof.
  unfold deleteTodo, getDb, select_todo_by_id, delete_todo, bind, read, write_todos,
    ret, throw.
  pose proof (store_call_snd w) as S1.
  destruct (store_call w) as [[[]|e] w1]; cbn [snd] in S1; subst w1; [|intros [=]].
  pose proof (store_call_snd (tick w)) as S2.
  destruct (store_call (tick w)) as [[[]|e] w2]; cbn [snd] in S2; subst w2; [|intros [=]].
  cbn [tick todos passengers faults].
  destruct (List.filter (fun t => todo_id t =? id) (todos w)) as [|cur rest] eqn:F;
    cbn [firstn]; [intros [=]|].
  pose proof (store_call_snd (tick (tick w))) as S3.
  destruct (store_call (tick (tick w))) as [[[]|e] w3]; cbn [snd] in S3; subst w3;
    [|intros [=]].
  cbn [tick todos passengers faults]. intros E.
  assert (In cur (List.filter (fun t => todo_id t =? id) (todos w))) as Hc
    by (rewrite F; by left).
  apply filter_In in Hc as [Hin Hc]. apply Z.eqb_eq in Hc.
  split; [apply in_map_iff; by exists cur|].
  assert (r = DeleteResult true id) as -> by congruence.
  match type of E with (_, ?W) = _ => assert (w' = W) as -> by congruence end.
  by repeat split.
Qed.

(** What a GENERATE_TODO_WITH_AI that returned has done. *)
Lemma generateTodo_ok_inv reply w r w' :
  generateTodo reply w = (Ok r, w') ->
  exists g,
    reply = Ok g
    /\ String_of (object_title g) <> ""
    /\ r = TodoView (next_id (map todo_id (todos w)))
                    (Some (String_of (object_title g))) false
    /\ todos w' = todos w ++ [Todo (next_id (map todo_id (todos w)))
                                   (Some (String_of (object_title g))) (Some 0)]
    /\ passengers w' = passengers w.
Proof.
  unfold generateTodo, getDb, insert_todo, bind, read, write_todos, ret, throw.
  pose proof (store_call_snd w) as S1.
  destruct (store_call w) as [[[]|e] w1]; cbn [snd] in S1; subst w1; [|intros [=]].
  destruct reply as [g|e]; [|intros [=]].
  destruct (truthy (String_of (object_title g))) eqn:T; cbn [negb]; [|intros [=]].
  apply truthy_nonempty in T.
  pose proof (store_call_snd (tick w)) as S2.
  destruct (store_call (tick w)) as [[[]|e] w2]; cbn [snd] in S2; subst w2; [|intros [=]].
  cbn [tick todos passengers faults]. intros E. exists g.
  split; [reflexivity|]. split; [exact T|].
  match type of E with (Ok ?R, ?W) = _ =>
    assert (r = R) as -> by congruence; assert (w' = W) as -> by congruence end.
  by repeat split.
Qed.

(** GENERATE_TODO_WITH_AI on a store that answers and a non-empty title. *)
Lemma generateTodo_run w g :
  String_of (object_title g) <> "" -> answers 2 w ->
  generateTodo (Ok g) w =
    (Ok (TodoView (next_id (map todo_id (todos w))) (Some (String_of (object_title g))) false),
     World (todos w ++ [Todo (next_id (map todo_id (todos w)))
                             (Some (String_of (object_title g))) (Some 0)])
           (passengers w) (drop 2 (faults w))).
Proof.
  intros Hne H2. apply answers_S in H2 as [E1 H2]. apply answers_S in H2 as [E2 _].
  unfold generateTodo, getDb, insert_todo, bind, read, write_todos, ret.
  rewrite E1. apply truthy_nonempty in Hne. rewrite Hne. cbn [negb]. rewrite E2.
  cbn [tick todos passengers faults]. do 2 f_equal. by destruct (faults w) as [|? [|? ?]].
Qed.

(** On an id that is not in the table the two lookups fail alike. *)
Lemma lookup_tools_absent w id :
  ~ In id (map todo_id (todos w)) ->
  (exists e w', toggleTodo id w = (Throw e, w')
     /\ todos w' = todos w /\ passengers w' = passengers w
     /\ (answers 2 w -> e = JsError "Todo not found")
     /\ (forall e0, pending_fault 2 (faults w) = Some e0 -> e = e0))
  /\ (exists e w', deleteTodo id w = (Throw e, w')
     /\ todos w' = todos w /\ passengers w' = passengers w
     /\ (answers 2 w -> e = JsError "Todo not found")).
Proof.
  intros Habs. pose proof (filter_id_absent id (todos w) Habs) as F.
  unfold toggleTodo, deleteTodo, getDb, select_todo_by_id, bind, read, throw,
    store_call, answers.
  destruct w as [ts ps fs]. cbn [todos passengers faults] in *.
  split; destruct fs as [|[e|] [|[e'|] fs]]; cbn [tl todos passengers faults];
    rewrite ?F; cbn; eexists _, _; repeat split; try done; intros e0 [=]; done.
Qed.

End MoreTodos.

Section MoreTodoTheorems.
Context {P : Type}.
Implicit Types (w : world P) (id : Z) (t : todo) (ts : list todo).
Import Tools.

(** TOGGLE_TODO on an id that is not in the table never returns: it throws
    "Todo not found" when the store answers [getDb] and the lookup,
    otherwise the error with which the store rejected the call, and both
    tables are as before. *)
Theorem toggleTodo_absent_fails w id :
  ~ In id (map todo_id (todos w)) ->
  exists e w',
    toggleTodo id w = (Throw e, w')
    /\ todos w' = todos w
    /\ passengers w' = passengers w
    /\ (answers 2 w -> e = JsError "Todo not found")
    /\ (forall e0, pending_fault 2 (faults w) = Some e0 -> e = e0).
Proof. intros Habs. exact (proj1 (lookup_tools_absent w id Habs)). Qed.

(** DELETE_TODO on an id of the table, with a store that answers, returns
    [{success: true, deletedId: id}], removes the rows with that id and
    keeps every other row and the order; the passengers are untouched; a
    second DELETE_TODO of the same id then fails with "Todo not found". *)
Theorem deleteTodo_present_removes w id :
  In id (map todo_id (todos w)) -> answers 5 w ->
  exists w',
    deleteTodo id w = (Ok (DeleteResult true id), w')
    /\ todos w' = List.filter (fun t => negb (todo_id t =? id)) (todos w)
    /\ ~ In id (map todo_id (todos w'))
    /\ (forall t, todo_id t <> id -> (In t (todos w') <-> In t (todos w)))
    /\ passengers w' = passengers w
    /\ exists w'', deleteTodo id w' = (Throw (JsError "Todo not found"), w'')
                   /\ todos w'' = todos w'.
Proof.
  intros Hin H5.
  destruct (filter_id_In id (todos w) Hin) as (cur & rest & F & Ecur).
  set (w3 := World (List.filter (fun t => negb (todo_id t =? id)) (todos w))
                   (passengers w) (drop 3 (faults w))).
  destruct (answers_drop 3 2 w w3 H5 eq_refl) as [H3 H2].
  assert (deleteTodo id w = (Ok (DeleteResult true id), w3)) as R.
  { apply answers_S in H3 as [E1 H3]. apply answers_S in H3 as [E2 H3].
    apply answers_S in H3 as [E3 _].
    unfold deleteTodo, getDb, select_todo_by_id, delete_todo, bind, read, write_todos, ret.
    rewrite E1, E2. cbn [tick todos]. rewrite F. cbn [firstn]. rewrite E3.
    cbn [tick todos passengers faults]. unfold w3. do 2 f_equal.
    by destruct (faults w) as [|? [|? [|? ?]]]. }
  assert (~ In id (map todo_id (todos w3))) as Habs.
  { unfold w3. cbn [todos]. intros (t & E & Ht)%in_map_iff.
    apply filter_In in Ht as [_ Ht]. apply negb_true_iff, Z.eqb_neq in Ht. congruence. }
  exists w3. split; [exact R|]. split; [reflexivity|]. split; [exact Habs|].
  split.
  { intros t Ht. unfold w3. cbn [todos]. rewrite filter_In. split; [tauto|].
    intros H. split; [exact H|]. by apply negb_true_iff, Z.eqb_neq. }
  split; [reflexivity|].
  destruct (lookup_tools_absent w3 id Habs) as [_ (e & w'' & R2 & T2 & _ & He)].
  exists w''. rewrite (He H2) in R2. by split.
Qed.

(** GENERATE_TODO_WITH_AI with a reply whose title is not empty, on a store
    that answers: the new todo gets an id that no row had, is stored at the
    end of the table with [completed] 0 and returned with [completed]
    false, and a LIST_TODOS right after shows the old list followed by it. *)
Theorem generateTodo_inserts_fresh w g :
  String_of (object_title g) <> "" -> answers 4 w ->
  let title := String_of (object_title g) in
  let new_id := next_id (map todo_id (todos w)) in
  exists w',
    generateTodo (Ok g) w = (Ok (TodoView new_id (Some title) false), w')
    /\ ~ In new_id (map todo_id (todos w))
    /\ todos w' = todos w ++ [Todo new_id (Some title) (Some 0)]
    /\ passengers w' = passengers w
    /\ (listTodos w').1 = Ok (map view (todos w) ++ [TodoView new_id (Some title) false]).
Proof.
  intros Hne H4 title new_id.
  set (w2 := World (todos w ++ [Todo new_id (Some title) (Some 0)])
                   (passengers w) (drop 2 (faults w))).
  destruct (answers_drop 2 2 w w2 H4 eq_refl) as [H2 H2'].
  exists w2. split; [exact (generateTodo_run w g Hne H2)|].
  split; [apply next_id_fresh|]. split; [reflexivity|]. split; [reflexivity|].
  apply answers_S in H2' as [E1 H1]. apply answers_S in H1 as [E2 _].
  unfold listTodos, getDb, select_todos, bind, read, ret. rewrite E1, E2.
  cbn [fst tick todos w2]. rewrite map_app. reflexivity.
Qed.

(** A todo that was just generated can be toggled: with ids a primary key
    and a store that answers, TOGGLE_TODO on the returned id succeeds and
    reports the same id and title with [completed] true. *)
Theorem generated_todo_can_be_toggled w g :
  List.NoDup (map todo_id (todos w)) ->
  String_of (object_title g) <> "" -> answers 5 w ->
  exists r w1 w2,
    generateTodo (Ok g) w = (Ok r, w1)
    /\ toggleTodo (id r) w1 = (Ok (TodoView (id r) (title r) true), w2)
    /\ length (todos w2) = S (length (todos w)).
Proof.
  intros Hnd Hne H5.
  set (nid := next_id (map todo_id (todos w))).
  set (ttl := String_of (object_title g)).
  set (w1 := World (todos w ++ [Todo nid (Some ttl) (Some 0)])
                   (passengers w) (drop 2 (faults w))).
  destruct (answers_drop 2 3 w w1 H5 eq_refl) as [H2 H3].
  pose proof (generateTodo_run w g Hne H2) as R1. fold nid ttl w1 in R1.
  assert (List.NoDup (map todo_id (todos w1))) as Hnd1.
  { unfold w1. cbn [todos]. rewrite map_app. cbn [map todo_id].
    rewrite <- (rev_involutive (map todo_id (todos w) ++ [nid])). apply NoDup_rev.
    rewrite rev_app_distr. cbn. constructor; [rewrite <- in_rev; apply next_id_fresh|].
    by apply NoDup_rev. }
  assert (In (Todo nid (Some ttl) (Some 0)) (todos w1)) as Hin1.
  { unfold w1. cbn [todos]. apply in_or_app. right. by left. }
  pose proof (toggleTodo_run w1 _ Hnd1 Hin1 H3) as R2. cbn [todo_id todo_title
    todo_completed is_one negb] in R2.
  eexists _, w1, _. split; [exact R1|]. cbn [id title]. split; [exact R2|].
  cbn [todos w1]. rewrite length_map, length_app. cbn [length]. lia.
Qed.

End MoreTodoTheorems.

(* ===================================================================== *)
(** * The cached todo list follows the server *)
(* ===================================================================== *)

Section CacheCoherence.
Context {P : Type}.
Implicit Types (w : world P) (old : option Hooks.todos_data).
Import Tools Hooks.

(** The cache holds what LIST_TODOS would return for the table of [w]. *)
Definition in_sync old w : Prop :=
  old = Some (TodosData (Some (map view (todos w)))).

Lemma map_view_set_completed id0 c cur ts :
  List.NoDup (map todo_id ts) -> In cur ts -> todo_id cur = id0 ->
  map view (map (set_completed id0 c) ts)
  = map (fun todo => if id todo =? id (TodoView (todo_id cur) (todo_title cur) (is_one c))
                     then TodoView (todo_id cur) (todo_title cur) (is_one c) else todo)
        (map view ts).
Proof.
  intros Hnd Hcur <-. rewrite !map_map. apply map_ext_in. intros x Hx.
  cbn [id view].
  destruct (Z.eqb_spec (todo_id x) (todo_id cur)) as [E|N].
  - rewrite (set_completed_same _ c x E). unfold view. cbn [todo_id todo_title todo_completed].
    by rewrite (same_id_same_row cur x ts Hnd Hcur Hx E).
  - by rewrite (set_completed_other _ c x N).
Qed.

(** After a TOGGLE_TODO that returned, the updater of [useToggleTodo]
    applied to a cache that was in sync gives a cache in sync with the new
    table (ids being a primary key). *)
Theorem toggle_keeps_cache_in_sync w old id0 r w' :
  List.NoDup (map todo_id (todos w)) -> in_sync old w ->
  toggleTodo id0 w = (Ok r, w') ->
  in_sync (replace_toggled r old) w'.
Proof.
  intros Hnd -> R.
  destruct (toggleTodo_ok_inv w id0 r w' R) as (cur & rest & F & T & _ & ->).
  assert (In cur (List.filter (fun t => todo_id t =? id0) (todos w))) as Hc
    by (rewrite F; by left).
  apply filter_In in Hc as [Hin Hc]. apply Z.eqb_eq in Hc.
  unfold in_sync, replace_toggled. rewrite T. do 3 f_equal.
  rewrite (map_view_set_completed id0 _ cur (todos w) Hnd Hin Hc).
  apply map_ext. intros v. cbn [id is_one].
  by destruct (is_one (todo_completed cur)).
Qed.

Lemma filter_view_commute id0 (ts : list todo) :
  List.filter (fun todo => negb (id todo =? id0)) (map view ts)
  = map view (List.filter (fun t => negb (todo_id t =? id0)) ts).
Proof.
  induction ts as [|x ts IH]; cbn [map List.filter]; [reflexivity|].
  cbn [view id]. destruct (negb (todo_id x =? id0)); cbn [map]; by rewrite IH.
Qed.

(** After a DELETE_TODO that returned, the updater of [useDeleteTodo]
    applied to a cache that was in sync gives a cache in sync with the new
    table. *)
Theorem delete_keeps_cache_in_sync w old id0 r w' :
  in_sync old w ->
  deleteTodo id0 w = (Ok r, w') ->
  in_sync (remove_deleted r old) w'.
Proof.
  intros -> R. destruct (deleteTodo_ok_inv w id0 r w' R) as (_ & -> & T & _).
  unfold in_sync, remove_deleted. rewrite T. cbn [deletedId]. do 3 f_equal.
  apply filter_view_commute.
Qed.

(** After a GENERATE_TODO_WITH_AI that returned, the updater of
    [useGenerateTodoWithAI] applied to a cache that was in sync gives a
    cache in sync with the new table. *)
Theorem generate_keeps_cache_in_sync w old reply r w' :
  in_sync old w ->
  generateTodo reply w = (Ok r, w') ->
  in_sync (add_generated r old) w'.
Proof.
  intros -> R. destruct (generateTodo_ok_inv reply w r w' R) as (g & _ & _ & -> & T & _).
  unfold in_sync, add_generated. rewrite T, map_app. reflexivity.
Qed.

End CacheCoherence.

(* ===================================================================== *)
(** * Further properties of the passenger tools of server/tools.ts *)
(* ===================================================================== *)

Section MoreImport.
Import Tools.
Implicit Types (w : world passenger) (ps : list passenger).

Lemma insert_all_app ps data1 data2 :
  insert_all ps (data1 ++ data2) = insert_all (insert_all ps data1) data2.
Proof. unfold insert_all. apply fold_left_app. Qed.

(** Rows are only ever added behind the existing ones. *)
Lemma insert_all_prefix ps data :
  exists added, insert_all ps data = ps ++ added /\ length added = length data.
Proof.
  revert ps. induction data as [|d data IH]; intros ps.
  - exists []. cbn. by rewrite app_nil_r.
  - cbn [insert_all fold_left].
    destruct (IH (ps ++ [new_row (next_id (map passenger_id ps)) d])) as (a & E & L).
    unfold insert_all in E. rewrite E. eexists. rewrite <- app_assoc. split; [reflexivity|].
    cbn [length app]. by rewrite L.
Qed.

Lemma nodup_snoc_fresh (ids : list Z) :
  List.NoDup ids -> List.NoDup (ids ++ [next_id ids]).
Proof.
  intros Hnd. rewrite <- (rev_involutive (ids ++ [next_id ids])). apply NoDup_rev.
  rewrite rev_app_distr. cbn. constructor; [rewrite <- in_rev; apply next_id_fresh|].
  by apply NoDup_rev.
Qed.

Lemma insert_all_keeps_key ps data :
  List.NoDup (map passenger_id ps) -> List.NoDup (map passenger_id (insert_all ps data)).
Proof.
  revert ps. induction data as [|d data IH]; intros ps Hnd; [exact Hnd|].
  cbn [insert_all fold_left]. apply IH. rewrite map_app. cbn [map passenger_id new_row].
  by apply nodup_snoc_fresh.
Qed.

(** The loop when the store rejects the insert of the [k]-th row to come:
    the rows before it are in the table, and the loop throws. *)
Lemma import_lines_fail dataLines n w k e rest :
  (k < length (data_of dataLines))%nat ->
  faults w = replicate k None ++ Some e :: rest ->
  import_lines dataLines n w =
    (Throw e, World (todos w) (insert_all (passengers w) (take k (data_of dataLines))) rest).
Proof.
  revert n w k. induction dataLines as [|line lines IH]; intros n w k Hk Hf.
  - cbn in Hk. lia.
  - cbn [import_lines]. unfold data_of in *. cbn [List.filter] in *.
    destruct (truthy (trim line)); [|by apply IH].
    cbn [map length] in *. unfold insert_passenger, bind, store_call, read, write_passengers.
    rewrite Hf. destruct k as [|k]; cbn [replicate app tl take insert_all fold_left].
    + reflexivity.
    + cbn [todos passengers faults].
      rewrite (IH (S n) _ k); [reflexivity | lia | reflexivity].
Qed.

(** The loop keeps the primary key of the passengers, whatever the store
    does. *)
Lemma import_lines_keeps_key dataLines n w :
  List.NoDup (map passenger_id (passengers w)) ->
  List.NoDup (map passenger_id (passengers (import_lines dataLines n w).2)).
Proof.
  revert n w. induction dataLines as [|line lines IH]; intros n w Hnd; [exact Hnd|].
  cbn [import_lines]. destruct (truthy (trim line)); [|by apply IH].
  unfold insert_passenger, bind, store_call, read, write_passengers.
  destruct (faults w) as [|[e|] fs]; cbn [snd fst todos passengers faults tl].
  - apply IH. cbn [passengers]. rewrite map_app. cbn [map passenger_id new_row].
    by apply nodup_snoc_fresh.
  - exact Hnd.
  - apply IH. cbn [passengers]. rewrite map_app. cbn [map passenger_id new_row].
    by apply nodup_snoc_fresh.
Qed.

(** IMPORT_PASSENGERS_FROM_CSV on a store that answers: the first line is
    dropped as header, every other line that [trim] does not empty becomes
    one row, in order, behind the rows already there; [importedCount] is
    their number. *)
Theorem importPassengersFromCSV_imports csvContent w :
  let data := data_of (tl (split newline (trim csvContent))) in
  answers (1 + length data) w ->
  exists added,
    importPassengersFromCSV csvContent w =
      (Ok (ImportResult true (length data)
             ("Successfully imported " +:+ Js.of_nat (length data) +:+ " passengers from CSV")),
       World (todos w) (passengers w ++ added) (drop (1 + length data) (faults w)))
    /\ passengers w ++ added = insert_all (passengers w) data
    /\ length added = length data.
Proof.
  intros data H.
  set (w1 := World (todos w) (passengers w) (drop 1 (faults w))).
  destruct (answers_drop 1 (length data) w w1 H eq_refl) as [H1 Hr].
  destruct (insert_all_prefix (passengers w) data) as (added & E & L).
  exists added. split; [|split; [by rewrite E | exact L]].
  apply answers_S in H1 as [E1 _].
  unfold importPassengersFromCSV, try_catch, getDb, bind, ret. rewrite E1, tick_drop.
  fold w1. fold data in Hr |- *.
  rewrite (import_lines_run _ 0 w1 Hr). fold data. cbn [Nat.add todos passengers faults w1].
  rewrite drop_drop, <- E. reflexivity.
Qed.

(** IMPORT_PASSENGERS_FROM_CSV never throws.  When the store rejects the
    insert of a row after [k] rows went in, the result is
    [{success: false, importedCount: 0}] with the store's message, and the
    [k] rows stay in the table: there is no rollback. *)
Theorem importPassengersFromCSV_partial csvContent w k e rest :
  let data := data_of (tl (split newline (trim csvContent))) in
  (k < length data)%nat ->
  faults w = None :: replicate k None ++ Some e :: rest ->
  importPassengersFromCSV csvContent w =
    (Ok (ImportResult false 0 ("Error importing CSV: " +:+ error_message e)),
     World (todos w) (insert_all (passengers w) (take k data)) rest)
  /\ length (insert_all (passengers w) (take k data)) = (length (passengers w) + k)%nat.
Proof.
  intros data Hk Hf. split.
  - unfold importPassengersFromCSV, try_catch, getDb, bind, ret, store_call.
    rewrite Hf. cbn [tl].
    rewrite (import_lines_fail _ 0
               (World (todos w) (passengers w) (replicate k None ++ Some e :: rest))
               k e rest Hk eq_refl).
    reflexivity.
  - rewrite insert_all_length, length_take. lia.
Qed.

(** Both import tools keep the ids of the passengers a primary key,
    whatever the store does. *)
Theorem import_tools_keep_key w :
  List.NoDup (map passenger_id (passengers w)) ->
  (forall csvContent,
     List.NoDup (map passenger_id (passengers (importPassengersFromCSV csvContent w).2)))
  /\ List.NoDup (map passenger_id (passengers (populateTestData w).2)).
Proof.
  intros Hnd. split.
  - intros csvContent.
    unfold importPassengersFromCSV, try_catch, getDb, bind, ret, store_call.
    generalize (tl (split newline (trim csvContent))). intros lines.
    destruct w as [ts ps fs]. cbn [todos passengers faults] in *.
    destruct fs as [|[e|] fs]; cbn [tl snd passengers]; [| exact Hnd |].
    + pose proof (import_lines_keeps_key lines 0 (World ts ps []) Hnd) as K.
      destruct (import_lines lines 0 (World ts ps [])) as [[n|e] w1]; exact K.
    + pose proof (import_lines_keeps_key lines 0 (World ts ps fs) Hnd) as K.
      destruct (import_lines lines 0 (World ts ps fs)) as [[n|e] w1]; exact K.
  - unfold populateTestData, try_catch, getDb, select_passengers_limit1, bind, read, ret,
      store_call.
    generalize (tl (split newline (trim csvData))). intros lines.
    destruct w as [ts ps fs]. cbn [todos passengers faults] in *.
    destruct fs as [|[e1|] fs]; cbn [tl snd todos passengers faults]; [| exact Hnd |].
    + destruct (firstn 1 ps); [|exact Hnd].
      pose proof (import_lines_keeps_key lines 0 (World ts ps []) Hnd) as K.
      destruct (import_lines lines 0 (World ts ps [])) as [[n|e] w1]; exact K.
    + destruct fs as [|[e2|] fs]; cbn [tl snd todos passengers faults]; [| exact Hnd |].
      * destruct (firstn 1 ps); [|exact Hnd].
        pose proof (import_lines_keeps_key lines 0 (World ts ps []) Hnd) as K.
        destruct (import_lines lines 0 (World ts ps [])) as [[n|e] w1]; exact K.
      * destruct (firstn 1 ps); [|exact Hnd].
        pose proof (import_lines_keeps_key lines 0 (World ts ps fs) Hnd) as K.
        destruct (import_lines lines 0 (World ts ps fs)) as [[n|e] w1]; exact K.
Qed.

End MoreImport.

Section MoreReads.
Import JsNumber JsObject Tools.
Implicit Types (w : world passenger) (c : Context.t).

(** GET_PASSENGERS only reads: both tables are the same after every call.
    When [getDb] or the select is rejected with [e], the call throws an
    [Error] whose message is "Error fetching passengers: " followed by the
    message of [e]; it returns no result. *)
Theorem getPassengers_reads_only_and_wraps_errors w c :
  passengers (getPassengers c w).2 = passengers w
  /\ todos (getPassengers c w).2 = todos w
  /\ (forall e, pending_fault 2 (faults w) = Some e ->
      (getPassengers c w).1
      = Throw (JsError ("Error fetching passengers: " +:+ error_message e))).
Proof.
  unfold getPassengers, try_catch, getDb, select_passengers, bind, read, ret, throw,
    store_call.
  destruct w as [ts ps fs]. cbn [todos passengers faults].
  destruct fs as [|[e1|] [|[e2|] fs]]; cbn [tl fst snd todos passengers faults];
    (split; [reflexivity|]); (split; [reflexivity|]); intros e H; cbn in H;
    try discriminate H; by injection H as ->.
Qed.

(** A negative limit is handed to [slice] as it is: with the limit [-k]
    GET_PASSENGERS returns the rows that pass the filters without the last
    [k] of them (none when fewer than [k] pass). *)
Theorem getPassengers_negative_limit w c (n : Z) :
  answers 2 w -> Context.limit c = Some n -> n < 0 ->
  let passing := List.filter (matches c) (passengers w) in
  exists r w',
    getPassengers c w = (Ok r, w')
    /\ result_passengers r = firstn (length passing - Z.to_nat (- n)) passing
    /\ totalCount r = (length passing - Z.to_nat (- n))%nat.
Proof.
  intros H2 Hl Hn passing. eexists _, _. split; [apply (getPassengers_run w c H2)|].
  cbn [result_passengers totalCount]. fold passing. unfold apply_limit. rewrite Hl.
  destruct (Z.eqb_spec n 0) as [->|_]; [lia|].
  assert (slice0 n passing = firstn (length passing - Z.to_nat (- n)) passing) as ->.
  { unfold slice0. destruct (Z.ltb_spec n 0); [|lia]. f_equal. lia. }
  split; [reflexivity|]. rewrite length_firstn. lia.
Qed.

(** GET_PASSENGER_STATS on an empty passengers table and a store that
    answers: 0 passengers, three empty tables, average 0. *)
Theorem getPassengerStats_empty w :
  answers 2 w -> passengers w = [] ->
  exists w',
    getPassengerStats w =
      (Ok (Stats 0 empty_object empty_object empty_object zero
             "No passengers found in database"), w')
    /\ passengers w' = [] /\ todos w' = todos w.
Proof.
  intros H2 Hemp. apply answers_S in H2 as [E1 H1]. apply answers_S in H1 as [E2 _].
  unfold getPassengerStats, try_catch, getDb, select_passengers, bind, read, ret.
  rewrite E1, E2. cbn [tick passengers]. rewrite Hemp.
  eexists. split; [reflexivity|]. cbn [tick passengers todos]. by rewrite Hemp.
Qed.

(** GET_PASSENGER_STATS only reads, and wraps a rejection of the store in
    an [Error] with the message "Error calculating passenger stats: ...". *)
Theorem getPassengerStats_reads_only_and_wraps_errors w :
  passengers (getPassengerStats w).2 = passengers w
  /\ todos (getPassengerStats w).2 = todos w
  /\ (forall e, pending_fault 2 (faults w) = Some e ->
      (getPassengerStats w).1
      = Throw (JsError ("Error calculating passenger stats: " +:+ error_message e))).
Proof.
  unfold getPassengerStats, try_catch, getDb, select_passengers, bind, read, ret, throw,
    store_call.
  destruct w as [ts ps fs]. cbn [todos passengers faults].
  destruct fs as [|[e1|] [|[e2|] fs]]; cbn [tl fst snd todos passengers faults];
    try (destruct ps as [|p ps]); cbn [fst snd todos passengers];
    (split; [reflexivity|]); (split; [reflexivity|]); intros e H; cbn in H;
    try discriminate H; by injection H as ->.
Qed.

End MoreReads.

Section StatsOrder.
Import JsNumber JsObject Tools.
Implicit Types (w : world passenger).

Lemma occurrences_perm k (l l' : list string) :
  Permutation l l' -> occurrences k l = occurrences k l'.
Proof.
  unfold occurrences. induction 1 as [|x l l' _ IH|x y l|l l' l'' _ IH1 _ IH2];
    cbn [List.filter]; [reflexivity | | | congruence].
  - destruct (String.eqb k x); cbn [length]; by rewrite IH.
  - by destruct (String.eqb k x), (String.eqb k y).
Qed.

(** The three tables of a run on a store that answers, as folds of the
    loop's increment over the rows' keys. *)
Lemma getPassengerStats_folds w :
  answers 2 w ->
  exists s w',
    getPassengerStats w = (Ok s, w')
    /\ totalPassengers s = length (passengers w)
    /\ byTicketClass s = fold_left increment (map class_key (passengers w)) empty_object
    /\ byStatus s = fold_left increment (map status_key (passengers w)) empty_object
    /\ byFlight s = fold_left increment (map flight_key (passengers w)) empty_object.
Proof.
  intros H2. apply answers_S in H2 as [E1 H1]. apply answers_S in H1 as [E2 _].
  unfold getPassengerStats, try_catch, getDb, select_passengers, bind, read, ret.
  rewrite E1, E2. cbn [tick passengers].
  destruct (passengers w) as [|p ps] eqn:Eps.
  { eexists _, _. split; [reflexivity|]. cbn. repeat split; done. }
  rewrite <- Eps in *. rewrite fold_count_passenger.
  eexists _, _. split; [reflexivity|]. repeat split; reflexivity.
Qed.

Lemma fold_increment_perm (l l' : list string) :
  Permutation l l' ->
  Forall (fun k => inherited k = false) l ->
  fold_left increment l empty_object = fold_left increment l' empty_object.
Proof.
  intros Hp Hl.
  assert (Forall (fun k => inherited k = false) l') as Hl'.
  { apply List.Forall_forall. intros k Hin.
    apply (proj1 (List.Forall_forall _ _) Hl). by apply (Permutation_in k (Permutation_sym Hp)). }
  assert (forall k : string, (empty_object : JsObject.object) !! k = counted [] k) as He
    by (intros k; apply lookup_empty).
  pose proof (fold_increment_counted [] l _ He Hl) as K.
  pose proof (fold_increment_counted [] l' _ He Hl') as K'.
  cbn [app] in K, K'. unfold JsObject.object in *. apply map_eq. intros k.
  rewrite (K k), (K' k). unfold counted. by rewrite (occurrences_perm k _ _ Hp).
Qed.

(** A select without ORDER BY may return the rows in any order: the three
    counting tables and the total of GET_PASSENGER_STATS do not depend on
    it (for rows whose keys are not names every object inherits). *)
Theorem getPassengerStats_tables_ignore_order w1 w2 :
  answers 2 w1 -> answers 2 w2 ->
  Permutation (passengers w1) (passengers w2) ->
  Forall plain_keys (passengers w1) ->
  exists s1 w1' s2 w2',
    getPassengerStats w1 = (Ok s1, w1')
    /\ getPassengerStats w2 = (Ok s2, w2')
    /\ totalPassengers s1 = totalPassengers s2
    /\ byTicketClass s1 = byTicketClass s2
    /\ byStatus s1 = byStatus s2
    /\ byFlight s1 = byFlight s2.
Proof.
  intros H1 H2 Hp Hk1.
  destruct (getPassengerStats_folds w1 H1) as (s1 & w1' & R1 & T1 & C1 & S1 & F1).
  destruct (getPassengerStats_folds w2 H2) as (s2 & w2' & R2 & T2 & C2 & S2 & F2).
  exists s1, w1', s2, w2'. split; [exact R1|]. split; [exact R2|].
  split; [rewrite T1, T2; by apply Permutation_length|].
  rewrite C1, C2, S1, S2, F1, F2.
  split; [|split]; (apply fold_increment_perm; [by apply Permutation_map|]);
    apply Forall_map; (eapply Forall_impl; [exact Hk1|]); by intros ? (? & ? & ?).
Qed.

End StatsOrder.

(* ===================================================================== *)
(** * Further properties of the airline tool file *)
(* ===================================================================== *)

Section MoreAirlines.
Import Airlines.
Implicit Types (w : world passenger) (c : Context.t) (p : passenger).

(** The row passes every filter GET_PASSENGERS applies in this file. *)
Definition matches_airlines c p : bool :=
  wants (Context.flightNumber c) (flightNumber p)
  && wants (Context.departureCity c) (departureCity p)
  && wants (Context.arrivalCity c) (arrivalCity p)
  && wants (Context.status c) (status p).

Lemma airlines_filter_by_wants wanted field ps :
  filter_by wanted field ps = List.filter (fun p => wants wanted (field p)) ps.
Proof.
  unfold filter_by, wants. destruct wanted as [v|].
  - destruct (truthy v); [done|]. symmetry. by apply forallb_filter_id, forallb_forall.
  - symmetry. by apply forallb_filter_id, forallb_forall.
Qed.

Lemma airlines_getPassengers_run w c :
  answers 2 w ->
  let rows := map clean (apply_limit (Context.limit c)
                           (List.filter (matches_airlines c) (passengers w))) in
  getPassengers c w =
    (Ok (PassengersResult rows (length rows)
           ("Retrieved " +:+ Js.of_nat (length rows) +:+ " passengers from database")),
     tick (tick w)).
Proof.
  intros H2. apply answers_S in H2 as [E1 H1]. apply answers_S in H1 as [E2 _].
  unfold getPassengers, try_catch, getDb, select_passengers, bind, read, ret.
  rewrite E1, E2. cbn [tick passengers].
  rewrite !airlines_filter_by_wants, !filter_filter.
  assert (List.filter
            (fun x => wants (Context.flightNumber c) (flightNumber x)
                      && (wants (Context.departureCity c) (departureCity x)
                          && (wants (Context.arrivalCity c) (arrivalCity x)
                              && wants (Context.status c) (status x))))
            (passengers w)
          = List.filter (matches_airlines c) (passengers w)) as ->.
  { apply filter_ext. intros p. unfold matches_airlines. by rewrite !andb_assoc. }
  reflexivity.
Qed.

(** GET_PASSENGERS of the airline file, on a store that answers: every
    element returned is the cleaned form of a stored row that passes the
    filters, in table order; [totalCount] is the number returned; a
    positive limit N bounds it by N; the tables are only read. *)
Theorem airlines_getPassengers_cleans w c :
  answers 2 w ->
  exists r w',
    getPassengers c w = (Ok r, w')
    /\ totalCount r = length (result_passengers r)
    /\ (forall x, In x (result_passengers r) ->
        exists p, In p (passengers w) /\ matches_airlines c p = true /\ x = clean p)
    /\ (Context.limit c = None \/ Context.limit c = Some 0 ->
        result_passengers r = map clean (List.filter (matches_airlines c) (passengers w)))
    /\ (forall N, Context.limit c = Some N -> 0 < N ->
        Z.of_nat (length (result_passengers r)) <= N)
    /\ passengers w' = passengers w /\ todos w' = todos w.
Proof.
  intros H2. eexists _, _. split; [apply (airlines_getPassengers_run w c H2)|].
  cbn [totalCount result_passengers tick passengers todos].
  split; [reflexivity|]. split; [|split; [|split; [|done]]].
  - intros x (p & <- & Hp)%in_map_iff. exists p.
    assert (In p (List.filter (matches_airlines c) (passengers w))) as Hf.
    { unfold apply_limit in Hp. destruct (Context.limit c) as [n|]; [|exact Hp].
      destruct (n =? 0); [exact Hp|]. by apply slice0_sublist in Hp. }
    apply filter_In in Hf. tauto.
  - intros [-> | ->]; reflexivity.
  - intros N -> HN. unfold apply_limit. destruct (Z.eqb_spec N 0) as [->|_]; [lia|].
    rewrite length_map, slice0_positive by lia. rewrite length_firstn. lia.
Qed.

(** CLEAR_DATABASE on a store that answers. *)
Lemma clearDatabase_run w :
  answers 3 w ->
  exists r w',
    clearDatabase w = (Ok r, w')
    /\ clear_success r = true /\ deletedCount r = length (passengers w)
    /\ passengers w' = [] /\ todos w' = todos w
    /\ (exists n, (n <= 3)%nat /\ faults w' = drop n (faults w)).
Proof.
  intros H3. apply answers_S in H3 as [E1 H3]. apply answers_S in H3 as [E2 H3].
  apply answers_S in H3 as [E3 _].
  unfold clearDatabase, try_catch, getDb, select_passengers, delete_passengers,
    write_passengers, bind, read, ret.
  rewrite E1, E2. cbn [tick passengers].
  destruct (passengers w) as [|p ps] eqn:Eps; cbn [length Nat.eqb].
  - eexists _, _. split; [reflexivity|]. cbn [clear_success deletedCount tick passengers
      todos faults]. rewrite Eps. repeat split; try reflexivity.
    exists 2%nat. split; [lia|]. by destruct (faults w) as [|? [|? ?]].
  - rewrite E3.
    eexists _, _. split; [reflexivity|]. cbn [clear_success deletedCount tick passengers
      todos faults]. repeat split; try reflexivity.
    exists 3%nat. split; [lia|]. by destruct (faults w) as [|? [|? [|? ?]]].
Qed.

Lemma answers_drop_le n k m w w' :
  answers (n + m) w -> (k <= n)%nat -> faults w' = drop k (faults w) -> answers m w'.
Proof.
  intros H Hk Hf.
  assert (answers (k + m) w) as H' by (apply (answers_le (n + m)); [lia | exact H]).
  by destruct (answers_drop k m w w' H' Hf).
Qed.

(** CLEAR_DATABASE followed by POPULATE_TEST_DATA, on a store that
    answers, resets the passengers to the 200 sample rows whatever the
    table held: the clear reports the number of rows it found, the
    populate is not stopped by its guard and imports 200 rows, and the
    todos are untouched. *)
Theorem clear_then_populate_resets w :
  answers 205 w ->
  exists r1 w1 r2 w2,
    clearDatabase w = (Ok r1, w1)
    /\ clear_success r1 = true /\ deletedCount r1 = length (passengers w)
    /\ populateTestData w1 = (Ok r2, w2)
    /\ importedCount r2 = 200%nat
    /\ length (passengers w2) = 200%nat
    /\ todos w2 = todos w.
Proof.
  intros H.
  assert (answers 3 w) as H3 by (apply (answers_le 205); [lia | exact H]).
  destruct (clearDatabase_run w H3) as (r1 & w1 & R1 & S1 & D1 & P1 & T1 & n & Hn & F1).
  pose proof sample_rows_length as Ln.
  assert (answers (2 + length (parseCSVContent getCSVContent)) w1) as H202.
  { rewrite Ln. apply (answers_drop_le 3 n 202 w w1 H Hn F1). }
  unfold populateTestData.
  destruct (populate_airlines_returns getCSVContent w1) as (r2 & w2 & R2).
  destruct (populate_airlines_fresh_of getCSVContent w1 r2 w2 R2 P1 H202) as (Er & Ep & _).
  destruct (populate_airlines_appends getCSVContent w1) as (a & _ & T2).
  rewrite R2 in T2. cbn [snd] in T2.
  exists r1, w1, r2, w2. split; [exact R1|]. split; [exact S1|]. split; [exact D1|].
  split; [exact R2|]. split; [rewrite Er; exact Ln|].
  split; [rewrite Ep, inserted_from_length, Ln; reflexivity|]. congruence.
Qed.

(** CLEAR_DATABASE twice: after a clear that the store answered, the table
    is empty and a second clear reports 0 deleted rows and "Database is
    already empty". *)
Theorem clearDatabase_twice w :
  answers 5 w ->
  exists r1 w1 w2,
    clearDatabase w = (Ok r1, w1)
    /\ deletedCount r1 = length (passengers w)
    /\ passengers w1 = []
    /\ clearDatabase w1 = (Ok (ClearResult true 0 "Database is already empty"), w2)
    /\ passengers w2 = [].
Proof.
  intros H.
  assert (answers 3 w) as H3 by (apply (answers_le 5); [lia | exact H]).
  destruct (clearDatabase_run w H3) as (r1 & w1 & R1 & S1 & D1 & P1 & T1 & n & Hn & F1).
  pose proof (answers_drop_le 3 n 2 w w1 H Hn F1) as H2.
  apply answers_S in H2 as [E1 H2]. apply answers_S in H2 as [E2 _].
  exists r1, w1, (tick (tick w1)). split; [exact R1|]. split; [exact D1|].
  split; [exact P1|]. split.
  - unfold clearDatabase, try_catch, getDb, select_passengers, bind, read, ret.
    rewrite E1, E2. cbn [tick passengers]. rewrite P1. reflexivity.
  - cbn [tick passengers]. exact P1.
Qed.

End MoreAirlines.

(* ===================================================================== *)
(** * Further properties of the CSV ingestion *)
(* ===================================================================== *)

Section CsvFields.

(** [s.includes(c)] for a character. *)
Fixpoint contains (c : ascii) (s : string) : bool :=
  match s with
  | EmptyString => false
  | String a s' => Ascii.eqb a c || contains c s'
  end.

Lemma split_nonempty sep s : split sep s <> [].
Proof.
  destruct s as [|c s]; cbn; [discriminate|].
  destruct (Ascii.eqb c sep); [discriminate|]. by destruct (split sep s).
Qed.

(** The pieces [split] returns do not contain the separator. *)
Lemma split_pieces sep s : Forall (fun x => contains sep x = false) (split sep s).
Proof.
  induction s as [|c s IH]; cbn; [by repeat constructor|].
  destruct (Ascii.eqb c sep) eqn:E; [constructor; [reflexivity | exact IH]|].
  destruct (split sep s) as [|h t]; [by repeat constructor; cbn; rewrite E|].
  inversion IH as [|? ? Hh Ht]; subst. constructor; [|exact Ht]. cbn. by rewrite E, Hh.
Qed.

(** A text without the separator is one piece. *)
Lemma split_single sep s : contains sep s = false -> split sep s = [s].
Proof.
  induction s as [|c s IH]; cbn; [reflexivity|].
  intros [Hc Hs]%orb_false_iff. rewrite Hc, (IH Hs). reflexivity.
Qed.

Lemma or_else_piece sep (values : list string) (i : nat) d :
  Forall (fun x => contains sep x = false) values -> contains sep d = false ->
  contains sep (or_else (values !! i) d) = false.
Proof.
  intros Hv Hd. unfold or_else. destruct (values !! i) as [s|] eqn:E; [|exact Hd].
  destruct (truthy s); [|exact Hd].
  apply (proj1 (List.Forall_forall _ _) Hv). apply list_elem_of_In.
  by apply list_elem_of_lookup_2 in E.
Qed.

Lemma or_null_piece sep (values : list string) (i : nat) s :
  Forall (fun x => contains sep x = false) values ->
  or_null (values !! i) = Some s -> contains sep s = false.
Proof.
  intros Hv. unfold or_null. destruct (values !! i) as [x|] eqn:E; [|discriminate].
  destruct (truthy x); [|discriminate]. intros [= <-].
  apply (proj1 (List.Forall_forall _ _) Hv). apply list_elem_of_In.
  by apply list_elem_of_lookup_2 in E.
Qed.

(** No quoting: whatever the line, no field that the two parsers produce
    contains a comma. *)
Theorem parsed_fields_have_no_comma (line : string) :
  (let p := Airlines.parse_line line in
   Forall (fun field => contains "," field = false)
     [ Airlines.Parsed.firstName p; Airlines.Parsed.lastName p; Airlines.Parsed.email p;
       Airlines.Parsed.nationality p; Airlines.Parsed.dateOfBirth p;
       Airlines.Parsed.departureCity p; Airlines.Parsed.arrivalCity p;
       Airlines.Parsed.departureDate p; Airlines.Parsed.distance p;
       Airlines.Parsed.flightCost p ])
  /\ (let d := Tools.passengerData (split Tools.comma line) in
      Forall (fun field => contains "," field = false)
        [ Tools.PassengerData.firstName d; Tools.PassengerData.lastName d;
          Tools.PassengerData.email d; Tools.PassengerData.flightNumber d;
          Tools.PassengerData.departureCity d; Tools.PassengerData.arrivalCity d;
          Tools.PassengerData.departureDate d; Tools.PassengerData.status d ]
      /\ Forall (fun field => forall s, field = Some s -> contains "," s = false)
           [ Tools.PassengerData.phone d; Tools.PassengerData.passportNumber d;
             Tools.PassengerData.nationality d; Tools.PassengerData.dateOfBirth d;
             Tools.PassengerData.seatNumber d; Tools.PassengerData.ticketClass d;
             Tools.PassengerData.price d ]).
Proof.
  pose proof (split_pieces "," line) as Hv.
  split; [|split].
  - cbv zeta. unfold Airlines.parse_line, Airlines.comma.
    cbn [Airlines.Parsed.firstName Airlines.Parsed.lastName Airlines.Parsed.email
      Airlines.Parsed.nationality Airlines.Parsed.dateOfBirth Airlines.Parsed.departureCity
      Airlines.Parsed.arrivalCity Airlines.Parsed.departureDate Airlines.Parsed.distance
      Airlines.Parsed.flightCost].
    repeat constructor; by apply or_else_piece.
  - unfold Tools.passengerData, Tools.comma.
    cbn [Tools.PassengerData.firstName Tools.PassengerData.lastName
      Tools.PassengerData.email Tools.PassengerData.flightNumber
      Tools.PassengerData.departureCity Tools.PassengerData.arrivalCity
      Tools.PassengerData.departureDate Tools.PassengerData.status].
    repeat constructor; by apply or_else_piece.
  - unfold Tools.passengerData, Tools.comma.
    cbn [Tools.PassengerData.phone Tools.PassengerData.passportNumber
      Tools.PassengerData.nationality Tools.PassengerData.dateOfBirth
      Tools.PassengerData.seatNumber Tools.PassengerData.ticketClass
      Tools.PassengerData.price].
    repeat constructor; intros s; by apply or_null_piece.
Qed.

(** A text that is one line once trimmed is all header: [parseCSVContent]
    returns no row, and IMPORT_PASSENGERS_FROM_CSV imports none and still
    reports success. *)
Theorem header_only_imports_nothing (csvContent : string) :
  contains Tools.newline (trim csvContent) = false ->
  Airlines.parseCSVContent csvContent = []
  /\ forall w : world Tools.passenger,
       answers 1 w ->
       Tools.importPassengersFromCSV csvContent w =
         (Ok (Tools.ImportResult true 0 "Successfully imported 0 passengers from CSV"),
          tick w).
Proof.
  intros Hn. split.
  - unfold Airlines.parseCSVContent, Airlines.newline.
    change (byte 10) with Tools.newline. by rewrite (split_single _ _ Hn).
  - intros w H1. apply answers_S in H1 as [E1 _].
    unfold Tools.importPassengersFromCSV, try_catch, getDb, bind, ret.
    rewrite E1, (split_single _ _ Hn). reflexivity.
Qed.

End CsvFields.

Section FlightNumbers.
Import Airlines.
Implicit Types (w : world passenger) (ps : list passenger).

Lemma inserted_from_append k ps rows :
  exists added,
    inserted_from k ps rows = ps ++ added
    /\ map flightNumber added = map (fun i => Some (generated_flight i)) (seq k (length rows))
    /\ map price added = map (fun p => Some (Parsed.flightCost p)) rows
    /\ map status added = map (fun _ => None) rows.
Proof.
  revert k ps. induction rows as [|p rows IH]; intros k ps.
  - exists []. cbn. by rewrite app_nil_r.
  - cbn [inserted_from length seq map].
    destruct (IH (S k) (ps ++ [new_row (next_id (map passenger_id ps)) k p]))
      as (a & E & F & Pr & St).
    exists (new_row (next_id (map passenger_id ps)) k p :: a).
    rewrite E, <- app_assoc. cbn [app map flightNumber price status new_row].
    by rewrite F, Pr, St.
Qed.

(** [insertPassengers] on a store that answers appends one row per parsed
    row; the row at position i gets the flight number "BR" followed by
    i+1 padded to four digits, whatever the table already holds, so every
    call numbers its rows from BR0001 again; [status] is left NULL and the
    price is the CSV's [flightCost]. *)
Theorem insertPassengers_numbers_flights w (rows : list Parsed.t) :
  answers (length rows) w ->
  exists added w',
    insertPassengers rows w = (Ok (length rows), w')
    /\ passengers w' = passengers w ++ added
    /\ todos w' = todos w
    /\ map flightNumber added
       = map (fun i => Some (generated_flight i)) (seq 0 (length rows))
    /\ map price added = map (fun p => Some (Parsed.flightCost p)) rows
    /\ map status added = map (fun _ => None) rows.
Proof.
  intros H. destruct (inserted_from_append 0 (passengers w) rows) as (added & E & F & Pr & St).
  exists added. eexists. split; [apply (insert_from_run rows 0 w H)|].
  cbn [passengers todos]. by rewrite E.
Qed.

(** The number a text of decimal digits stands for, leading zeros allowed
    (0 for any other text). *)
Definition decimal_value (s : string) : nat :=
  match NilEmpty.uint_of_string s with
  | Some d => Nat.of_uint d
  | None => O
  end.

(** The number a flight number carries after its two letters. *)
Definition flight_counter (flight : string) : nat :=
  match flight with
  | String _ (String _ number) => decimal_value number
  | _ => O
  end.

Lemma decimal_value_of_nat n : decimal_value (Js.of_nat n) = n.
Proof.
  unfold decimal_value, Js.of_nat, NilZero.string_of_uint.
  destruct (Nat.to_uint n) as [| d | d | d | d | d | d | d | d | d | d] eqn:E;
    try (rewrite <- E, NilEmpty.usu; apply DecimalNat.Unsigned.of_to).
  cbn. rewrite <- (DecimalNat.Unsigned.of_to n), E. reflexivity.
Qed.

Lemma decimal_value_zero s : decimal_value (String "0" s) = decimal_value s.
Proof.
  unfold decimal_value. cbn [NilEmpty.uint_of_string].
  destruct (NilEmpty.uint_of_string s) as [d|]; reflexivity.
Qed.

Lemma decimal_value_padStart n s : decimal_value (padStart n "0" s) = decimal_value s.
Proof.
  unfold padStart. induction (n - String.length s)%nat as [|k IH]; [reflexivity|].
  change (repeat_string (S k) "0" +:+ s) with (String "0" (repeat_string k "0" +:+ s)).
  by rewrite decimal_value_zero.
Qed.

Lemma length_padStart n c s :
  String.length (padStart n c s) = Nat.max n (String.length s).
Proof.
  unfold padStart.
  assert (forall k, String.length (repeat_string k c +:+ s) = (k + String.length s)%nat) as ->.
  { induction k as [|k IH]; [reflexivity|].
    change (repeat_string (S k) c +:+ s) with (String c (repeat_string k c +:+ s)).
    cbn [String.length]. by rewrite IH. }
  lia.
Qed.

(** The number of rows up to which four digits are enough. *)
Definition four_digit_rows : nat := Z.to_nat 9999.

(** Format of the generated flight numbers: "BR" and the decimal text of
    i+1 filled up with zeros to four characters, never cut; the number can
    be read back, so different positions get different flight numbers; the
    9999th row is the last with six characters. *)
Theorem generated_flight_format :
  (forall i, String.length (generated_flight i)
             = (2 + Nat.max 4 (String.length (Js.of_nat (i + 1))))%nat)
  /\ (forall i, flight_counter (generated_flight i) = (i + 1)%nat)
  /\ (forall i j, generated_flight i = generated_flight j -> i = j)
  /\ generated_flight 0 = "BR0001"
  /\ generated_flight (four_digit_rows - 1) = "BR9999"
  /\ generated_flight four_digit_rows = "BR10000".
Proof.
  assert (forall i, flight_counter (generated_flight i) = (i + 1)%nat) as K.
  { intros i. unfold generated_flight.
    change (decimal_value (padStart 4 "0" (Js.of_nat (i + 1))) = (i + 1)%nat).
    by rewrite decimal_value_padStart, decimal_value_of_nat. }
  split; [|split; [exact K|split]].
  - intros i. unfold generated_flight.
    change (S (S (String.length (padStart 4 "0" (Js.of_nat (i + 1)))))
            = (2 + Nat.max 4 (String.length (Js.of_nat (i + 1))))%nat).
    by rewrite length_padStart.
  - intros i j E. pose proof (K i) as Ki. rewrite E, (K j) in Ki. lia.
  - repeat split; vm_compute; reflexivity.
Qed.

End FlightNumbers.

(* ===================================================================== *)
(** * The further properties at concrete inputs *)
(* ===================================================================== *)

Lemma two_todos_ok : todos_ok (todos two_todos).
Proof.
  split; [exact two_todos_nodup|].
  constructor; [left; reflexivity|].
  constructor; [right; reflexivity|].
  constructor.
Defined.

Lemma toggleTodo_absent_fails_witness :
  exists e w',
    Tools.toggleTodo 7 two_todos = (Throw e, w')
    /\ todos w' = todos two_todos
    /\ passengers w' = passengers two_todos
    /\ (answers 2 two_todos -> e = JsError "Todo not found")
    /\ (forall e0, pending_fault 2 (faults two_todos) = Some e0 -> e = e0).
Proof.
  apply (toggleTodo_absent_fails two_todos 7).
  simpl. intros [H | [H | []]]; discriminate H.
Defined.

Lemma deleteTodo_present_removes_witness :
  exists w',
    Tools.deleteTodo 2 two_todos = (Ok (Tools.DeleteResult true 2), w')
    /\ todos w' = List.filter (fun t => negb (todo_id t =? 2)) (todos two_todos)
    /\ ~ In 2 (map todo_id (todos w'))
    /\ (forall t, todo_id t <> 2 -> (In t (todos w') <-> In t (todos two_todos)))
    /\ passengers w' = passengers two_todos
    /\ exists w'', Tools.deleteTodo 2 w' = (Throw (JsError "Todo not found"), w'')
                   /\ todos w'' = todos w'.
Proof.
  apply (deleteTodo_present_removes two_todos 2).
  - simpl. right. left. reflexivity.
  - reflexivity.
Defined.

Definition nap_reply : Tools.generated := Tools.Generated (Some (Tools.JString "take a nap")).

Lemma generateTodo_inserts_fresh_witness :
  let title := Tools.String_of (Tools.object_title nap_reply) in
  let new_id := next_id (map todo_id (todos two_todos)) in
  exists w',
    Tools.generateTodo (Ok nap_reply) two_todos
    = (Ok (Tools.TodoView new_id (Some title) false), w')
    /\ ~ In new_id (map todo_id (todos two_todos))
    /\ todos w' = todos two_todos ++ [Todo new_id (Some title) (Some 0)]
    /\ passengers w' = passengers two_todos
    /\ (Tools.listTodos w').1
       = Ok (map view (todos two_todos) ++ [Tools.TodoView new_id (Some title) false]).
Proof.
  apply (generateTodo_inserts_fresh two_todos nap_reply).
  - discriminate.
  - reflexivity.
Defined.

Lemma generated_todo_can_be_toggled_witness :
  exists r w1 w2,
    Tools.generateTodo (Ok nap_reply) two_todos = (Ok r, w1)
    /\ Tools.toggleTodo (Tools.id r) w1
       = (Ok (Tools.TodoView (Tools.id r) (Tools.title r) true), w2)
    /\ length (todos w2) = S (length (todos two_todos)).
Proof.
  apply (generated_todo_can_be_toggled two_todos nap_reply).
  - exact two_todos_nodup.
  - discriminate.
  - reflexivity.
Defined.

Lemma todo_tools_keep_ok_witness :
  (forall reply, todos_ok (todos (Tools.generateTodo reply two_todos).2))
  /\ (forall id, todos_ok (todos (Tools.toggleTodo id two_todos).2))
  /\ (forall id, todos_ok (todos (Tools.deleteTodo id two_todos).2)).
Proof. apply (todo_tools_keep_ok two_todos). exact two_todos_ok. Defined.

Definition two_todos_cache : option Hooks.todos_data :=
  Some (Hooks.TodosData (Some (map view (todos two_todos)))).

Lemma toggle_keeps_cache_in_sync_witness :
  in_sync (Hooks.replace_toggled (Tools.TodoView 1 (Some "water the cactus") true)
             two_todos_cache)
          (Tools.toggleTodo 1 two_todos).2.
Proof.
  apply (toggle_keeps_cache_in_sync two_todos two_todos_cache 1).
  - exact two_todos_nodup.
  - reflexivity.
  - reflexivity.
Defined.

Lemma delete_keeps_cache_in_sync_witness :
  in_sync (Hooks.remove_deleted (Tools.DeleteResult true 1) two_todos_cache)
          (Tools.deleteTodo 1 two_todos).2.
Proof.
  apply (delete_keeps_cache_in_sync two_todos two_todos_cache 1).
  - reflexivity.
  - reflexivity.
Defined.

Lemma generate_keeps_cache_in_sync_witness :
  in_sync (Hooks.add_generated (Tools.TodoView 3 (Some "take a nap") false) two_todos_cache)
          (Tools.generateTodo (Ok nap_reply) two_todos).2.
Proof.
  apply (generate_keeps_cache_in_sync two_todos two_todos_cache (Ok nap_reply)).
  - reflexivity.
  - reflexivity.
Defined.

Definition empty_tools_world : world Tools.passenger := World [] [] [].

Lemma importPassengersFromCSV_imports_witness :
  let data := data_of (tl (split Tools.newline (trim two_column_csv))) in
  exists added,
    Tools.importPassengersFromCSV two_column_csv three_passengers =
      (Ok (Tools.ImportResult true (length data)
             ("Successfully imported " +:+ Js.of_nat (length data) +:+ " passengers from CSV")),
       World (todos three_passengers) (passengers three_passengers ++ added)
             (drop (1 + length data) (faults three_passengers)))
    /\ passengers three_passengers ++ added = insert_all (passengers three_passengers) data
    /\ length added = length data.
Proof. apply (importPassengersFromCSV_imports two_column_csv three_passengers). reflexivity. Defined.

(** A store that lets [getDb] and one insert through and rejects the next. *)
Definition failing_second_insert : world Tools.passenger :=
  World [] [] [None; None; Some (JsError "D1_ERROR: disk full"); None].

Definition two_rows_csv : string :=
"firstName,lastName
Ana,Lima
Rui,Melo".

Lemma importPassengersFromCSV_partial_witness :
  let data := data_of (tl (split Tools.newline (trim two_rows_csv))) in
  Tools.importPassengersFromCSV two_rows_csv failing_second_insert =
    (Ok (Tools.ImportResult false 0
           ("Error importing CSV: " +:+ error_message (JsError "D1_ERROR: disk full"))),
     World (todos failing_second_insert)
           (insert_all (passengers failing_second_insert) (take 1 data)) [None])
  /\ length (insert_all (passengers failing_second_insert) (take 1 data))
     = (length (passengers failing_second_insert) + 1)%nat.
Proof.
  apply (importPassengersFromCSV_partial two_rows_csv failing_second_insert 1
           (JsError "D1_ERROR: disk full") [None]).
  - vm_compute. lia.
  - reflexivity.
Defined.

Lemma three_passengers_key : List.NoDup (map Tools.passenger_id (passengers three_passengers)).
Proof. repeat constructor; simpl; intuition discriminate. Defined.

Lemma import_tools_keep_key_witness :
  (forall csvContent,
     List.NoDup (map Tools.passenger_id
                   (passengers (Tools.importPassengersFromCSV csvContent three_passengers).2)))
  /\ List.NoDup (map Tools.passenger_id
                   (passengers (Tools.populateTestData three_passengers).2)).
Proof. apply (import_tools_keep_key three_passengers). exact three_passengers_key. Defined.

Lemma getPassengers_negative_limit_witness :
  let passing := List.filter (matches (with_limit (-2))) (passengers three_passengers) in
  exists r w',
    Tools.getPassengers (with_limit (-2)) three_passengers = (Ok r, w')
    /\ Tools.result_passengers r = firstn (length passing - Z.to_nat (- -2)) passing
    /\ Tools.totalCount r = (length passing - Z.to_nat (- -2))%nat.
Proof.
  apply (getPassengers_negative_limit three_passengers (with_limit (-2)) (-2)).
  - reflexivity.
  - reflexivity.
  - lia.
Defined.

Lemma getPassengerStats_empty_witness :
  exists w',
    Tools.getPassengerStats empty_tools_world =
      (Ok (Tools.Stats 0 JsObject.empty_object JsObject.empty_object JsObject.empty_object
             JsNumber.zero "No passengers found in database"), w')
    /\ passengers w' = [] /\ todos w' = todos empty_tools_world.
Proof. apply (getPassengerStats_empty empty_tools_world); reflexivity. Defined.

Lemma three_passengers_plain : Forall plain_keys (passengers three_passengers).
Proof. repeat constructor. Defined.

Lemma getPassengerStats_plain_keys_witness :
  exists s w',
    Tools.getPassengerStats three_passengers = (Ok s, w')
    /\ Tools.totalPassengers s = length (passengers three_passengers)
    /\ (forall k, Tools.byTicketClass s !! k
                  = counted (map class_key (passengers three_passengers)) k)
    /\ (forall k, Tools.byStatus s !! k
                  = counted (map status_key (passengers three_passengers)) k)
    /\ (forall k, Tools.byFlight s !! k
                  = counted (map flight_key (passengers three_passengers)) k)
    /\ Tools.averagePrice s =
       (let prices := omap Tools.parsed_price (passengers three_passengers) in
        match prices with
        | [] => JsNumber.zero
        | _ :: _ => Tools.round_to_cents
                      (JsNumber.div (fold_left JsNumber.add prices JsNumber.zero)
                                    (JsNumber.of_nat (length prices)))
        end)
    /\ passengers w' = passengers three_passengers /\ todos w' = todos three_passengers.
Proof.
  apply (getPassengerStats_plain_keys three_passengers).
  - reflexivity.
  - exact three_passengers_plain.
Defined.

(** The same three rows, stored in the opposite order. *)
Definition three_passengers_reversed : world Tools.passenger :=
  World [] (rev (passengers three_passengers)) [].

Lemma getPassengerStats_tables_ignore_order_witness :
  exists s1 w1' s2 w2',
    Tools.getPassengerStats three_passengers = (Ok s1, w1')
    /\ Tools.getPassengerStats three_passengers_reversed = (Ok s2, w2')
    /\ Tools.totalPassengers s1 = Tools.totalPassengers s2
    /\ Tools.byTicketClass s1 = Tools.byTicketClass s2
    /\ Tools.byStatus s1 = Tools.byStatus s2
    /\ Tools.byFlight s1 = Tools.byFlight s2.
Proof.
  apply (getPassengerStats_tables_ignore_order three_passengers three_passengers_reversed).
  - reflexivity.
  - reflexivity.
  - apply Permutation_rev.
  - exact three_passengers_plain.
Defined.

(** Two rows of the airline schema, one with NULL columns. *)
Definition airline_rows : world Airlines.passenger :=
  World []
    [ Airlines.Passenger 1 (Some "Ana") (Some "Lima") (Some "ana@mail.io") None
        (Some "Brazilian") (Some "1990-03-15") (Some "BR0001") (Some "Recife") (Some "Natal")
        (Some "2025-09-01") (Some "350") None (Some "357") (Some "CURRENT_TIMESTAMP");
      Airlines.Passenger 2 (Some "Rui") None None None None None (Some "BR0002")
        (Some "Recife") None None None (Some "confirmed") None None ]
    [].

Definition from_recife : Airlines.Context.t :=
  Airlines.Context.Make None (Some "Recife") None None (Some 1).

Lemma airlines_getPassengers_cleans_witness :
  exists r w',
    Airlines.getPassengers from_recife airline_rows = (Ok r, w')
    /\ Airlines.totalCount r = length (Airlines.result_passengers r)
    /\ (forall x, In x (Airlines.result_passengers r) ->
        exists p, In p (passengers airline_rows)
                  /\ matches_airlines from_recife p = true /\ x = Airlines.clean p)
    /\ (Some 1 = None \/ Some 1 = Some 0 ->
        Airlines.result_passengers r
        = map Airlines.clean (List.filter (matches_airlines from_recife)
                                (passengers airline_rows)))
    /\ (forall N, Some 1 = Some N -> 0 < N ->
        Z.of_nat (length (Airlines.result_passengers r)) <= N)
    /\ passengers w' = passengers airline_rows /\ todos w' = todos airline_rows.
Proof. apply (airlines_getPassengers_cleans airline_rows from_recife). reflexivity. Defined.

Lemma clear_then_populate_resets_witness :
  exists r1 w1 r2 w2,
    Airlines.clearDatabase airline_rows = (Ok r1, w1)
    /\ Airlines.clear_success r1 = true
    /\ Airlines.deletedCount r1 = length (passengers airline_rows)
    /\ Airlines.populateTestData w1 = (Ok r2, w2)
    /\ Airlines.importedCount r2 = 200%nat
    /\ length (passengers w2) = 200%nat
    /\ todos w2 = todos airline_rows.
Proof. apply (clear_then_populate_resets airline_rows). reflexivity. Defined.

Lemma clearDatabase_twice_witness :
  exists r1 w1 w2,
    Airlines.clearDatabase airline_rows = (Ok r1, w1)
    /\ Airlines.deletedCount r1 = length (passengers airline_rows)
    /\ passengers w1 = []
    /\ Airlines.clearDatabase w1
       = (Ok (Airlines.ClearResult true 0 "Database is already empty"), w2)
    /\ passengers w2 = [].
Proof. apply (clearDatabase_twice airline_rows). reflexivity. Defined.

Definition two_parsed_rows : list Airlines.Parsed.t :=
  Airlines.parseCSVContent
"firstName,lastName,email,nationality,dateOfBirth,departureCity,arrivalCity,departureDate,distance,flightCost
Ana,Lima,ana@mail.io,Brazilian,1990-03-15,Recife,Natal,2025-09-01,357,350
Rui,Melo,rui@mail.io,Brazilian,1985-07-22,Natal,Recife,2025-09-05,357,320".

Lemma insertPassengers_numbers_flights_witness :
  exists added w',
    Airlines.insertPassengers two_parsed_rows airline_rows = (Ok (length two_parsed_rows), w')
    /\ passengers w' = passengers airline_rows ++ added
    /\ todos w' = todos airline_rows
    /\ map Airlines.flightNumber added
       = map (fun i => Some (Airlines.generated_flight i)) (seq 0 (length two_parsed_rows))
    /\ map Airlines.price added
       = map (fun p => Some (Airlines.Parsed.flightCost p)) two_parsed_rows
    /\ map Airlines.status added = map (fun _ => None) two_parsed_rows.
Proof. apply (insertPassengers_numbers_flights airline_rows two_parsed_rows). reflexivity. Defined.

Lemma header_only_imports_nothing_witness :
  Airlines.parseCSVContent "firstName,lastName,email" = []
  /\ forall w : world Tools.passenger,
       answers 1 w ->
       Tools.importPassengersFromCSV "firstName,lastName,email" w =
         (Ok (Tools.ImportResult true 0 "Successfully imported 0 passengers from CSV"),
          tick w).
Proof. apply (header_only_imports_nothing "firstName,lastName,email"). reflexivity. Defined.
